(** * The synthetic stream pipeline of the MYNT EYE S SDK

    A shallow embedding of [src/mynteye/api/synthetic.cc] (the class
    [Synthetic]) and of the parts of the processor graph it drives.

    Processors are shared objects ([std::shared_ptr<Processor>]) that the
    pipeline reaches both through [processors_] and through the child lists.
    They are modelled as an arena: [processors_] is the store, a processor is
    designated by its class name, and every mutation goes through the store,
    so that all aliases observe it.

    Function-scope statics ([output] of [GetStreamData], the eye slots of
    [ProcessNativeStream]) live in a separate record, [Statics], that is
    threaded through the calls. *)

From Stdlib Require Import ZArith List Bool Lia.
Import ListNotations.

Set Implicit Arguments.

(** ** Enumerations *)

(** [Stream] (types.h).  The eight feeds the pipeline names, and [LAST], the
    end marker of the enumeration, which no processor registers. *)
Inductive Stream : Type :=
  | LEFT | RIGHT | LEFT_RECTIFIED | RIGHT_RECTIFIED
  | DISPARITY | DISPARITY_NORMALIZED | POINTS | DEPTH
  | LAST.

Definition Stream_eq_dec (a b : Stream) : {a = b} + {a <> b}.
Proof. decide equality. Defined.

Definition Stream_eqb (a b : Stream) : bool :=
  if Stream_eq_dec a b then true else false.

(** [Synthetic::mode_t].  [MODE_LAST] is the "none / disabled" mode. *)
Inductive mode_t : Type := MODE_NATIVE | MODE_SYNTHETIC | MODE_LAST.

Definition mode_eq_dec (a b : mode_t) : {a = b} + {a <> b}.
Proof. decide equality. Defined.

Definition mode_eqb (a b : mode_t) : bool :=
  if mode_eq_dec a b then true else false.

Inductive CalibrationModel : Type := PINHOLE | KANNALA_BRANDT | UNKNOW.

Definition CalibrationModel_eq_dec (a b : CalibrationModel) : {a = b} + {a <> b}.
Proof. decide equality. Defined.

Definition calib_eqb (a b : CalibrationModel) : bool :=
  if CalibrationModel_eq_dec a b then true else false.

Inductive Format : Type := YUYV | BGR888 | GRAY.

(** The processor classes instantiated by [InitProcessors]; a processor is
    designated by its class, as [find_processor<T>] and the [NAME] constants
    do in the source. *)
Inductive ProcName : Type :=
  | RootProcessor
  | RectifyProcessorOCV | RectifyProcessor
  | DisparityProcessor
  | DisparityNormalizedProcessor
  | PointsProcessorOCV | PointsProcessor
  | DepthProcessorOCV | DepthProcessor.

Definition ProcName_eq_dec (a b : ProcName) : {a = b} + {a <> b}.
Proof. decide equality. Defined.

Definition ProcName_eqb (a b : ProcName) : bool :=
  if ProcName_eq_dec a b then true else false.

(** ** Data records *)

(** [cv::Mat]: opaque to the pipeline; only its shape, element type and
    storage are carried.  The default-constructed matrix is empty. *)
Inductive MatType : Type := CV_8UC1 | CV_8UC2 | CV_8UC3.

Record Mat : Type := mkMat {
  rows : Z;
  cols : Z;
  mtype : MatType;
  mdata : list Z
}.

Definition Mat_empty : Mat := mkMat 0 0 CV_8UC1 [].

Definition Mat_is_empty (m : Mat) : bool :=
  match mdata m with [] => true | _ :: _ => false end.

(** [ImgData]: frame id (uint16), timestamp and exposure time. *)
Record ImgData : Type := mkImgData {
  img_frame_id : Z;
  img_timestamp : Z;
  img_exposure_time : Z
}.

(** [device::Frame]. *)
Record Frame : Type := mkFrame {
  frame_format : Format;
  frame_width : Z;
  frame_height : Z;
  frame_data : list Z
}.

(** [device::StreamData] and [api::StreamData].  The pointers [img], [frame]
    and [frame_raw] may be null. *)
Record device_StreamData : Type := mkDeviceStreamData {
  dev_img : option ImgData;
  dev_frame : option Frame;
  dev_frame_id : Z
}.

Record StreamData : Type := mkStreamData {
  img : option ImgData;
  frame : Mat;
  frame_raw : option Frame;
  frame_id : Z
}.

(** [return {}]: a value-initialised [api::StreamData]. *)
Definition StreamData_empty : StreamData := mkStreamData None Mat_empty None 0.

(** [ObjMat] and [ObjMat2], the single and the paired payload. *)
Record ObjMat : Type := mkObjMat {
  value : Mat;
  id : Z;
  data : option ImgData
}.

Record ObjMat2 : Type := mkObjMat2 {
  first : Mat;
  first_id : Z;
  first_data : option ImgData;
  second : Mat;
  second_id : Z;
  second_data : option ImgData
}.

Inductive Object : Type :=
  | Obj1 (o : ObjMat)
  | Obj2 (o : ObjMat2).

(** [Object::Cast<ObjMat>] and [Object::Cast<ObjMat2>]: null on a payload of
    the other shape. *)
Definition Cast_ObjMat (o : Object) : option ObjMat :=
  match o with Obj1 m => Some m | Obj2 _ => None end.

Definition Cast_ObjMat2 (o : Object) : option ObjMat2 :=
  match o with Obj2 m => Some m | Obj1 _ => None end.

(** A [stream_callback_t] is a [std::function]; it is identified by a handle,
    [None] being the empty function ([nullptr]). *)
Definition stream_callback_t : Type := option nat.

(** [Synthetic::stream_control_t], in the order of its aggregate
    initialisers: stream, support mode, enabled mode, callback. *)
Record stream_control_t : Type := mkControl {
  stream : Stream;
  support_mode_ : mode_t;
  enabled_mode_ : mode_t;
  stream_callback : stream_callback_t
}.

(** [return {}] in [getControlDateWithStream]: every member zero. *)
Definition stream_control_default : stream_control_t :=
  mkControl LEFT MODE_NATIVE MODE_NATIVE None.

Definition set_enabled_mode (m : mode_t) (t : stream_control_t) : stream_control_t :=
  mkControl (stream t) (support_mode_ t) m (stream_callback t).

Definition set_support_mode (m : mode_t) (t : stream_control_t) : stream_control_t :=
  mkControl (stream t) m (enabled_mode_ t) (stream_callback t).

Definition set_stream_callback (c : stream_callback_t) (t : stream_control_t)
  : stream_control_t :=
  mkControl (stream t) (support_mode_ t) (enabled_mode_ t) c.

(** ** Processors *)

(** The state of a [Processor] the pipeline reads and writes: its target
    streams, its children (by name), the activation flag and the latest
    published output. *)
Record Processor : Type := mkProcessor {
  Name : ProcName;
  target_streams_ : list stream_control_t;
  childs_ : list ProcName;
  activated_ : bool;
  output_result_ : option Object
}.

(** Modelled from the spec: the [Processor] constructor (processor.cc).
    A stage is created with no target stream, no child, no
    output, and deactivated. *)
Definition Processor_new (n : ProcName) : Processor :=
  mkProcessor n [] [] false None.

Definition getTargetStreams (p : Processor) : list stream_control_t :=
  target_streams_ p.

(** Modelled from the spec: [Processor::getStreamsSum], the number of
    registered target streams. *)
Definition getStreamsSum (p : Processor) : nat := length (target_streams_ p).

Definition IsActivated (p : Processor) : bool := activated_ p.

Definition with_target_streams (ts : list stream_control_t) (p : Processor) : Processor :=
  mkProcessor (Name p) ts (childs_ p) (activated_ p) (output_result_ p).

(** Modelled from the spec: [Processor::Activate] and [Processor::Deactivate]
    start and stop the worker; here they set and clear the flag that
    [IsActivated] reads. *)
Definition Activate (p : Processor) : Processor :=
  mkProcessor (Name p) (target_streams_ p) (childs_ p) true (output_result_ p).

Definition Deactivate (p : Processor) : Processor :=
  mkProcessor (Name p) (target_streams_ p) (childs_ p) false (output_result_ p).

(** Modelled from the spec: [Processor::addTargetStreams] registers the
    descriptor after the ones already registered, and [Processor::AddChild]
    appends to the child list. *)
Definition addTargetStreams (t : stream_control_t) (p : Processor) : Processor :=
  with_target_streams (target_streams_ p ++ [t]) p.

Definition AddChild (c : ProcName) (p : Processor) : Processor :=
  mkProcessor (Name p) (target_streams_ p) (childs_ p ++ [c]) (activated_ p)
    (output_result_ p).

Definition set_output (o : option Object) (p : Processor) : Processor :=
  mkProcessor (Name p) (target_streams_ p) (childs_ p) (activated_ p) o.

(** Modelled from the spec: [Processor::GetOutput] reads the stage's most
    recent output. *)
Definition GetOutput (p : Processor) : option Object := output_result_ p.

(** ** The store of processors *)

Definition Store : Type := list Processor.

Definition find_proc (ps : Store) (n : ProcName) : option Processor :=
  find (fun p => ProcName_eqb (Name p) n) ps.

(** Mutation through a handle: the processor named [n] is replaced by its
    image under [f]. *)
Fixpoint update_proc (n : ProcName) (f : Processor -> Processor) (ps : Store) : Store :=
  match ps with
  | [] => []
  | p :: tl =>
      if ProcName_eqb (Name p) n then f p :: tl
      else p :: update_proc n f tl
  end.

Definition GetChilds (ps : Store) (n : ProcName) : list ProcName :=
  match find_proc ps n with
  | Some p => childs_ p
  | None => []
  end.

(** Modelled from the spec: the parent of a stage is the stage that lists it
    as a child. *)
Definition GetParent (ps : Store) (n : ProcName) : option ProcName :=
  option_map Name
    (find (fun p => existsb (ProcName_eqb n) (childs_ p)) ps).

(** Modelled from the spec: [iterate_processor_CtoP_before] walks from a
    stage toward the root and applies the visitor parent first; the walk is
    bounded by the number of stages. *)
Fixpoint iterate_processor_CtoP_before (fuel : nat) (ps : Store) (n : ProcName)
  : list ProcName :=
  match fuel with
  | O => [n]
  | S k =>
      match GetParent ps n with
      | Some q => iterate_processor_CtoP_before k ps q ++ [n]
      | None => [n]
      end
  end.

(** Modelled from the spec: [iterate_processor_PtoC_before] walks from a
    stage toward its leaves and applies the visitor to the children before
    the stage itself. *)
Fixpoint iterate_processor_PtoC_before (fuel : nat) (ps : Store) (n : ProcName)
  : list ProcName :=
  match fuel with
  | O => [n]
  | S k => flat_map (iterate_processor_PtoC_before k ps) (GetChilds ps n) ++ [n]
  end.

(** ** External collaborators *)

Module Device.
(** The device layer, as far as the pipeline consults it;
    [cvtColor_YUV2BGR_YUY2] stands for
    [cv::cvtColor(img, img, cv::COLOR_YUV2BGR_YUY2)]. *)
Record t : Type := mk {
  Supports : Stream -> bool;
  GetStreamData : Stream -> device_StreamData;
  GetStreamDatas : Stream -> list device_StreamData;
  cvtColor_YUV2BGR_YUY2 : Mat -> Mat
}.
End Device.

Module Plugin.
(** The optional plugin: each handler receives the input and the output
    payload and returns whether it produced the output, with the output
    as it left it. *)
Record t : Type := mk {
  OnRectifyProcess : Object -> Object -> bool * Object;
  OnDisparityProcess : Object -> Object -> bool * Object;
  OnDisparityNormalizedProcess : Object -> Object -> bool * Object;
  OnPointsProcess : Object -> Object -> bool * Object;
  OnDepthProcess : Object -> Object -> bool * Object
}.
End Plugin.

(** ** The pipeline object *)

Record Synthetic : Type := mkSynthetic {
  api_device : Device.t;
  plugin_ : option Plugin.t;
  calib_model_ : CalibrationModel;
  calib_default_tag_ : bool;
  stream_data_listener_ : option nat;
  processors_ : Store;
  processor_ : option ProcName
}.

Definition with_processors (ps : Store) (s : Synthetic) : Synthetic :=
  mkSynthetic (api_device s) (plugin_ s) (calib_model_ s) (calib_default_tag_ s)
    (stream_data_listener_ s) ps (processor_ s).

(** The result of a call: [Done] with its value, or [Undefined] when control
    reaches the end of a non-void function without a [return] (as
    [getProcessorWithStream] does after logging "no suited processor"). *)
Inductive Outcome (A : Type) : Type :=
  | Done (a : A)
  | Undefined.

Arguments Undefined {A}.

Definition bind {A B : Type} (m : Outcome A) (k : A -> Outcome B) : Outcome B :=
  match m with
  | Done a => k a
  | Undefined => Undefined
  end.

Notation "x <- m ;; k" := (bind m (fun x => k))
  (at level 61, m at next level, right associativity).

(** ** Conversions between payloads (the anonymous namespace) *)

Definition frame2mat (d : Device.t) (f : Frame) : Mat :=
  match frame_format f with
  | YUYV =>
      Device.cvtColor_YUV2BGR_YUY2 d
        (mkMat (frame_height f) (frame_width f) CV_8UC2 (frame_data f))
  | BGR888 => mkMat (frame_height f) (frame_width f) CV_8UC3 (frame_data f)
  | GRAY => mkMat (frame_height f) (frame_width f) CV_8UC1 (frame_data f)
  end.

(** [data2api] dereferences [data.frame]; a null frame is outside its
    contract. *)
Definition data2api (d : Device.t) (x : device_StreamData) : Outcome StreamData :=
  match dev_frame x with
  | Some f => Done (mkStreamData (dev_img x) (frame2mat d f) (Some f) (dev_frame_id x))
  | None => Undefined
  end.

Definition obj_data_first (obj : ObjMat2) : StreamData :=
  mkStreamData (first_data obj) (first obj) None (first_id obj).

Definition obj_data_second (obj : ObjMat2) : StreamData :=
  mkStreamData (second_data obj) (second obj) None (second_id obj).

Definition obj_data (obj : ObjMat) : StreamData :=
  mkStreamData (data obj) (value obj) None (id obj).

Definition data_obj (x : StreamData) : ObjMat :=
  mkObjMat (frame x) (frame_id x) (img x).

Definition data_obj2 (a b : StreamData) : ObjMat2 :=
  mkObjMat2 (frame a) (frame_id a) (img a) (frame b) (frame_id b) (img b).

(** ** Stream registry *)

Definition is_stream (s : Stream) (t : stream_control_t) : bool :=
  Stream_eqb (stream t) s.

(** The two nested loops shared by the four [...WithStream] lookups: the
    first processor, in [processors_] order, one of whose target streams is
    [s], together with that first descriptor. *)
Fixpoint lookup_stream (ps : Store) (s : Stream) : option (Processor * stream_control_t) :=
  match ps with
  | [] => None
  | p :: tl =>
      match find (is_stream s) (getTargetStreams p) with
      | Some t => Some (p, t)
      | None => lookup_stream tl s
      end
  end.

Definition getControlDateWithStream (st : Synthetic) (s : Stream) : stream_control_t :=
  match lookup_stream (processors_ st) s with
  | Some (_, t) => t
  | None => stream_control_default
  end.

(** After the loops the function logs an error and ends without a
    [return]. *)
Definition getProcessorWithStream (st : Synthetic) (s : Stream) : Outcome ProcName :=
  match lookup_stream (processors_ st) s with
  | Some (p, _) => Done (Name p)
  | None => Undefined
  end.

(** [it->target_streams_[i].stream_callback = ...] at the first match. *)
Fixpoint set_first_callback (s : Stream) (c : stream_callback_t)
    (ts : list stream_control_t) : list stream_control_t :=
  match ts with
  | [] => []
  | t :: tl =>
      if is_stream s t then set_stream_callback c t :: tl
      else t :: set_first_callback s c tl
  end.

Fixpoint set_callback_in (ps : Store) (s : Stream) (c : stream_callback_t) : Store :=
  match ps with
  | [] => []
  | p :: tl =>
      if existsb (is_stream s) (getTargetStreams p)
      then with_target_streams (set_first_callback s c (target_streams_ p)) p :: tl
      else p :: set_callback_in tl s c
  end.

Definition setControlDateCallbackWithStream (st : Synthetic) (ctr_data : stream_control_t)
  : Synthetic :=
  with_processors
    (set_callback_in (processors_ st) (stream ctr_data) (stream_callback ctr_data)) st.

Definition checkControlDateWithStream (st : Synthetic) (s : Stream) : bool :=
  existsb (fun p => existsb (is_stream s) (getTargetStreams p)) (processors_ st).

Definition Supports (st : Synthetic) (s : Stream) : bool :=
  checkControlDateWithStream st s.

Definition SupportsMode (st : Synthetic) (s : Stream) : mode_t :=
  if checkControlDateWithStream st s
  then support_mode_ (getControlDateWithStream st s)
  else MODE_LAST.

Definition GetStreamEnabledMode (st : Synthetic) (s : Stream) : mode_t :=
  if checkControlDateWithStream st s
  then enabled_mode_ (getControlDateWithStream st s)
  else MODE_LAST.

Definition IsStreamEnabledNative (st : Synthetic) (s : Stream) : bool :=
  mode_eqb (GetStreamEnabledMode st s) MODE_NATIVE.

Definition IsStreamEnabledSynthetic (st : Synthetic) (s : Stream) : bool :=
  mode_eqb (GetStreamEnabledMode st s) MODE_SYNTHETIC.

Definition IsStreamDataEnabled (st : Synthetic) (s : Stream) : bool :=
  if checkControlDateWithStream st s
  then
    mode_eqb (enabled_mode_ (getControlDateWithStream st s)) MODE_SYNTHETIC
    || mode_eqb (enabled_mode_ (getControlDateWithStream st s)) MODE_NATIVE
  else false.

Definition SetStreamCallback (st : Synthetic) (s : Stream) (callback : stream_callback_t)
  : Synthetic :=
  setControlDateCallbackWithStream st
    (mkControl s (support_mode_ stream_control_default)
       (enabled_mode_ stream_control_default)
       (match callback with None => None | Some f => Some f end)).

Definition HasStreamCallback (st : Synthetic) (s : Stream) : bool :=
  if checkControlDateWithStream st s
  then
    match stream_callback (getControlDateWithStream st s) with
    | Some _ => true
    | None => false
    end
  else false.

Definition SetPlugin (st : Synthetic) (p : option Plugin.t) : Synthetic :=
  mkSynthetic (api_device st) p (calib_model_ st) (calib_default_tag_ st)
    (stream_data_listener_ st) (processors_ st) (processor_ st).

Definition HasPlugin (st : Synthetic) : bool :=
  match plugin_ st with Some _ => true | None => false end.

(** ** Enabling and disabling streams *)

(** What the loop over [target_streams_] of a visitor leaves behind: the
    counter [act_tag], the streams passed to the switch callback (in call
    order) and the descriptors after the loop. *)
Record loop_result : Type := mkLoop {
  act_tag : Z;
  called : list Stream;
  targets : list stream_control_t
}.

(** The loop of the visitors: every descriptor whose enabled mode is [from]
    is reported to the callback and, unless [try_tag], counted and switched
    to [to]. *)
Fixpoint switch_loop (from to : mode_t) (try_tag : bool) (ts : list stream_control_t)
  : loop_result :=
  match ts with
  | [] => mkLoop 0 [] []
  | t :: tl =>
      let r := switch_loop from to try_tag tl in
      if mode_eqb (enabled_mode_ t) from then
        if try_tag
        then mkLoop (act_tag r) (stream t :: called r) (t :: targets r)
        else mkLoop (act_tag r + 1) (stream t :: called r)
               (set_enabled_mode to t :: targets r)
      else mkLoop (act_tag r) (called r) (t :: targets r)
  end.

(** The visitor of [EnableStreamData]. *)
Definition enable_visit (try_tag : bool) (proce : Processor) : list Stream * Processor :=
  let r := switch_loop MODE_LAST MODE_SYNTHETIC try_tag (target_streams_ proce) in
  let proce1 := with_target_streams (targets r) proce in
  (called r,
   if (0 <? act_tag r)%Z && negb (IsActivated proce1)
   then Activate proce1 else proce1).

(** The visitor of [DisableStreamData]. *)
Definition disable_visit (try_tag : bool) (proce : Processor) : list Stream * Processor :=
  let r := switch_loop MODE_SYNTHETIC MODE_LAST try_tag (target_streams_ proce) in
  let proce1 := with_target_streams (targets r) proce in
  (called r,
   if (0 <? act_tag r)%Z && IsActivated proce1
   then Deactivate proce1 else proce1).

(** Applying a visitor along a walk: each handle is looked up in the store
    and the processor it designates is visited in place (a handle obtained
    from the store always designates one of its processors). *)
Fixpoint visit_all (visit : Processor -> list Stream * Processor)
    (walk : list ProcName) (ps : Store) : list Stream * Store :=
  match walk with
  | [] => ([], ps)
  | n :: tl =>
      match find_proc ps n with
      | Some p =>
          let r := visit_all visit tl (update_proc n (fun q => snd (visit q)) ps) in
          (fst (visit p) ++ fst r, snd r)
      | None => visit_all visit tl ps
      end
  end.

(** [EnableStreamData(stream, callback, try_tag)]: the result carries the
    streams the callback was invoked on. *)
Definition EnableStreamData (st : Synthetic) (s : Stream) (try_tag : bool)
  : Outcome (list Stream * Synthetic) :=
  processor <- getProcessorWithStream st s ;;
  let ps := processors_ st in
  let r := visit_all (enable_visit try_tag)
             (iterate_processor_CtoP_before (length ps) ps processor) ps in
  Done (fst r, with_processors (snd r) st).

Definition DisableStreamData (st : Synthetic) (s : Stream) (try_tag : bool)
  : Outcome (list Stream * Synthetic) :=
  processor <- getProcessorWithStream st s ;;
  let ps := processors_ st in
  let r := visit_all (disable_visit try_tag)
             (iterate_processor_PtoC_before (length ps) ps processor) ps in
  Done (fst r, with_processors (snd r) st).

(** ** Construction *)

(** [InitCalibInfo]: an unsupported model falls back to pinhole defaults.
    [WITH_CAM_MODELS] is the build flag that compiles the Kannala-Brandt
    branch in. *)
Definition InitCalibInfo (WITH_CAM_MODELS : bool) (st : Synthetic) : Synthetic :=
  if calib_eqb (calib_model_ st) PINHOLE then st
  else if WITH_CAM_MODELS && calib_eqb (calib_model_ st) KANNALA_BRANDT then st
  else
    mkSynthetic (api_device st) (plugin_ st) PINHOLE true
      (stream_data_listener_ st) (processors_ st) (processor_ st).

(** The class chosen for a model-dependent stage. *)
Definition by_model (WITH_CAM_MODELS : bool) (cm : CalibrationModel)
    (ocv imp : ProcName) : ProcName :=
  if calib_eqb cm PINHOLE then ocv
  else if WITH_CAM_MODELS && calib_eqb cm KANNALA_BRANDT then imp
  else ocv.

(** A mutation of the processor behind a handle, during construction. *)
Definition on_proc (ps : Store) (step : ProcName * (Processor -> Processor)) : Store :=
  update_proc (fst step) (snd step) ps.

Definition InitProcessors (WITH_CAM_MODELS : bool) (st : Synthetic) : Synthetic :=
  let cm := calib_model_ st in
  let rectify_processor :=
    by_model WITH_CAM_MODELS cm RectifyProcessorOCV RectifyProcessor in
  let disparity_processor := DisparityProcessor in
  let disparitynormalized_processor := DisparityNormalizedProcessor in
  let points_processor :=
    by_model WITH_CAM_MODELS cm PointsProcessorOCV PointsProcessor in
  let depth_processor :=
    by_model WITH_CAM_MODELS cm DepthProcessorOCV DepthProcessor in
  let root_processor := RootProcessor in
  let objects :=
    map Processor_new
      [root_processor; rectify_processor; disparity_processor;
       disparitynormalized_processor; points_processor; depth_processor] in
  let registrations :=
    [(root_processor, AddChild rectify_processor);
     (rectify_processor,
       addTargetStreams (mkControl LEFT_RECTIFIED MODE_LAST MODE_LAST None));
     (rectify_processor,
       addTargetStreams (mkControl RIGHT_RECTIFIED MODE_LAST MODE_LAST None));
     (disparity_processor,
       addTargetStreams (mkControl DISPARITY MODE_LAST MODE_LAST None));
     (disparitynormalized_processor,
       addTargetStreams (mkControl DISPARITY_NORMALIZED MODE_LAST MODE_LAST None));
     (points_processor,
       addTargetStreams (mkControl POINTS MODE_LAST MODE_LAST None));
     (depth_processor,
       addTargetStreams (mkControl DEPTH MODE_LAST MODE_LAST None));
     (root_processor,
       addTargetStreams (mkControl LEFT MODE_NATIVE MODE_NATIVE None));
     (root_processor,
       addTargetStreams (mkControl RIGHT MODE_NATIVE MODE_NATIVE None))] in
  let topology :=
    if calib_eqb cm PINHOLE then
      [(rectify_processor, AddChild disparity_processor);
       (disparity_processor, AddChild disparitynormalized_processor);
       (disparity_processor, AddChild points_processor);
       (points_processor, AddChild depth_processor)]
    else if calib_eqb cm KANNALA_BRANDT then
      [(rectify_processor, AddChild disparity_processor);
       (disparity_processor, AddChild disparitynormalized_processor);
       (disparity_processor, AddChild depth_processor);
       (depth_processor, AddChild points_processor)]
    else [] in
  mkSynthetic (api_device st) (plugin_ st) cm (calib_default_tag_ st)
    (stream_data_listener_ st)
    (fold_left on_proc (registrations ++ topology) objects)
    (Some rectify_processor).

(** The loops of [InitStreamSupports] over [processor->target_streams_]. *)
Definition mark_left_right (t : stream_control_t) : stream_control_t :=
  let t1 := if Stream_eqb (stream t) LEFT then set_support_mode MODE_NATIVE t else t in
  if Stream_eqb (stream t1) RIGHT then set_support_mode MODE_NATIVE t1 else t1.

Definition mark_chain (native : bool) (s : Stream) (t : stream_control_t)
  : stream_control_t :=
  if Stream_eqb (stream t) s then
    if native
    then set_enabled_mode MODE_NATIVE (set_support_mode MODE_NATIVE t)
    else set_support_mode MODE_SYNTHETIC t
  else t.

Definition map_targets (f : stream_control_t -> stream_control_t) (p : Processor)
  : Processor :=
  with_target_streams (map f (target_streams_ p)) p.

Definition stream_chain : list Stream :=
  [LEFT_RECTIFIED; RIGHT_RECTIFIED; DISPARITY; DISPARITY_NORMALIZED; POINTS; DEPTH].

Fixpoint init_chain (chain : list Stream) (st : Synthetic) : Outcome Synthetic :=
  match chain with
  | [] => Done st
  | s :: tl =>
      processor <- getProcessorWithStream st s ;;
      init_chain tl
        (with_processors
           (update_proc processor
              (map_targets (mark_chain (Device.Supports (api_device st) s) s))
              (processors_ st)) st)
  end.

Definition InitStreamSupports (st : Synthetic) : Outcome Synthetic :=
  let device := api_device st in
  if Device.Supports device LEFT && Device.Supports device RIGHT then
    processor <- getProcessorWithStream st LEFT ;;
    init_chain stream_chain
      (with_processors
         (update_proc processor (map_targets mark_left_right) (processors_ st)) st)
  else Done st.

(** The constructor [Synthetic::Synthetic(api, calib_model)]: the member
    initialisers, then the three [Init...] calls. *)
Definition member_init (device : Device.t) (calib_model : CalibrationModel) : Synthetic :=
  mkSynthetic device None calib_model false None [] None.

Definition Synthetic_new (WITH_CAM_MODELS : bool) (device : Device.t)
    (calib_model : CalibrationModel) : Outcome Synthetic :=
  InitStreamSupports
    (InitProcessors WITH_CAM_MODELS
       (InitCalibInfo WITH_CAM_MODELS (member_init device calib_model))).

(** ** Reading a stream *)

(** The function-scope statics of the translation unit. *)
Record Statics : Type := mkStatics {
  output : option ObjMat2;        (* GetStreamData *)
  left_data : StreamData;         (* ProcessNativeStream *)
  right_data : StreamData;
  left_rect_data : StreamData;
  right_rect_data : StreamData
}.

Definition Statics_init : Statics :=
  mkStatics None StreamData_empty StreamData_empty StreamData_empty StreamData_empty.

Definition with_output (o : option ObjMat2) (sv : Statics) : Statics :=
  mkStatics o (left_data sv) (right_data sv) (left_rect_data sv) (right_rect_data sv).

(** The loop over [streams] in the paired branch: [num] counts the
    descriptors passed before the one of [s], and the first half is returned
    when [num == 1]. *)
Fixpoint paired_half (s : Stream) (num : Z) (streams : list stream_control_t)
    (out : ObjMat2) : option StreamData :=
  match streams with
  | [] => None
  | it :: tl =>
      if Stream_eqb (stream it) s then
        if (num =? 1)%Z then Some (obj_data_first out)
        else Some (obj_data_second out)
      else paired_half s (num + 1) tl out
  end.

(** [GetStreamData]: the result carries the statics as the call leaves
    them.  The handle returned by [getProcessorWithStream] is resolved in the
    store. *)
Definition GetStreamData (st : Synthetic) (sv : Statics) (s : Stream)
  : Outcome (StreamData * Statics) :=
  let mode := GetStreamEnabledMode st s in
  if mode_eqb mode MODE_NATIVE then
    x <- data2api (api_device st) (Device.GetStreamData (api_device st) s) ;;
    Done (x, sv)
  else if mode_eqb mode MODE_SYNTHETIC then
    name <- getProcessorWithStream st s ;;
    match find_proc (processors_ st) name with
    | None => Undefined
    | Some processor =>
        let sum := getStreamsSum processor in
        let out := GetOutput processor in
        if Nat.eqb sum 1 then
          match out with
          | Some o =>
              match Cast_ObjMat o with
              | Some output1 => Done (obj_data output1, sv)
              | None => Done (StreamData_empty, sv)
              end
          | None => Done (StreamData_empty, sv)
          end
        else if Nat.eqb sum 2 then
          let sv1 :=
            match out with
            | Some o => with_output (Cast_ObjMat2 o) sv
            | None => sv
            end in
          let streams := getTargetStreams processor in
          match output sv1 with
          | Some o2 =>
              match paired_half s 0 streams o2 with
              | Some x => Done (x, sv1)
              | None => Done (StreamData_empty, sv1)
              end
          | None => Done (StreamData_empty, sv1)
          end
        else Done (StreamData_empty, sv)
    end
  else Done (StreamData_empty, sv).

(** ** The dispatcher of native streams *)

(** What the pipeline does to its surroundings: a call of the stream
    listener, of a stream callback, and a payload handed to a processor
    ([find_processor<T>(processor_)->Process(obj)]) or to the children of
    the processor of a given name ([process_childs]). *)
Inductive Event : Type :=
  | Listener (s : Stream) (x : StreamData)
  | Callback (f : nat) (x : StreamData)
  | Process (T : ProcName) (obj : Object)
  | ProcessChilds (name : ProcName) (obj : Object).

Definition NotifyStreamData (st : Synthetic) (s : Stream) (x : StreamData) : list Event :=
  match stream_data_listener_ st with
  | Some _ => [Listener s x]
  | None => []
  end.

(** [a.img && b.img && a.img->frame_id == b.img->frame_id] *)
Definition same_frame (a b : StreamData) : bool :=
  match img a, img b with
  | Some ia, Some ib => (img_frame_id ia =? img_frame_id ib)%Z
  | _, _ => false
  end.

Definition with_left_right (l r : StreamData) (sv : Statics) : Statics :=
  mkStatics (output sv) l r (left_rect_data sv) (right_rect_data sv).

Definition with_left_right_rect (l r : StreamData) (sv : Statics) : Statics :=
  mkStatics (output sv) (left_data sv) (right_data sv) l r.

Definition ProcessNativeStream (WITH_CAM_MODELS : bool) (st : Synthetic) (sv : Statics)
    (s : Stream) (x : StreamData) : list Event * Statics :=
  let notified := NotifyStreamData st s x in
  let cm := calib_model_ st in
  if Stream_eqb s LEFT || Stream_eqb s RIGHT then
    let l := if Stream_eqb s LEFT then x else left_data sv in
    let r := if Stream_eqb s LEFT then right_data sv else x in
    (if same_frame l r
     then notified ++
          [Process (by_model WITH_CAM_MODELS cm RectifyProcessorOCV RectifyProcessor)
             (Obj2 (data_obj2 l r))]
     else notified,
     with_left_right l r sv)
  else if Stream_eqb s LEFT_RECTIFIED || Stream_eqb s RIGHT_RECTIFIED then
    let l := if Stream_eqb s LEFT_RECTIFIED then x else left_rect_data sv in
    let r := if Stream_eqb s LEFT_RECTIFIED then right_rect_data sv else x in
    (if same_frame l r
     then notified ++
          [ProcessChilds (by_model WITH_CAM_MODELS cm RectifyProcessorOCV RectifyProcessor)
             (Obj2 (data_obj2 l r))]
     else notified,
     with_left_right_rect l r sv)
  else
    match s with
    | DISPARITY =>
        (notified ++ [ProcessChilds DisparityProcessor (Obj1 (data_obj x))], sv)
    | DISPARITY_NORMALIZED =>
        (notified ++ [ProcessChilds DisparityNormalizedProcessor (Obj1 (data_obj x))], sv)
    | POINTS =>
        if calib_eqb cm PINHOLE
        then (notified ++ [ProcessChilds PointsProcessorOCV (Obj1 (data_obj x))], sv)
        else if WITH_CAM_MODELS && calib_eqb cm KANNALA_BRANDT
        then (notified ++ [ProcessChilds PointsProcessor (Obj1 (data_obj x))], sv)
        else (notified, sv)
    | DEPTH =>
        if calib_eqb cm PINHOLE
        then (notified ++ [ProcessChilds DepthProcessorOCV (Obj1 (data_obj x))], sv)
        else if WITH_CAM_MODELS && calib_eqb cm KANNALA_BRANDT
        then (notified ++ [ProcessChilds DepthProcessor (Obj1 (data_obj x))], sv)
        else (notified, sv)
    | _ => (notified, sv)
    end.

(** A run of the dispatcher over a sequence of native arrivals. *)
Fixpoint dispatch (WITH_CAM_MODELS : bool) (st : Synthetic) (sv : Statics)
    (arrivals : list (Stream * StreamData)) : list Event * Statics :=
  match arrivals with
  | [] => ([], sv)
  | (s, x) :: tl =>
      let r := ProcessNativeStream WITH_CAM_MODELS st sv s x in
      let r' := dispatch WITH_CAM_MODELS st (snd r) tl in
      (fst r ++ fst r', snd r')
  end.

(** The payloads handed to a processor by [Process], in order, each with
    the class of the processor that receives it. *)
Fixpoint submitted (evs : list Event) : list (ProcName * Object) :=
  match evs with
  | [] => []
  | Process T obj :: tl => (T, obj) :: submitted tl
  | _ :: tl => submitted tl
  end.

(** The class of the rectify stage, as the dispatcher selects it. *)
Definition rectify_class (WITH_CAM_MODELS : bool) (st : Synthetic) : ProcName :=
  by_model WITH_CAM_MODELS (calib_model_ st) RectifyProcessorOCV RectifyProcessor.

(** ** Process hooks *)

(** [plugin_ && plugin_->On...Process(in, out)]: the handler is consulted
    only when a plugin is set. *)
Definition plugin_call (st : Synthetic)
    (handler : Plugin.t -> Object -> Object -> bool * Object)
    (inp out : Object) : bool * Object :=
  match plugin_ st with
  | Some pl => handler pl inp out
  | None => (false, out)
  end.

Definition process_hook (st : Synthetic)
    (handler : Plugin.t -> Object -> Object -> bool * Object) (s : Stream)
    (inp out : Object) : bool * Object :=
  let r := plugin_call st handler inp out in
  if fst r then (true, snd r)
  else (negb (mode_eqb (GetStreamEnabledMode st s) MODE_SYNTHETIC), snd r).

Definition OnRectifyProcess (st : Synthetic) : Object -> Object -> bool * Object :=
  process_hook st Plugin.OnRectifyProcess LEFT_RECTIFIED.

Definition OnDisparityProcess (st : Synthetic) : Object -> Object -> bool * Object :=
  process_hook st Plugin.OnDisparityProcess DISPARITY.

Definition OnDisparityNormalizedProcess (st : Synthetic)
  : Object -> Object -> bool * Object :=
  process_hook st Plugin.OnDisparityNormalizedProcess DISPARITY_NORMALIZED.

Definition OnPointsProcess (st : Synthetic) : Object -> Object -> bool * Object :=
  process_hook st Plugin.OnPointsProcess POINTS.

Definition OnDepthProcess (st : Synthetic) : Object -> Object -> bool * Object :=
  process_hook st Plugin.OnDepthProcess DEPTH.

(** ** Post-process hooks *)

Definition notify_callback (st : Synthetic) (s : Stream) (x : StreamData) : list Event :=
  if HasStreamCallback st s then
    match stream_callback (getControlDateWithStream st s) with
    | Some f => [Callback f x]
    | None => []
    end
  else [].

(** The hooks dereference the cast output: a payload of the other shape is
    outside their contract. *)
Definition OnRectifyPostProcess (st : Synthetic) (out : Object) : Outcome (list Event) :=
  match Cast_ObjMat2 out with
  | Some o =>
      Done (NotifyStreamData st LEFT_RECTIFIED (obj_data_first o)
            ++ NotifyStreamData st RIGHT_RECTIFIED (obj_data_second o)
            ++ notify_callback st LEFT_RECTIFIED (obj_data_first o)
            ++ notify_callback st RIGHT_RECTIFIED (obj_data_second o))
  | None => Undefined
  end.

Definition post_process_single (st : Synthetic) (s : Stream) (out : Object)
  : Outcome (list Event) :=
  match Cast_ObjMat out with
  | Some o => Done (NotifyStreamData st s (obj_data o) ++ notify_callback st s (obj_data o))
  | None => Undefined
  end.

Definition OnDisparityPostProcess (st : Synthetic) := post_process_single st DISPARITY.
Definition OnDisparityNormalizedPostProcess (st : Synthetic) :=
  post_process_single st DISPARITY_NORMALIZED.
Definition OnPointsPostProcess (st : Synthetic) := post_process_single st POINTS.
Definition OnDepthPostProcess (st : Synthetic) := post_process_single st DEPTH.

(** ** One input through a stage *)

Inductive RunEvent : Type :=
  | Kernel (inp out : Object)
  | PostProcess (out : Object)
  | Deliver (child : ProcName) (out : Object).

(** Modelled from the spec: the per-input execution of a stage
    ([Processor::Run], in processor.cc).  While activated, the stage calls
    its process hook; when the hook returns [true] the output is taken as it
    is, otherwise the built-in kernel [compute] runs ([None] is a failed
    compute, which drops the input); on success the post-process hook fires
    and the output is delivered to every child.  All periods of this
    pipeline are 0, so no input is dropped by the rate limit. *)
Definition run_input (hook : option (Object -> Object -> bool * Object))
    (compute : Object -> Object -> option Object) (p : Processor)
    (inp out : Object) : list RunEvent :=
  if IsActivated p then
    let r := match hook with Some f => f inp out | None => (false, out) end in
    if fst r
    then PostProcess (snd r) :: map (fun c => Deliver c (snd r)) (childs_ p)
    else
      match compute inp (snd r) with
      | Some o => Kernel inp (snd r) :: PostProcess o :: map (fun c => Deliver c o) (childs_ p)
      | None => [Kernel inp (snd r)]
      end
  else [].

Definition kernel_invoked (evs : list RunEvent) : bool :=
  existsb (fun e => match e with Kernel _ _ => true | _ => false end) evs.

Definition post_process_fired (evs : list RunEvent) : bool :=
  existsb (fun e => match e with PostProcess _ => true | _ => false end) evs.

(** ** Vocabulary of the statements *)

(** What a process hook [hook], bound to the plugin handler [handler] and
    consulting the stream [s], owes its stage: it reports the output as
    satisfied exactly when the plugin is set and its handler returns true, or
    the enabled mode of [s] is not [MODE_SYNTHETIC]; and on an activated
    stage a handler that returns true keeps the kernel from running while the
    post-process hook still fires. *)
Definition hook_contract (st : Synthetic)
    (hook : Object -> Object -> bool * Object)
    (handler : Plugin.t -> Object -> Object -> bool * Object) (s : Stream) : Prop :=
  forall inp out : Object,
    (fst (hook inp out) = true <->
       (exists pl, plugin_ st = Some pl /\ fst (handler pl inp out) = true)
       \/ GetStreamEnabledMode st s <> MODE_SYNTHETIC)
    /\ (forall pl compute p,
          plugin_ st = Some pl ->
          fst (handler pl inp out) = true ->
          IsActivated p = true ->
          kernel_invoked (run_input (Some hook) compute p inp out) = false
          /\ post_process_fired (run_input (Some hook) compute p inp out) = true).

(** Both eye slots hold image data and the frame ids recorded there agree. *)
Definition slots_paired (l r : StreamData) : Prop :=
  exists il ir, img l = Some il /\ img r = Some ir
                /\ img_frame_id il = img_frame_id ir.

(** The pipelines reachable from construction by calls of
    [EnableStreamData] and [DisableStreamData] that return. *)
Inductive Reachable (W : bool) (device : Device.t) (cm : CalibrationModel)
  : Synthetic -> Prop :=
  | Reach_new st :
      Synthetic_new W device cm = Done st -> Reachable W device cm st
  | Reach_enable st s try_tag log st' :
      Reachable W device cm st ->
      EnableStreamData st s try_tag = Done (log, st') ->
      Reachable W device cm st'
  | Reach_disable st s try_tag log st' :
      Reachable W device cm st ->
      DisableStreamData st s try_tag = Done (log, st') ->
      Reachable W device cm st'.

(** What no call after construction changes: the names, the child lists
    and the streams registered, processor by processor. *)
Definition skeleton (ps : Store) : list (ProcName * list ProcName * list Stream) :=
  map (fun p => (Name p, childs_ p, map stream (target_streams_ p))) ps.

Definition keeps_skeleton (f : Processor -> Processor) : Prop :=
  forall p, Name (f p) = Name p
            /\ childs_ (f p) = childs_ p
            /\ map stream (target_streams_ (f p)) = map stream (target_streams_ p).

(** The effect of a non-dry-run visit on one descriptor. *)
Definition switch_mode (from to : mode_t) (t : stream_control_t) : stream_control_t :=
  if mode_eqb (enabled_mode_ t) from then set_enabled_mode to t else t.

Definition has_mode (m : mode_t) (t : stream_control_t) : bool :=
  mode_eqb (enabled_mode_ t) m.

(** No target stream of the processor named [n] is disabled. *)
Definition settled (n : ProcName) (ps : Store) : Prop :=
  forall p, find_proc ps n = Some p ->
            existsb (has_mode MODE_LAST) (target_streams_ p) = false.

(** A stage is activated exactly when one of its targets is SYNTHETIC. *)
Definition activation_inv (p : Processor) : Prop :=
  activated_ p = existsb (has_mode MODE_SYNTHETIC) (target_streams_ p).

(** A target the device supports natively is enabled as NATIVE. *)
Definition native_inv (p : Processor) : Prop :=
  Forall (fun t => support_mode_ t = MODE_NATIVE -> enabled_mode_ t = MODE_NATIVE)
    (target_streams_ p).

(** The processors as [InitProcessors] leaves them, before the device is
    asked which streams it produces. *)
Definition constructed (W : bool) (device : Device.t) (cm : CalibrationModel) : Store :=
  processors_ (InitProcessors W (InitCalibInfo W (member_init device cm))).

(** A freshly constructed stage: deactivated, no output yet, and every
    target either enabled as NATIVE, or disabled, not natively supported and
    neither LEFT nor RIGHT. *)
Definition fresh (p : Processor) : Prop :=
  activated_ p = false
  /\ output_result_ p = None
  /\ Forall (fun t => enabled_mode_ t = MODE_NATIVE
                      \/ (enabled_mode_ t = MODE_LAST
                          /\ support_mode_ t <> MODE_NATIVE
                          /\ stream t <> LEFT /\ stream t <> RIGHT))
       (target_streams_ p).

(** A running process: the pipeline, the function-scope statics, and the
    stages that have published an output since the process started. *)
Record ProcessState : Type := mkProcessState {
  pipeline : Synthetic;
  statics : Statics;
  produced : list ProcName
}.

(** Modelled from the spec: a stage that completes an input publishes its
    output, which becomes its most recent one ([output_result_], written by
    [Processor::Run] in processor.cc). *)
Definition publish (n : ProcName) (o : Object) (st : Synthetic) : Synthetic :=
  with_processors (update_proc n (set_output (Some o)) (processors_ st)) st.

(** What can happen to a process: the calls of the public surface, a native
    arrival, and a stage publishing an output. *)
Inductive Step (W : bool) : ProcessState -> ProcessState -> Prop :=
  | Step_enable a s try_tag log st' :
      EnableStreamData (pipeline a) s try_tag = Done (log, st') ->
      Step W a (mkProcessState st' (statics a) (produced a))
  | Step_disable a s try_tag log st' :
      DisableStreamData (pipeline a) s try_tag = Done (log, st') ->
      Step W a (mkProcessState st' (statics a) (produced a))
  | Step_callback a s c :
      Step W a (mkProcessState (SetStreamCallback (pipeline a) s c) (statics a) (produced a))
  | Step_plugin a pl :
      Step W a (mkProcessState (SetPlugin (pipeline a) pl) (statics a) (produced a))
  | Step_publish a n o :
      Step W a (mkProcessState (publish n o (pipeline a)) (statics a) (n :: produced a))
  | Step_read a s x sv' :
      GetStreamData (pipeline a) (statics a) s = Done (x, sv') ->
      Step W a (mkProcessState (pipeline a) sv' (produced a))
  | Step_native a s x :
      Step W a (mkProcessState (pipeline a)
                  (snd (ProcessNativeStream W (pipeline a) (statics a) s x))
                  (produced a)).

Inductive Running (W : bool) (device : Device.t) (cm : CalibrationModel)
  : ProcessState -> Prop :=
  | Run_start st :
      Synthetic_new W device cm = Done st ->
      Running W device cm (mkProcessState st Statics_init [])
  | Run_step a b :
      Running W device cm a -> Step W a b -> Running W device cm b.

(** LEFT and RIGHT are enabled as NATIVE. *)
Definition left_right_native (p : Processor) : Prop :=
  Forall (fun t => stream t = LEFT \/ stream t = RIGHT -> enabled_mode_ t = MODE_NATIVE)
    (target_streams_ p).

(** A stage that holds an output has published one. *)
Definition output_published (done : list ProcName) (p : Processor) : Prop :=
  output_result_ p <> None -> In (Name p) done.

(** The invariant of a running process. *)
Record process_inv (W : bool) (device : Device.t) (cm : CalibrationModel)
    (a : ProcessState) : Prop := mkInv {
  inv_skeleton :
    skeleton (processors_ (pipeline a)) = skeleton (constructed W device cm);
  inv_left_right : Forall left_right_native (processors_ (pipeline a));
  inv_outputs : Forall (output_published (produced a)) (processors_ (pipeline a));
  inv_static :
    output (statics a) <> None ->
    forall n, getProcessorWithStream (pipeline a) LEFT_RECTIFIED = Done n ->
              In n (produced a)
}.

(** ** Sample values *)

Definition sample_mat (k : Z) : Mat := mkMat 1 1 CV_8UC1 [k].

Definition sample_frame (k : Z) : Frame := mkFrame GRAY 1 1 [k].

(** A device that produces LEFT and RIGHT only. *)
Definition device_lr : Device.t :=
  Device.mk
    (fun s => match s with LEFT | RIGHT => true | _ => false end)
    (fun _ => mkDeviceStreamData (Some (mkImgData 1 0 0)) (Some (sample_frame 1)) 1)
    (fun _ => [])
    (fun m => m).

(** A device that also produces LEFT_RECTIFIED. *)
Definition device_lr_lrect : Device.t :=
  Device.mk
    (fun s => match s with LEFT | RIGHT | LEFT_RECTIFIED => true | _ => false end)
    (fun _ => mkDeviceStreamData (Some (mkImgData 1 0 0)) (Some (sample_frame 1)) 1)
    (fun _ => [])
    (fun m => m).

(** The value of a call known to return. *)
Definition result {A : Type} (dflt : A) (o : Outcome A) : A :=
  match o with Done a => a | Undefined => dflt end.

Definition pipeline_lr : Synthetic :=
  Eval vm_compute in
  result (member_init device_lr PINHOLE) (Synthetic_new false device_lr PINHOLE).

Definition pipeline_lr_lrect : Synthetic :=
  Eval vm_compute in
  result (member_init device_lr_lrect PINHOLE)
    (Synthetic_new false device_lr_lrect PINHOLE).

(** [pipeline_lr_lrect] after RIGHT_RECTIFIED was enabled, and after it was
    then disabled again. *)
Definition pipeline_right_on : Synthetic :=
  Eval vm_compute in
  snd (result ([], pipeline_lr_lrect)
         (EnableStreamData pipeline_lr_lrect RIGHT_RECTIFIED false)).

Definition pipeline_right_off : Synthetic :=
  Eval vm_compute in
  snd (result ([], pipeline_right_on)
         (DisableStreamData pipeline_right_on RIGHT_RECTIFIED false)).

(** A plugin whose handlers all claim the output. *)
Definition plugin_all : Plugin.t :=
  let h := fun (_ out : Object) => (true, out) in
  Plugin.mk h h h h h.

(** A native frame of the given frame id, with its image data. *)
Definition native_frame (k : Z) : StreamData :=
  mkStreamData (Some (mkImgData k 0 0)) (sample_mat k) (Some (sample_frame k)) k.

(** A native frame that carries a matrix but no image data. *)
Definition bare_frame (k : Z) : StreamData :=
  mkStreamData None (sample_mat k) (Some (sample_frame k)) k.

(** [pipeline_lr] after LEFT_RECTIFIED was enabled, and after the rectify
    stage then published a pair whose halves differ. *)
Definition pipeline_rect_on : Synthetic :=
  Eval vm_compute in
  snd (result ([], pipeline_lr) (EnableStreamData pipeline_lr LEFT_RECTIFIED false)).

Definition sample_pair : ObjMat2 :=
  mkObjMat2 (sample_mat 10) 5 (Some (mkImgData 5 0 0))
            (sample_mat 20) 5 (Some (mkImgData 5 0 0)).

Definition pipeline_rect_out : Synthetic :=
  Eval vm_compute in
  publish RectifyProcessorOCV (Obj2 sample_pair) pipeline_rect_on.

Definition process_rect_on : ProcessState :=
  mkProcessState pipeline_rect_on Statics_init [].

Definition process_rect_out : ProcessState :=
  mkProcessState pipeline_rect_out Statics_init [RectifyProcessorOCV].

(** [pipeline_lr] after DEPTH was enabled. *)
Definition pipeline_depth_on : Synthetic :=
  Eval vm_compute in
  snd (result ([], pipeline_lr) (EnableStreamData pipeline_lr DEPTH false)).

(** [pipeline_rect_on] with the plugin set. *)
Definition pipeline_plugged : Synthetic :=
  Eval vm_compute in
  SetPlugin pipeline_rect_on (Some plugin_all).

Definition sample_input : Object :=
  Obj2 (data_obj2 (native_frame 5) (native_frame 5)).

Definition sample_output : Object :=
  Obj2 (mkObjMat2 Mat_empty 0 None Mat_empty 0 None).

(** The rectify stage of [pipeline_rect_on], activated. *)
Definition sample_rectify : Processor :=
  mkProcessor RectifyProcessorOCV
    [mkControl LEFT_RECTIFIED MODE_SYNTHETIC MODE_SYNTHETIC None;
     mkControl RIGHT_RECTIFIED MODE_SYNTHETIC MODE_SYNTHETIC None]
    [DisparityProcessor] true None.

(** A kernel that always succeeds and leaves the output as it found it. *)
Definition sample_kernel (inp out : Object) : option Object := Some out.

(** ** Vocabulary of the further statements *)

(** No target stream of the processor named [n] has enabled mode [m]. *)
Definition quiet (m : mode_t) (n : ProcName) (ps : Store) : Prop :=
  forall p, find_proc ps n = Some p ->
            existsb (has_mode m) (target_streams_ p) = false.

(** The streams a walk reports to the switch callback when nothing is
    mutated on the way: for each stage of the walk, in order, its targets
    whose enabled mode is [m]. *)
Definition reported (m : mode_t) (walk : list ProcName) (ps : Store) : list Stream :=
  flat_map
    (fun n =>
       match find_proc ps n with
       | Some p => map stream (filter (has_mode m) (target_streams_ p))
       | None => []
       end)
    walk.

(** The descriptor [t'] is [t], except that its enabled mode may have moved
    from [from] to [to]. *)
Definition moved (from to : mode_t) (t t' : stream_control_t) : Prop :=
  t' = t \/ (enabled_mode_ t = from /\ t' = set_enabled_mode to t).

(** The same, descriptor by descriptor and processor by processor. *)
Definition store_moved (from to : mode_t) (ps ps' : Store) : Prop :=
  Forall2 (fun p p' => Forall2 (moved from to) (target_streams_ p) (target_streams_ p'))
    ps ps'.

(** What a call that only moves enabled modes from [from] to [to] leaves of
    the registry, as the public queries see it. *)
Definition registry_moved (from to : mode_t) (st st' : Synthetic) : Prop :=
  forall S,
    Supports st' S = Supports st S
    /\ SupportsMode st' S = SupportsMode st S
    /\ HasStreamCallback st' S = HasStreamCallback st S
    /\ (GetStreamEnabledMode st' S = GetStreamEnabledMode st S
        \/ (GetStreamEnabledMode st S = from /\ GetStreamEnabledMode st' S = to)).

(** The payloads handed to the children of a named processor by
    [process_childs], in order, each with that name. *)
Fixpoint forwarded (evs : list Event) : list (ProcName * Object) :=
  match evs with
  | [] => []
  | ProcessChilds name obj :: tl => (name, obj) :: forwarded tl
  | _ :: tl => forwarded tl
  end.

(** The calibration model after [InitCalibInfo]. *)
Definition effective_model (W : bool) (cm : CalibrationModel) : CalibrationModel :=
  if calib_eqb cm PINHOLE then PINHOLE
  else if W && calib_eqb cm KANNALA_BRANDT then KANNALA_BRANDT
  else PINHOLE.

(** Both halves of a pair carry image data, with the same frame id. *)
Definition pair_matched (o : ObjMat2) : Prop :=
  exists il ir, first_data o = Some il /\ second_data o = Some ir
                /\ img_frame_id il = img_frame_id ir.

(** What the dispatcher may do with native arrivals: tell the listener, if
    one is set; submit a matched pair to the rectify stage; forward a
    matched pair to the children of the rectify stage, or a single payload
    to the children of another stage.  It never calls a stream callback and
    never submits a single payload to a stage. *)
Definition dispatcher_event (W : bool) (st : Synthetic) (e : Event) : Prop :=
  match e with
  | Listener _ _ => stream_data_listener_ st <> None
  | Callback _ _ => False
  | Process T (Obj2 o) => T = rectify_class W st /\ pair_matched o
  | Process _ (Obj1 _) => False
  | ProcessChilds n (Obj2 o) => n = rectify_class W st /\ pair_matched o
  | ProcessChilds _ (Obj1 _) => True
  end.

(** The arrivals reported to the stream listener, in order. *)
Fixpoint listened (evs : list Event) : list (Stream * StreamData) :=
  match evs with
  | [] => []
  | Listener s x :: tl => (s, x) :: listened tl
  | _ :: tl => listened tl
  end.

(** The support mode [InitProcessors] and [InitStreamSupports] give a
    stream, as a function of what the device produces: LEFT and RIGHT are
    always NATIVE; the other named streams are looked at only when the
    device produces both LEFT and RIGHT, and are then NATIVE when the device
    produces them too and SYNTHETIC otherwise. *)
Definition support_table (d : Device.t) (S : Stream) : mode_t :=
  match S with
  | LEFT | RIGHT => MODE_NATIVE
  | LAST => MODE_LAST
  | _ =>
      if Device.Supports d LEFT && Device.Supports d RIGHT then
        if Device.Supports d S then MODE_NATIVE else MODE_SYNTHETIC
      else MODE_LAST
  end.

(** The modes of one stream right after construction. *)
Definition table_entry (d : Device.t) (st : Synthetic) (S : Stream) : Prop :=
  SupportsMode st S = support_table d S
  /\ GetStreamEnabledMode st S
     = (if mode_eqb (support_table d S) MODE_NATIVE then MODE_NATIVE else MODE_LAST).

Definition every_stream (P : Stream -> Prop) : Prop :=
  P LEFT /\ P RIGHT /\ P LEFT_RECTIFIED /\ P RIGHT_RECTIFIED /\ P DISPARITY
  /\ P DISPARITY_NORMALIZED /\ P POINTS /\ P DEPTH /\ P LAST.

(** The descriptor [t] has the stream and the support mode of [t0], and is
    enabled as NATIVE exactly when [t0] is. *)
Definition same_support (t0 t : stream_control_t) : Prop :=
  stream t = stream t0
  /\ support_mode_ t = support_mode_ t0
  /\ (enabled_mode_ t = MODE_NATIVE <-> enabled_mode_ t0 = MODE_NATIVE).

Definition store_same_support (ps0 ps : Store) : Prop :=
  Forall2 (fun p0 p => Forall2 same_support (target_streams_ p0) (target_streams_ p))
    ps0 ps.

(** The streams of the stages on the way from the root to the stage that
    owns [S], for the pipeline of a given calibration model: what has to run
    for [S] to be produced. *)
Definition upstream (m : CalibrationModel) (S : Stream) : list Stream :=
  let rectified := [LEFT; RIGHT; LEFT_RECTIFIED; RIGHT_RECTIFIED] in
  match S with
  | LEFT | RIGHT => [LEFT; RIGHT]
  | LEFT_RECTIFIED | RIGHT_RECTIFIED => rectified
  | DISPARITY => rectified ++ [DISPARITY]
  | DISPARITY_NORMALIZED => rectified ++ [DISPARITY; DISPARITY_NORMALIZED]
  | POINTS =>
      if calib_eqb m KANNALA_BRANDT then rectified ++ [DISPARITY; DEPTH; POINTS]
      else rectified ++ [DISPARITY; POINTS]
  | DEPTH =>
      if calib_eqb m KANNALA_BRANDT then rectified ++ [DISPARITY; DEPTH]
      else rectified ++ [DISPARITY; POINTS; DEPTH]
  | LAST => []
  end.

(** The streams of the stage that owns [S] and of the stages below it: what
    is fed, directly or not, by the stage of [S]. *)
Definition downstream (m : CalibrationModel) (S : Stream) : list Stream :=
  let kb := calib_eqb m KANNALA_BRANDT in
  let from_disparity := [DISPARITY; DISPARITY_NORMALIZED; POINTS; DEPTH] in
  match S with
  | LEFT | RIGHT => [LEFT; RIGHT; LEFT_RECTIFIED; RIGHT_RECTIFIED] ++ from_disparity
  | LEFT_RECTIFIED | RIGHT_RECTIFIED => [LEFT_RECTIFIED; RIGHT_RECTIFIED] ++ from_disparity
  | DISPARITY => from_disparity
  | DISPARITY_NORMALIZED => [DISPARITY_NORMALIZED]
  | POINTS => if kb then [POINTS] else [POINTS; DEPTH]
  | DEPTH => if kb then [DEPTH; POINTS] else [DEPTH]
  | LAST => []
  end.

(** ** Video streaming and sequences of stream data *)

(** The calls [StartVideoStreaming] and [StopVideoStreaming] make on the
    device: [SetStreamCallback(stream, callback)] with the pipeline's own
    callback ([true]) or with [nullptr] ([false]), and [Start] / [Stop] of
    the video source. *)
Inductive DeviceCall : Type :=
  | SetDeviceCallback (s : Stream) (installed : bool)
  | DeviceStart
  | DeviceStop.

(** The two nested loops of both functions: the streams, in order, of the
    descriptors whose support mode is NATIVE. *)
Definition native_support_streams (ps : Store) : list Stream :=
  flat_map
    (fun p =>
       map stream
         (filter (fun t => mode_eqb (support_mode_ t) MODE_NATIVE) (target_streams_ p)))
    ps.

Definition StartVideoStreaming (st : Synthetic) : list DeviceCall :=
  map (fun s => SetDeviceCallback s true) (native_support_streams (processors_ st))
  ++ [DeviceStart].

Definition StopVideoStreaming (st : Synthetic) : list DeviceCall :=
  map (fun s => SetDeviceCallback s false) (native_support_streams (processors_ st))
  ++ [DeviceStop].

(** The callback [StartVideoStreaming] installs for [s]: convert the device
    data, run the dispatcher, then call the stream's own callback if one is
    set. *)
Definition native_callback (W : bool) (st : Synthetic) (sv : Statics) (s : Stream)
    (x : device_StreamData) : Outcome (list Event * Statics) :=
  stream_data <- data2api (api_device st) x ;;
  let r := ProcessNativeStream W st sv s stream_data in
  Done (fst r ++ notify_callback st s stream_data, snd r).

(** [data2api] over a sequence of device data. *)
Fixpoint data2api_all (d : Device.t) (xs : list device_StreamData)
  : Outcome (list StreamData) :=
  match xs with
  | [] => Done []
  | x :: tl =>
      y <- data2api d x ;;
      ys <- data2api_all d tl ;;
      Done (y :: ys)
  end.

Definition GetStreamDatas (st : Synthetic) (sv : Statics) (s : Stream)
  : Outcome (list StreamData * Statics) :=
  let mode := GetStreamEnabledMode st s in
  if mode_eqb mode MODE_NATIVE then
    datas <- data2api_all (api_device st) (Device.GetStreamDatas (api_device st) s) ;;
    Done (datas, sv)
  else if mode_eqb mode MODE_SYNTHETIC then
    r <- GetStreamData st sv s ;;
    Done ([fst r], snd r)
  else Done ([], sv).

(** All the streams registered in a store, in order. *)
Definition registered_streams (ps : Store) : list Stream :=
  flat_map (fun p => map stream (target_streams_ p)) ps.

(** The streams a device call list installs a callback for, and those it
    removes it from. *)
Definition installed (calls : list DeviceCall) : list Stream :=
  flat_map (fun c => match c with SetDeviceCallback s true => [s] | _ => [] end) calls.

Definition removed (calls : list DeviceCall) : list Stream :=
  flat_map (fun c => match c with SetDeviceCallback s false => [s] | _ => [] end) calls.

(** ** Further sample values *)

(** [pipeline_depth_on] after DISPARITY was disabled. *)
Definition pipeline_depth_off : Synthetic :=
  Eval vm_compute in
  snd (result ([], pipeline_depth_on) (DisableStreamData pipeline_depth_on DISPARITY false)).

Definition process_depth_on : ProcessState :=
  mkProcessState pipeline_depth_on Statics_init [].

(** [pipeline_lr] after DISPARITY was enabled, and after the disparity stage
    then published a matrix. *)
Definition pipeline_disparity_on : Synthetic :=
  Eval vm_compute in
  snd (result ([], pipeline_lr) (EnableStreamData pipeline_lr DISPARITY false)).

Definition sample_single : ObjMat :=
  mkObjMat (sample_mat 30) 6 (Some (mkImgData 6 0 0)).

Definition pipeline_disparity_out : Synthetic :=
  Eval vm_compute in
  publish DisparityProcessor (Obj1 sample_single) pipeline_disparity_on.

Definition process_disparity_out : ProcessState :=
  mkProcessState pipeline_disparity_out Statics_init [DisparityProcessor].

(** A datum as the device hands it to the installed callback. *)
Definition sample_device_data : device_StreamData :=
  mkDeviceStreamData (Some (mkImgData 1 0 0)) (Some (sample_frame 1)) 1.

(** ** Several pipelines in one process *)

(** The statics of [GetStreamData] and [ProcessNativeStream] have function
    scope: they belong to the functions, not to a [Synthetic], so every
    pipeline constructed in the process reads and writes the same ones.  A
    process is the pipelines constructed so far, each with the stages that
    have published an output in it since it was constructed, and the one set
    of statics.  [Running] is the case of a process that holds one pipeline
    ([Running_PoolRunning]). *)
Record Pool : Type := mkPool {
  members : list (Synthetic * list ProcName);
  shared : Statics
}.

(** What can happen to such a process: a pipeline is constructed, for any
    device and calibration model, or one of the pipelines takes a step on
    the shared statics. *)
Inductive PoolStep (W : bool) : Pool -> Pool -> Prop :=
  | Pool_new a d cm st :
      Synthetic_new W d cm = Done st ->
      PoolStep W a (mkPool (members a ++ [(st, [])]) (shared a))
  | Pool_step a l1 l2 st done b :
      members a = l1 ++ (st, done) :: l2 ->
      Step W (mkProcessState st (shared a) done) b ->
      PoolStep W a (mkPool (l1 ++ (pipeline b, produced b) :: l2) (statics b)).

Inductive PoolRunning (W : bool) : Pool -> Prop :=
  | Pool_start : PoolRunning W (mkPool [] Statics_init)
  | Pool_next a b : PoolRunning W a -> PoolStep W a b -> PoolRunning W b.

(** What is known of each pipeline of the process. *)
Record member_inv (W : bool) (m : Synthetic * list ProcName) : Prop := mkMemberInv {
  member_skeleton :
    exists d cm, skeleton (processors_ (fst m)) = skeleton (constructed W d cm);
  member_left_right : Forall left_right_native (processors_ (fst m));
  member_outputs : Forall (output_published (snd m)) (processors_ (fst m))
}.

(** The half of a pair that [GetStreamData] returns for a rectified stream. *)
Definition returned_half (s : Stream) (o : ObjMat2) : StreamData :=
  if Stream_eqb s LEFT_RECTIFIED then obj_data_second o else obj_data_first o.

(** What a call that only moves enabled modes from [from] to [to] leaves of
    a stage: its name, its children, its latest output, and of every
    descriptor all but the enabled mode. *)
Definition stage_moved (from to : mode_t) (p p' : Processor) : Prop :=
  Name p' = Name p /\ childs_ p' = childs_ p /\ output_result_ p' = output_result_ p
  /\ Forall2 (moved from to) (target_streams_ p) (target_streams_ p').

(** A stage before and after [EnableStreamData]: it is not deactivated. *)
Definition stage_enabled (p p' : Processor) : Prop :=
  stage_moved MODE_LAST MODE_SYNTHETIC p p'
  /\ (activated_ p = true -> activated_ p' = true).

(** A stage before and after [DisableStreamData]: it is not activated. *)
Definition stage_disabled (p p' : Processor) : Prop :=
  stage_moved MODE_SYNTHETIC MODE_LAST p p'
  /\ (activated_ p' = true -> activated_ p = true).

(** A first pipeline whose rectify stage has published [sample_pair] and
    whose LEFT_RECTIFIED has been read, and a second pipeline, constructed
    afterwards, on which LEFT_RECTIFIED is enabled and whose rectify stage
    has published nothing. *)
Definition statics_read : Statics := with_output (Some sample_pair) Statics_init.

Definition pool_two : Pool :=
  mkPool [(pipeline_rect_out, [RectifyProcessorOCV]); (pipeline_rect_on, [])]
    statics_read.

(** * Properties *)

Unset Implicit Arguments.

(** ** Boolean equalities *)

Lemma Stream_eqb_eq (a b : Stream) : Stream_eqb a b = true <-> a = b.
Proof.
  unfold Stream_eqb; destruct (Stream_eq_dec a b); split; congruence.
Qed.

Lemma Stream_eqb_refl (a : Stream) : Stream_eqb a a = true.
Proof. now apply Stream_eqb_eq. Qed.

Lemma mode_eqb_eq (a b : mode_t) : mode_eqb a b = true <-> a = b.
Proof.
  unfold mode_eqb; destruct (mode_eq_dec a b); split; congruence.
Qed.

Lemma mode_eqb_neq (a b : mode_t) : mode_eqb a b = false <-> a <> b.
Proof.
  unfold mode_eqb; destruct (mode_eq_dec a b); split; congruence.
Qed.

Lemma ProcName_eqb_eq (a b : ProcName) : ProcName_eqb a b = true <-> a = b.
Proof.
  unfold ProcName_eqb; destruct (ProcName_eq_dec a b); split; congruence.
Qed.

Lemma ProcName_eqb_refl (a : ProcName) : ProcName_eqb a a = true.
Proof. now apply ProcName_eqb_eq. Qed.

(** ** Lookups in the registry *)

Lemma find_is_stream_none (s : Stream) (ts : list stream_control_t) :
  find (is_stream s) ts = None <-> existsb (is_stream s) ts = false.
Proof.
  induction ts as [|t tl IH]; simpl; [tauto|].
  destruct (is_stream s t); simpl; [split; discriminate | exact IH].
Qed.

Lemma lookup_stream_none (ps : Store) (s : Stream) :
  lookup_stream ps s = None <->
  existsb (fun p => existsb (is_stream s) (getTargetStreams p)) ps = false.
Proof.
  induction ps as [|p tl IH]; simpl; [tauto|].
  destruct (find (is_stream s) (getTargetStreams p)) eqn:E.
  - assert (existsb (is_stream s) (getTargetStreams p) = true) as ->.
    { destruct (existsb (is_stream s) (getTargetStreams p)) eqn:X; [reflexivity|].
      apply find_is_stream_none in X; congruence. }
    simpl; split; discriminate.
  - apply find_is_stream_none in E; rewrite E; simpl; exact IH.
Qed.

Lemma unknown_stream_mode (st : Synthetic) (s : Stream) :
  checkControlDateWithStream st s = false -> GetStreamEnabledMode st s = MODE_LAST.
Proof. unfold GetStreamEnabledMode; now intros ->. Qed.

(** ** Stream callbacks *)

Lemma find_set_first_callback (s : Stream) (c : stream_callback_t)
    (ts : list stream_control_t) :
  existsb (is_stream s) ts = true ->
  exists t, find (is_stream s) (set_first_callback s c ts) = Some t
            /\ stream_callback t = c.
Proof.
  induction ts as [|t tl IH]; simpl; [discriminate|].
  destruct (is_stream s t) eqn:E; simpl.
  - intros _. exists (set_stream_callback c t).
    unfold is_stream in *; simpl; rewrite E; auto.
  - intros H; rewrite E; auto.
Qed.

Lemma lookup_set_callback_in (ps : Store) (s : Stream) (c : stream_callback_t) :
  match lookup_stream (set_callback_in ps s c) s with
  | Some (_, t) => stream_callback t = c
  | None => True
  end.
Proof.
  unfold getTargetStreams.
  induction ps as [|p tl IH]; simpl; [exact I|].
  destruct (existsb (is_stream s) (target_streams_ p)) eqn:E;
    simpl; unfold getTargetStreams; rewrite E; simpl; unfold getTargetStreams; simpl.
  - destruct (find_set_first_callback s c _ E) as (t & -> & Hc); exact Hc.
  - apply find_is_stream_none in E; rewrite E; exact IH.
Qed.

Lemma HasStreamCallback_after_set (st : Synthetic) (s : Stream) (c : stream_callback_t) :
  HasStreamCallback (SetStreamCallback st s c) s = true -> exists f, c = Some f.
Proof.
  unfold HasStreamCallback, SetStreamCallback, setControlDateCallbackWithStream,
    getControlDateWithStream; simpl.
  destruct (checkControlDateWithStream _ s); [|discriminate].
  pose proof (lookup_set_callback_in (processors_ st) s
                (match c with None => None | Some f => Some f end)) as L.
  destruct (lookup_stream _ s) as [[p t]|]; simpl in *; [|discriminate].
  rewrite L; destruct c; [eauto | discriminate].
Qed.

(** C9. For every stream [S] (registered or not) and every callback [f],
    [SetStreamCallback(S, f)] followed by [SetStreamCallback(S, nullptr)]
    leaves [HasStreamCallback(S)] false. *)
Theorem C9_callback_cleared (st : Synthetic) (S : Stream) (f : stream_callback_t) :
  HasStreamCallback (SetStreamCallback (SetStreamCallback st S f) S None) S = false.
Proof.
  destruct (HasStreamCallback _ S) eqn:E; [|reflexivity].
  apply HasStreamCallback_after_set in E; destruct E; discriminate.
Qed.

(** ** Streams the pipeline does not know *)

(** C7. For a stream [S] that no processor registers, [GetStreamData(S)]
    returns an empty [StreamData] and leaves the statics alone,
    [HasStreamCallback(S)] and [Supports(S)] are false, and
    [EnableStreamData(S)] has no defined result: [getProcessorWithStream]
    logs the error and then runs off its end without returning a
    processor. *)
Theorem C7_unknown_stream (st : Synthetic) (sv : Statics) (S : Stream) (try_tag : bool) :
  checkControlDateWithStream st S = false ->
  GetStreamData st sv S = Done (StreamData_empty, sv)
  /\ HasStreamCallback st S = false
  /\ Supports st S = false
  /\ getProcessorWithStream st S = Undefined
  /\ EnableStreamData st S try_tag = Undefined.
Proof.
  intros H.
  assert (getProcessorWithStream st S = Undefined) as G.
  { unfold getProcessorWithStream.
    apply lookup_stream_none in H; now rewrite H. }
  repeat split; auto.
  - unfold GetStreamData; now rewrite (unknown_stream_mode _ _ H).
  - unfold HasStreamCallback; now rewrite H.
  - unfold EnableStreamData; now rewrite G.
Qed.

(** ** Process hooks *)

Lemma process_hook_true (st : Synthetic)
    (handler : Plugin.t -> Object -> Object -> bool * Object) (s : Stream)
    (inp out : Object) :
  fst (process_hook st handler s inp out) = true <->
  (exists pl, plugin_ st = Some pl /\ fst (handler pl inp out) = true)
  \/ GetStreamEnabledMode st s <> MODE_SYNTHETIC.
Proof.
  unfold process_hook, plugin_call.
  destruct (plugin_ st) as [pl|]; simpl.
  - destruct (fst (handler pl inp out)) eqn:E; simpl.
    + split; auto. intros _; left; eauto.
    + rewrite negb_true_iff, mode_eqb_neq. split; auto.
      intros [(pl' & [= <-] & H)|H]; [congruence | exact H].
  - rewrite negb_true_iff, mode_eqb_neq. split; auto.
    intros [(pl' & H & _)|H]; [discriminate | exact H].
Qed.

Lemma deliver_no_kernel (f : ProcName -> RunEvent) (cs : list ProcName) :
  (forall c, match f c with Deliver _ _ => True | _ => False end) ->
  existsb (fun e => match e with Kernel _ _ => true | _ => false end) (map f cs) = false
  /\ existsb (fun e => match e with PostProcess _ => true | _ => false end) (map f cs)
     = false.
Proof.
  intros H; induction cs as [|c tl [IH1 IH2]]; simpl; [auto|].
  specialize (H c); destruct (f c); try contradiction; simpl; auto.
Qed.

Lemma run_input_satisfied (hook : Object -> Object -> bool * Object)
    (compute : Object -> Object -> option Object) (p : Processor) (inp out : Object) :
  IsActivated p = true ->
  fst (hook inp out) = true ->
  kernel_invoked (run_input (Some hook) compute p inp out) = false
  /\ post_process_fired (run_input (Some hook) compute p inp out) = true.
Proof.
  unfold run_input, kernel_invoked, post_process_fired; intros -> ->; simpl.
  split; [|reflexivity].
  now apply (deliver_no_kernel (fun c => Deliver c (snd (hook inp out)))).
Qed.

Lemma run_input_fall_through (hook : Object -> Object -> bool * Object)
    (compute : Object -> Object -> option Object) (p : Processor) (inp out : Object) :
  IsActivated p = true ->
  fst (hook inp out) = false ->
  kernel_invoked (run_input (Some hook) compute p inp out) = true.
Proof.
  unfold run_input, kernel_invoked; intros -> ->.
  destruct (compute inp (snd (hook inp out))); reflexivity.
Qed.

Lemma process_hook_contract (st : Synthetic)
    (handler : Plugin.t -> Object -> Object -> bool * Object) (s : Stream) :
  hook_contract st (process_hook st handler s) handler s.
Proof.
  intros inp out; split; [apply process_hook_true|].
  intros pl compute p Hpl Hh Hact.
  apply run_input_satisfied; [exact Hact|].
  apply process_hook_true; left; eauto.
Qed.

(** C4. For each of the five stages with a process hook and for every input,
    the hook reports the output as satisfied exactly when the plugin is set
    and its handler for that stage returns true, or the stage's stream
    (LEFT_RECTIFIED for the rectify stage) has an enabled mode other than
    SYNTHETIC; and when the plugin handler returns true on an activated
    stage, the built-in kernel is not invoked for that input while the
    post-process hook still fires. *)
Theorem C4_process_hooks (st : Synthetic) :
  hook_contract st (OnRectifyProcess st) Plugin.OnRectifyProcess LEFT_RECTIFIED
  /\ hook_contract st (OnDisparityProcess st) Plugin.OnDisparityProcess DISPARITY
  /\ hook_contract st (OnDisparityNormalizedProcess st)
       Plugin.OnDisparityNormalizedProcess DISPARITY_NORMALIZED
  /\ hook_contract st (OnPointsProcess st) Plugin.OnPointsProcess POINTS
  /\ hook_contract st (OnDepthProcess st) Plugin.OnDepthProcess DEPTH.
Proof. repeat apply conj; apply process_hook_contract. Qed.

(** C10. With no plugin, or a plugin whose rectify handler returns false, the
    rectify hook falls through to the built-in rectification exactly when
    LEFT_RECTIFIED is enabled as SYNTHETIC: on an activated stage the kernel
    runs under that condition only, and two pipelines that agree on the
    plugin and on LEFT_RECTIFIED's enabled mode get the same answer, whatever
    RIGHT_RECTIFIED's enabled mode is. *)
Theorem C10_rectify_hook_left_only (st : Synthetic) (inp out : Object) :
  (plugin_ st = None
   \/ exists pl, plugin_ st = Some pl
                 /\ fst (Plugin.OnRectifyProcess pl inp out) = false) ->
  (fst (OnRectifyProcess st inp out) = false <->
     GetStreamEnabledMode st LEFT_RECTIFIED = MODE_SYNTHETIC)
  /\ (forall compute p,
        IsActivated p = true ->
        (kernel_invoked (run_input (Some (OnRectifyProcess st)) compute p inp out) = true
         <-> GetStreamEnabledMode st LEFT_RECTIFIED = MODE_SYNTHETIC))
  /\ (forall st',
        plugin_ st' = plugin_ st ->
        GetStreamEnabledMode st' LEFT_RECTIFIED = GetStreamEnabledMode st LEFT_RECTIFIED ->
        fst (OnRectifyProcess st' inp out) = fst (OnRectifyProcess st inp out)).
Proof.
  intros Hpl.
  assert (fst (OnRectifyProcess st inp out) = false <->
          GetStreamEnabledMode st LEFT_RECTIFIED = MODE_SYNTHETIC) as Hook.
  { unfold OnRectifyProcess, process_hook, plugin_call.
    destruct Hpl as [-> | (pl & -> & ->)]; simpl;
      rewrite negb_false_iff; apply mode_eqb_eq. }
  split; [exact Hook|split].
  - intros compute p Hact; rewrite <- Hook; split.
    + intros K. destruct (fst (OnRectifyProcess st inp out)) eqn:E; [|reflexivity].
      destruct (run_input_satisfied (OnRectifyProcess st) compute p inp out Hact E).
      congruence.
    + now apply run_input_fall_through.
  - intros st' P M.
    unfold OnRectifyProcess, process_hook, plugin_call; now rewrite P, M.
Qed.

(** ** The pairing of LEFT and RIGHT *)

Lemma same_frame_paired (l r : StreamData) :
  same_frame l r = true <-> slots_paired l r.
Proof.
  unfold same_frame, slots_paired; split.
  - destruct (img l) as [il|], (img r) as [ir|]; try discriminate.
    intros H; apply Z.eqb_eq in H; eauto.
  - intros (il & ir & -> & -> & H); now apply Z.eqb_eq.
Qed.

Lemma submitted_app (a b : list Event) :
  submitted (a ++ b) = submitted a ++ submitted b.
Proof.
  induction a as [|e tl IH]; simpl; [reflexivity|].
  destruct e; simpl; now rewrite IH.
Qed.

Lemma submitted_notify (st : Synthetic) (s : Stream) (x : StreamData) :
  submitted (NotifyStreamData st s x) = [].
Proof. unfold NotifyStreamData; now destruct (stream_data_listener_ st). Qed.

Lemma latch_step (W : bool) (st : Synthetic) (sv : Statics) (s : Stream) (x : StreamData) :
  s = LEFT \/ s = RIGHT ->
  let res := ProcessNativeStream W st sv s x in
  let l := left_data (snd res) in
  let r := right_data (snd res) in
  l = (if Stream_eqb s LEFT then x else left_data sv)
  /\ r = (if Stream_eqb s LEFT then right_data sv else x)
  /\ submitted (fst res)
     = (if same_frame l r then [(rectify_class W st, Obj2 (data_obj2 l r))] else []).
Proof.
  intros [-> | ->]; unfold ProcessNativeStream; simpl.
  - repeat split. destruct (same_frame x (right_data sv)); simpl;
      [rewrite submitted_app|]; now rewrite submitted_notify.
  - repeat split. destruct (same_frame (left_data sv) x); simpl;
      [rewrite submitted_app|]; now rewrite submitted_notify.
Qed.

Lemma dispatch_snoc (W : bool) (st : Synthetic) (sv : Statics)
    (arrivals : list (Stream * StreamData)) (s : Stream) (x : StreamData) :
  dispatch W st sv (arrivals ++ [(s, x)]) =
  (fst (dispatch W st sv arrivals)
     ++ fst (ProcessNativeStream W st (snd (dispatch W st sv arrivals)) s x),
   snd (ProcessNativeStream W st (snd (dispatch W st sv arrivals)) s x)).
Proof.
  revert sv; induction arrivals as [|[s0 x0] tl IH]; intros sv; simpl.
  - now rewrite app_nil_r.
  - rewrite IH; simpl; now rewrite app_assoc.
Qed.

(** C3 (as amended). For every sequence of native LEFT/RIGHT arrivals, the
    arriving frame overwrites its eye's slot, and a pair is handed to the
    rectify stage exactly when, after that update, both slots hold image
    data ([img]) and the frame ids recorded in the two image data are equal;
    the emissions of a sequence are those of its arrivals, in order.  In
    particular, from the initial slots, LEFT id 42, LEFT id 43, then RIGHT
    id 43 (each with its image data) emit exactly one pair, made of LEFT 43
    and RIGHT 43. *)
Theorem C3_pairing_latch (W : bool) (st : Synthetic) :
  (forall sv s x,
     s = LEFT \/ s = RIGHT ->
     let res := ProcessNativeStream W st sv s x in
     let l := left_data (snd res) in
     let r := right_data (snd res) in
     l = (if Stream_eqb s LEFT then x else left_data sv)
     /\ r = (if Stream_eqb s LEFT then right_data sv else x)
     /\ ((slots_paired l r
          /\ submitted (fst res) = [(rectify_class W st, Obj2 (data_obj2 l r))])
         \/ (~ slots_paired l r /\ submitted (fst res) = [])))
  /\ (forall sv arrivals s x,
        submitted (fst (dispatch W st sv (arrivals ++ [(s, x)]))) =
        submitted (fst (dispatch W st sv arrivals))
        ++ submitted (fst (ProcessNativeStream W st
                             (snd (dispatch W st sv arrivals)) s x)))
  /\ (forall l42 l43 r43 i42 i43 j43,
        img l42 = Some i42 -> img_frame_id i42 = 42%Z ->
        img l43 = Some i43 -> img_frame_id i43 = 43%Z ->
        img r43 = Some j43 -> img_frame_id j43 = 43%Z ->
        submitted (fst (dispatch W st Statics_init
                          [(LEFT, l42); (LEFT, l43); (RIGHT, r43)]))
        = [(rectify_class W st, Obj2 (data_obj2 l43 r43))]).
Proof.
  split; [|split].
  - intros sv s x Hs res l r.
    destruct (latch_step W st sv s x Hs) as (Hl & Hr & He).
    fold res in Hl, Hr, He; fold l in Hl, He; fold r in Hr, He.
    split; [exact Hl|split; [exact Hr|]].
    destruct (same_frame l r) eqn:E; [left|right]; split; auto.
    + now apply same_frame_paired.
    + intros P; apply same_frame_paired in P; congruence.
  - intros sv arrivals s x. rewrite dispatch_snoc; simpl. apply submitted_app.
  - intros l42 l43 r43 i42 i43 j43 H1 H2 H3 H4 H5 H6.
    unfold dispatch, ProcessNativeStream; simpl.
    unfold same_frame; simpl; rewrite H1, H3, H5, H4, H6; simpl.
    repeat (rewrite ?submitted_app, ?submitted_notify; simpl).
    reflexivity.
Qed.

(** C3, witness: the scenario on sample frames, and one arrival that pairs. *)
Lemma C3_pairing_latch_witness :
  submitted (fst (dispatch false pipeline_lr Statics_init
                    [(LEFT, native_frame 42); (LEFT, native_frame 43);
                     (RIGHT, native_frame 43)]))
  = [(RectifyProcessorOCV, Obj2 (data_obj2 (native_frame 43) (native_frame 43)))].
Proof.
  apply (proj2 (proj2 (C3_pairing_latch false pipeline_lr))
           (native_frame 42) (native_frame 43) (native_frame 43)
           (mkImgData 42 0 0) (mkImgData 43 0 0) (mkImgData 43 0 0));
    reflexivity.
Defined.

(** C3, counterexample to the claim as worded: two arrivals that leave a
    matrix in each slot, with equal frame ids, and still emit no pair,
    because neither carries image data. *)
Lemma C3_counterexample :
  let res := dispatch false pipeline_lr Statics_init
               [(LEFT, bare_frame 7); (RIGHT, bare_frame 7)] in
  Mat_is_empty (frame (left_data (snd res))) = false
  /\ Mat_is_empty (frame (right_data (snd res))) = false
  /\ frame_id (left_data (snd res)) = frame_id (right_data (snd res))
  /\ submitted (fst res) = [].
Proof. vm_compute. repeat split. Qed.

(** ** The store under mutation *)

Lemma find_proc_update (n m : ProcName) (f : Processor -> Processor) (ps : Store) :
  (forall p, Name (f p) = Name p) ->
  find_proc (update_proc n f ps) m =
  if ProcName_eqb m n then option_map f (find_proc ps m) else find_proc ps m.
Proof.
  intros Hf; unfold find_proc.
  induction ps as [|p tl IH]; simpl; [now destruct (ProcName_eqb m n)|].
  destruct (ProcName_eqb (Name p) n) eqn:Epn; simpl.
  - apply ProcName_eqb_eq in Epn. rewrite Hf, Epn.
    destruct (ProcName_eqb m n) eqn:Emn.
    + apply ProcName_eqb_eq in Emn; subst m.
      now rewrite ProcName_eqb_refl.
    + destruct (ProcName_eqb n m) eqn:Enm; [|reflexivity].
      apply ProcName_eqb_eq in Enm; subst m.
      now rewrite ProcName_eqb_refl in Emn.
  - destruct (ProcName_eqb (Name p) m) eqn:Epm.
    + apply ProcName_eqb_eq in Epm; subst m. now rewrite Epn.
    + exact IH.
Qed.

Lemma update_proc_fixed (n : ProcName) (f : Processor -> Processor) (ps : Store) :
  (forall p, find_proc ps n = Some p -> f p = p) ->
  update_proc n f ps = ps.
Proof.
  unfold find_proc; induction ps as [|p tl IH]; simpl; [reflexivity|].
  destruct (ProcName_eqb (Name p) n); intros H.
  - now rewrite H.
  - now rewrite IH.
Qed.

Lemma update_proc_Forall (P : Processor -> Prop) (n : ProcName)
    (f : Processor -> Processor) (ps : Store) :
  (forall p, P p -> P (f p)) -> Forall P ps -> Forall P (update_proc n f ps).
Proof.
  intros Hf; induction 1 as [|p tl Hp Htl IH]; simpl; [constructor|].
  destruct (ProcName_eqb (Name p) n); constructor; auto.
Qed.

Lemma update_proc_skeleton (n : ProcName) (f : Processor -> Processor) (ps : Store) :
  keeps_skeleton f -> skeleton (update_proc n f ps) = skeleton ps.
Proof.
  intros Hf; induction ps as [|p tl IH]; simpl; [reflexivity|].
  destruct (ProcName_eqb (Name p) n); simpl.
  - destruct (Hf p) as (-> & -> & ->); reflexivity.
  - now rewrite IH.
Qed.

Lemma visit_all_Forall (P : Processor -> Prop)
    (visit : Processor -> list Stream * Processor) (walk : list ProcName) (ps : Store) :
  (forall p, P p -> P (snd (visit p))) ->
  Forall P ps -> Forall P (snd (visit_all visit walk ps)).
Proof.
  intros Hv; revert ps; induction walk as [|n tl IH]; intros ps H; simpl; [exact H|].
  destruct (find_proc ps n); simpl; apply IH; auto.
  now apply update_proc_Forall.
Qed.

Lemma visit_all_skeleton (visit : Processor -> list Stream * Processor)
    (walk : list ProcName) (ps : Store) :
  keeps_skeleton (fun p => snd (visit p)) ->
  skeleton (snd (visit_all visit walk ps)) = skeleton ps.
Proof.
  intros Hv; revert ps; induction walk as [|n tl IH]; intros ps; simpl; [reflexivity|].
  destruct (find_proc ps n); simpl; rewrite IH; auto.
  now apply update_proc_skeleton.
Qed.

(** ** What the skeleton determines *)

Lemma skeleton_length (ps ps' : Store) :
  skeleton ps = skeleton ps' -> length ps = length ps'.
Proof.
  intros H; apply (f_equal (@length _)) in H.
  unfold skeleton in H; now rewrite !length_map in H.
Qed.

Lemma skeleton_GetParent (ps ps' : Store) (n : ProcName) :
  skeleton ps = skeleton ps' -> GetParent ps n = GetParent ps' n.
Proof.
  unfold GetParent; revert ps'; induction ps as [|p tl IH]; intros [|p' tl'];
    simpl; try discriminate; [reflexivity|].
  intros [= Hn Hc _ Htl]. rewrite Hc.
  destruct (existsb (ProcName_eqb n) (childs_ p')); simpl; [now rewrite Hn | auto].
Qed.

Lemma skeleton_GetChilds (ps ps' : Store) (n : ProcName) :
  skeleton ps = skeleton ps' -> GetChilds ps n = GetChilds ps' n.
Proof.
  unfold GetChilds, find_proc; revert ps'; induction ps as [|p tl IH]; intros [|p' tl'];
    simpl; try discriminate; [reflexivity|].
  intros [= Hn Hc _ Htl]. rewrite Hn.
  destruct (ProcName_eqb (Name p') n); [exact Hc | auto].
Qed.

Lemma skeleton_CtoP (fuel : nat) (ps ps' : Store) (n : ProcName) :
  skeleton ps = skeleton ps' ->
  iterate_processor_CtoP_before fuel ps n = iterate_processor_CtoP_before fuel ps' n.
Proof.
  intros H; revert n; induction fuel as [|k IH]; intros n; simpl; [reflexivity|].
  rewrite (@skeleton_GetParent ps ps' n H).
  destruct (GetParent ps' n); [now rewrite IH | reflexivity].
Qed.

Lemma skeleton_PtoC (fuel : nat) (ps ps' : Store) (n : ProcName) :
  skeleton ps = skeleton ps' ->
  iterate_processor_PtoC_before fuel ps n = iterate_processor_PtoC_before fuel ps' n.
Proof.
  intros H; revert n; induction fuel as [|k IH]; intros n; simpl; [reflexivity|].
  rewrite (@skeleton_GetChilds ps ps' n H). f_equal.
  induction (GetChilds ps' n) as [|c cs IHc]; simpl; [reflexivity|].
  now rewrite IH, IHc.
Qed.

Lemma existsb_is_stream (s : Stream) (ts : list stream_control_t) :
  existsb (is_stream s) ts = existsb (fun x => Stream_eqb x s) (map stream ts).
Proof. induction ts as [|t tl IH]; simpl; [reflexivity|]. now rewrite IH. Qed.

Lemma find_is_stream_some (s : Stream) (ts : list stream_control_t) :
  existsb (is_stream s) ts = true -> exists t, find (is_stream s) ts = Some t.
Proof.
  intros H. destruct (find (is_stream s) ts) eqn:E; [eauto|].
  apply find_is_stream_none in E; congruence.
Qed.

Lemma skeleton_owner (ps ps' : Store) (s : Stream) :
  skeleton ps = skeleton ps' ->
  option_map (fun x => Name (fst x)) (lookup_stream ps s)
  = option_map (fun x => Name (fst x)) (lookup_stream ps' s).
Proof.
  revert ps'; induction ps as [|p tl IH]; intros [|p' tl'];
    simpl; try discriminate; [reflexivity|].
  intros [= Hn _ Hs Htl]. unfold getTargetStreams.
  assert (existsb (is_stream s) (target_streams_ p)
          = existsb (is_stream s) (target_streams_ p')) as E
      by (now rewrite !existsb_is_stream, Hs).
  destruct (existsb (is_stream s) (target_streams_ p')) eqn:E'.
  - destruct (find_is_stream_some _ _ E) as (t & ->).
    destruct (find_is_stream_some _ _ E') as (t' & ->). simpl; now rewrite Hn.
  - apply find_is_stream_none in E, E'. rewrite E, E'. auto.
Qed.

Lemma skeleton_getProcessorWithStream (st st' : Synthetic) (s : Stream) :
  skeleton (processors_ st) = skeleton (processors_ st') ->
  getProcessorWithStream st s = getProcessorWithStream st' s.
Proof.
  intros H; apply (@skeleton_owner _ _ s) in H. unfold getProcessorWithStream.
  destruct (lookup_stream (processors_ st) s) as [[p t]|],
           (lookup_stream (processors_ st') s) as [[p' t']|];
    simpl in H; congruence.
Qed.

(** ** The visitors *)

Lemma switch_loop_targets (from to : mode_t) (try_tag : bool) (ts : list stream_control_t) :
  targets (switch_loop from to try_tag ts) =
  if try_tag then ts else map (switch_mode from to) ts.
Proof.
  induction ts as [|t tl IH]; simpl; [now destruct try_tag|].
  unfold switch_mode at 1.
  destruct (mode_eqb (enabled_mode_ t) from), try_tag; simpl; rewrite IH; reflexivity.
Qed.

Lemma switch_loop_called (from to : mode_t) (try_tag : bool) (ts : list stream_control_t) :
  called (switch_loop from to try_tag ts) = map stream (filter (has_mode from) ts).
Proof.
  induction ts as [|t tl IH]; simpl; [reflexivity|].
  unfold has_mode at 1.
  destruct (mode_eqb (enabled_mode_ t) from), try_tag; simpl; rewrite IH; reflexivity.
Qed.

Lemma switch_loop_act_tag_nonneg (from to : mode_t) (try_tag : bool)
    (ts : list stream_control_t) :
  (0 <= act_tag (switch_loop from to try_tag ts))%Z.
Proof.
  induction ts as [|t tl IH]; simpl; [lia|].
  destruct (mode_eqb (enabled_mode_ t) from), try_tag; simpl; lia.
Qed.

Lemma switch_loop_act_tag (from to : mode_t) (try_tag : bool) (ts : list stream_control_t) :
  (0 <? act_tag (switch_loop from to try_tag ts))%Z =
  negb try_tag && existsb (has_mode from) ts.
Proof.
  induction ts as [|t tl IH]; simpl; [now destruct try_tag|].
  pose proof (switch_loop_act_tag_nonneg from to try_tag tl) as N.
  unfold has_mode at 1.
  destruct (mode_eqb (enabled_mode_ t) from), try_tag; simpl in *; auto.
  apply Z.ltb_lt; lia.
Qed.

Lemma enable_visit_snd (try_tag : bool) (p : Processor) :
  snd (enable_visit try_tag p) =
  mkProcessor (Name p)
    (if try_tag then target_streams_ p
     else map (switch_mode MODE_LAST MODE_SYNTHETIC) (target_streams_ p))
    (childs_ p)
    (activated_ p || (negb try_tag && existsb (has_mode MODE_LAST) (target_streams_ p)))
    (output_result_ p).
Proof.
  destruct p as [n ts cs a o]; unfold enable_visit; simpl.
  rewrite switch_loop_act_tag, switch_loop_targets.
  destruct (negb try_tag && existsb (has_mode MODE_LAST) ts), a; reflexivity.
Qed.

Lemma disable_visit_snd (try_tag : bool) (p : Processor) :
  snd (disable_visit try_tag p) =
  mkProcessor (Name p)
    (if try_tag then target_streams_ p
     else map (switch_mode MODE_SYNTHETIC MODE_LAST) (target_streams_ p))
    (childs_ p)
    (activated_ p
     && negb (negb try_tag && existsb (has_mode MODE_SYNTHETIC) (target_streams_ p)))
    (output_result_ p).
Proof.
  destruct p as [n ts cs a o]; unfold disable_visit; simpl.
  rewrite switch_loop_act_tag, switch_loop_targets.
  destruct (negb try_tag && existsb (has_mode MODE_SYNTHETIC) ts), a; reflexivity.
Qed.

Lemma switch_mode_stream (from to : mode_t) (ts : list stream_control_t) :
  map stream (map (switch_mode from to) ts) = map stream ts.
Proof.
  induction ts as [|t tl IH]; simpl; [reflexivity|]. rewrite IH. f_equal.
  unfold switch_mode; now destruct (mode_eqb (enabled_mode_ t) from).
Qed.

Lemma enable_visit_keeps (try_tag : bool) :
  keeps_skeleton (fun p => snd (enable_visit try_tag p)).
Proof.
  intros p; rewrite enable_visit_snd; simpl; repeat split.
  destruct try_tag; [reflexivity | apply switch_mode_stream].
Qed.

Lemma disable_visit_keeps (try_tag : bool) :
  keeps_skeleton (fun p => snd (disable_visit try_tag p)).
Proof.
  intros p; rewrite disable_visit_snd; simpl; repeat split.
  destruct try_tag; [reflexivity | apply switch_mode_stream].
Qed.

Lemma switch_mode_gone (from to : mode_t) (ts : list stream_control_t) :
  from <> to -> existsb (has_mode from) (map (switch_mode from to) ts) = false.
Proof.
  intros N; induction ts as [|t tl IH]; simpl; [reflexivity|]. rewrite IH.
  unfold switch_mode, has_mode.
  destruct (mode_eqb (enabled_mode_ t) from) eqn:E; simpl; rewrite ?E; auto.
  rewrite orb_false_r. apply mode_eqb_neq; congruence.
Qed.

Lemma switch_mode_arrived (from to : mode_t) (ts : list stream_control_t) :
  existsb (has_mode to) (map (switch_mode from to) ts)
  = existsb (has_mode to) ts || existsb (has_mode from) ts.
Proof.
  induction ts as [|t tl IH]; simpl; [reflexivity|]. rewrite IH.
  unfold switch_mode, has_mode.
  assert (mode_eqb to to = true) as R by now apply mode_eqb_eq.
  generalize (existsb (fun t0 => mode_eqb (enabled_mode_ t0) to) tl) as a.
  generalize (existsb (fun t0 => mode_eqb (enabled_mode_ t0) from) tl) as b.
  intros b a.
  destruct (mode_eqb (enabled_mode_ t) from) eqn:E; simpl; rewrite ?R;
    destruct (mode_eqb (enabled_mode_ t) to), a, b; reflexivity.
Qed.

Lemma switch_loop_idle (from to : mode_t) (try_tag : bool) (ts : list stream_control_t) :
  existsb (has_mode from) ts = false ->
  switch_loop from to try_tag ts = mkLoop 0 [] ts.
Proof.
  induction ts as [|t tl IH]; simpl; [reflexivity|].
  unfold has_mode at 1. intros H; apply orb_false_iff in H as [-> H].
  now rewrite (IH H).
Qed.

Lemma enable_visit_idle (try_tag : bool) (p : Processor) :
  existsb (has_mode MODE_LAST) (target_streams_ p) = false ->
  enable_visit try_tag p = ([], p).
Proof.
  intros H; unfold enable_visit. rewrite (switch_loop_idle _ _ _ _ H); simpl.
  now destruct p.
Qed.

(** ** Enabling twice *)

Lemma enable_visit_settles (p : Processor) :
  existsb (has_mode MODE_LAST) (target_streams_ (snd (enable_visit false p))) = false.
Proof.
  rewrite enable_visit_snd; simpl. apply switch_mode_gone; discriminate.
Qed.

Lemma settled_update (n m : ProcName) (ps : Store) :
  settled n ps ->
  settled n (update_proc m (fun q => snd (enable_visit false q)) ps).
Proof.
  intros H p. rewrite find_proc_update by (intros q; apply enable_visit_keeps).
  destruct (ProcName_eqb n m).
  - destruct (find_proc ps n); simpl; [|discriminate].
    intros [= <-]. apply enable_visit_settles.
  - apply H.
Qed.

Lemma settled_visit_all (n : ProcName) (walk : list ProcName) (ps : Store) :
  settled n ps -> settled n (snd (visit_all (enable_visit false) walk ps)).
Proof.
  revert ps; induction walk as [|m tl IH]; intros ps H; simpl; [exact H|].
  destruct (find_proc ps m); simpl; apply IH; [now apply settled_update | exact H].
Qed.

Lemma visit_all_settles (walk : list ProcName) (ps : Store) :
  Forall (fun n => settled n (snd (visit_all (enable_visit false) walk ps))) walk.
Proof.
  revert ps; induction walk as [|n tl IH]; intros ps; simpl; constructor.
  - destruct (find_proc ps n) as [p|] eqn:E; simpl; apply settled_visit_all.
    + intros q. rewrite find_proc_update by (intros q'; apply enable_visit_keeps).
      rewrite ProcName_eqb_refl, E; simpl. intros [= <-]. apply enable_visit_settles.
    + intros q; congruence.
  - destruct (find_proc ps n); simpl; apply IH.
Qed.

Lemma visit_all_settled (try_tag : bool) (walk : list ProcName) (ps : Store) :
  Forall (fun n => settled n ps) walk ->
  visit_all (enable_visit try_tag) walk ps = ([], ps).
Proof.
  induction 1 as [|n tl Hn Htl IH]; cbn [visit_all]; [reflexivity|].
  destruct (find_proc ps n) as [p|] eqn:E; [|exact IH].
  rewrite update_proc_fixed.
  - rewrite IH, (enable_visit_idle try_tag p (Hn p E)); reflexivity.
  - intros q Hq. now rewrite (enable_visit_idle try_tag q (Hn q Hq)).
Qed.

(** C8. For every stream [S] and every starting state, once a non-dry-run
    [EnableStreamData(S)] has returned, a second one changes nothing: it
    returns the very same pipeline (all enabled modes and activation flags
    equal) and reports no stream to the switch callback. *)
Theorem C8_enable_idempotent (st st1 : Synthetic) (S : Stream) (log : list Stream) :
  EnableStreamData st S false = Done (log, st1) ->
  EnableStreamData st1 S false = Done ([], st1).
Proof.
  unfold EnableStreamData.
  destruct (getProcessorWithStream st S) as [n|] eqn:G; simpl; [|discriminate].
  intros [= _ <-].
  set (ps := processors_ st).
  set (walk := iterate_processor_CtoP_before (length ps) ps n).
  set (ps1 := snd (visit_all (enable_visit false) walk ps)).
  assert (skeleton ps1 = skeleton ps) as K
      by (apply visit_all_skeleton, enable_visit_keeps).
  assert (getProcessorWithStream (with_processors ps1 st) S = Done n) as ->.
  { rewrite <- G. apply skeleton_getProcessorWithStream; exact K. }
  simpl.
  rewrite (@skeleton_length ps1 ps K), (@skeleton_CtoP (length ps) ps1 ps n K).
  fold walk. rewrite (visit_all_settled false).
  - reflexivity.
  - apply visit_all_settles.
Qed.

(** ** Construction returns *)

Lemma constructed_fresh (W : bool) (device : Device.t) (cm : CalibrationModel) :
  Forall fresh (constructed W device cm).
Proof.
  destruct W, cm; vm_compute;
    repeat (constructor; [repeat split;
      repeat (constructor; [first [now left | right; repeat split; discriminate]|]);
      constructor|]); constructor.
Qed.

Lemma constructed_registers (W : bool) (device : Device.t) (cm : CalibrationModel)
    (st : Synthetic) (s : Stream) :
  skeleton (processors_ st) = skeleton (constructed W device cm) ->
  s <> LAST ->
  exists n, getProcessorWithStream st s = Done n.
Proof.
  intros K Hs.
  rewrite (@skeleton_getProcessorWithStream st
             (InitProcessors W (InitCalibInfo W (member_init device cm))) s K).
  destruct W, cm, s; try congruence; vm_compute; eauto.
Qed.

Lemma map_targets_keeps (f : stream_control_t -> stream_control_t) :
  (forall t, stream (f t) = stream t) -> keeps_skeleton (map_targets f).
Proof.
  intros Hf p; unfold map_targets; simpl; repeat split.
  rewrite map_map. apply map_ext; auto.
Qed.

Lemma mark_chain_stream (b : bool) (s : Stream) (t : stream_control_t) :
  stream (mark_chain b s t) = stream t.
Proof. unfold mark_chain; destruct (Stream_eqb (stream t) s), b; reflexivity. Qed.

Lemma mark_left_right_stream (t : stream_control_t) :
  stream (mark_left_right t) = stream t.
Proof.
  unfold mark_left_right.
  destruct (Stream_eqb (stream t) LEFT); simpl;
    destruct (Stream_eqb (stream t) RIGHT); reflexivity.
Qed.

Lemma map_targets_fresh (f : stream_control_t -> stream_control_t) (p : Processor) :
  (forall t,
     enabled_mode_ t = MODE_NATIVE
     \/ (enabled_mode_ t = MODE_LAST /\ support_mode_ t <> MODE_NATIVE
         /\ stream t <> LEFT /\ stream t <> RIGHT) ->
     enabled_mode_ (f t) = MODE_NATIVE
     \/ (enabled_mode_ (f t) = MODE_LAST /\ support_mode_ (f t) <> MODE_NATIVE
         /\ stream (f t) <> LEFT /\ stream (f t) <> RIGHT)) ->
  fresh p -> fresh (map_targets f p).
Proof.
  intros Hf (Ha & Ho & Ht); unfold fresh, map_targets; simpl; repeat split; auto.
  induction Ht; simpl; constructor; auto.
Qed.

Lemma mark_chain_fresh (b : bool) (s : Stream) (p : Processor) :
  fresh p -> fresh (map_targets (mark_chain b s) p).
Proof.
  apply map_targets_fresh. intros t H. unfold mark_chain.
  destruct (Stream_eqb (stream t) s); [|exact H].
  destruct b; simpl; [now left|].
  destruct H as [H | (H1 & H2 & H3 & H4)]; [now left | right].
  repeat split; auto; discriminate.
Qed.

Lemma mark_left_right_fresh (p : Processor) :
  fresh p -> fresh (map_targets mark_left_right p).
Proof.
  apply map_targets_fresh. intros t H. unfold mark_left_right.
  destruct H as [H | (H1 & H2 & H3 & H4)].
  - left. destruct (Stream_eqb (stream t) LEFT); simpl;
      destruct (Stream_eqb (stream t) RIGHT); simpl; exact H.
  - right.
    assert (Stream_eqb (stream t) LEFT = false) as ->.
    { destruct (Stream_eqb (stream t) LEFT) eqn:E; [|reflexivity].
      apply Stream_eqb_eq in E; contradiction. }
    assert (Stream_eqb (stream t) RIGHT = false) as ->.
    { destruct (Stream_eqb (stream t) RIGHT) eqn:E; [|reflexivity].
      apply Stream_eqb_eq in E; contradiction. }
    auto.
Qed.

Lemma init_chain_returns (W : bool) (device : Device.t) (cm : CalibrationModel)
    (chain : list Stream) (st : Synthetic) :
  ~ In LAST chain ->
  skeleton (processors_ st) = skeleton (constructed W device cm) ->
  Forall fresh (processors_ st) ->
  exists st', init_chain chain st = Done st'
              /\ skeleton (processors_ st') = skeleton (constructed W device cm)
              /\ Forall fresh (processors_ st').
Proof.
  revert st; induction chain as [|s tl IH]; intros st Hin K F; simpl; [eauto|].
  destruct (@constructed_registers W device cm st s K) as (n & ->);
    [intros ->; apply Hin; now left|].
  simpl. apply IH.
  - intros H; apply Hin; now right.
  - simpl. rewrite update_proc_skeleton; [exact K|].
    apply map_targets_keeps, mark_chain_stream.
  - simpl. apply update_proc_Forall; [apply mark_chain_fresh | exact F].
Qed.

Lemma Synthetic_new_returns (W : bool) (device : Device.t) (cm : CalibrationModel) :
  exists st, Synthetic_new W device cm = Done st
             /\ skeleton (processors_ st) = skeleton (constructed W device cm)
             /\ Forall fresh (processors_ st).
Proof.
  unfold Synthetic_new, InitStreamSupports.
  set (st0 := InitProcessors W (InitCalibInfo W (member_init device cm))).
  assert (skeleton (processors_ st0) = skeleton (constructed W device cm)) as K0
      by reflexivity.
  pose proof (constructed_fresh W device cm) as F0. fold st0 in F0.
  change (constructed W device cm) with (processors_ st0) in F0.
  destruct (Device.Supports (api_device st0) LEFT && Device.Supports (api_device st0) RIGHT).
  - destruct (@constructed_registers W device cm st0 LEFT K0) as (n & ->);
      [discriminate|]. cbn [bind].
    apply init_chain_returns.
    + unfold stream_chain; simpl; intuition discriminate.
    + cbn [processors_ with_processors]. rewrite update_proc_skeleton; [exact K0|].
      apply map_targets_keeps, mark_left_right_stream.
    + cbn [processors_ with_processors].
      apply update_proc_Forall; [apply mark_left_right_fresh | exact F0].
  - eauto.
Qed.

(** ** Invariants of enabling and disabling *)

Lemma fresh_activation (p : Processor) : fresh p -> activation_inv p.
Proof.
  intros (Ha & _ & Ht); unfold activation_inv; rewrite Ha.
  induction Ht as [|t tl H _ IH]; simpl; [reflexivity|].
  rewrite <- IH, orb_false_r. unfold has_mode.
  symmetry; apply mode_eqb_neq.
  destruct H as [-> | (-> & _)]; discriminate.
Qed.

Lemma fresh_native (p : Processor) : fresh p -> native_inv p.
Proof.
  intros (_ & _ & Ht); unfold native_inv.
  induction Ht as [|t tl H _ IH]; constructor; auto.
  destruct H as [H | (_ & H & _)]; [auto | contradiction].
Qed.

Lemma enable_visit_activation (try_tag : bool) (p : Processor) :
  activation_inv p -> activation_inv (snd (enable_visit try_tag p)).
Proof.
  unfold activation_inv; rewrite enable_visit_snd; simpl; intros ->.
  destruct try_tag; simpl; [now rewrite orb_false_r|].
  now rewrite switch_mode_arrived.
Qed.

Lemma disable_visit_activation (try_tag : bool) (p : Processor) :
  activation_inv p -> activation_inv (snd (disable_visit try_tag p)).
Proof.
  unfold activation_inv; rewrite disable_visit_snd; simpl; intros ->.
  destruct try_tag; simpl; [now rewrite andb_true_r|].
  rewrite switch_mode_gone by discriminate.
  now destruct (existsb (has_mode MODE_SYNTHETIC) (target_streams_ p)).
Qed.

Lemma switch_mode_native (from to : mode_t) (ts : list stream_control_t) :
  from <> MODE_NATIVE -> to <> MODE_NATIVE ->
  Forall (fun t => support_mode_ t = MODE_NATIVE -> enabled_mode_ t = MODE_NATIVE) ts ->
  Forall (fun t => support_mode_ t = MODE_NATIVE -> enabled_mode_ t = MODE_NATIVE)
    (map (switch_mode from to) ts).
Proof.
  intros Nf Nt; induction 1 as [|t tl H _ IH]; simpl; constructor; auto.
  unfold switch_mode. destruct (mode_eqb (enabled_mode_ t) from) eqn:E; [|exact H].
  simpl. intros S. apply mode_eqb_eq in E. specialize (H S). congruence.
Qed.

Lemma enable_visit_native (try_tag : bool) (p : Processor) :
  native_inv p -> native_inv (snd (enable_visit try_tag p)).
Proof.
  unfold native_inv; rewrite enable_visit_snd; simpl.
  destruct try_tag; [auto|]. apply switch_mode_native; discriminate.
Qed.

Lemma disable_visit_native (try_tag : bool) (p : Processor) :
  native_inv p -> native_inv (snd (disable_visit try_tag p)).
Proof.
  unfold native_inv; rewrite disable_visit_snd; simpl.
  destruct try_tag; [auto|]. apply switch_mode_native; discriminate.
Qed.

Lemma Reachable_invariant (P : Processor -> Prop) (W : bool) (device : Device.t)
    (cm : CalibrationModel) (st : Synthetic) :
  (forall p, fresh p -> P p) ->
  (forall try_tag p, P p -> P (snd (enable_visit try_tag p))) ->
  (forall try_tag p, P p -> P (snd (disable_visit try_tag p))) ->
  Reachable W device cm st -> Forall P (processors_ st).
Proof.
  intros H0 He Hd; induction 1 as [st E | st s try_tag log st' _ IH E
                                   | st s try_tag log st' _ IH E].
  - destruct (Synthetic_new_returns W device cm) as (st1 & E1 & _ & F).
    rewrite E in E1; injection E1 as <-.
    eapply Forall_impl; [exact H0 | exact F].
  - unfold EnableStreamData in E.
    destruct (getProcessorWithStream st s); simpl in E; [|discriminate].
    injection E as _ <-; simpl. apply visit_all_Forall; auto.
  - unfold DisableStreamData in E.
    destruct (getProcessorWithStream st s); simpl in E; [|discriminate].
    injection E as _ <-; simpl. apply visit_all_Forall; auto.
Qed.

Lemma existsb_has_mode (m : mode_t) (ts : list stream_control_t) :
  existsb (has_mode m) ts = true <-> exists t, In t ts /\ enabled_mode_ t = m.
Proof.
  rewrite existsb_exists. unfold has_mode.
  split; intros (t & Hin & H); exists t; split; auto; now apply mode_eqb_eq.
Qed.

Lemma lookup_stream_In (ps : Store) (s : Stream) (p : Processor) (t : stream_control_t) :
  lookup_stream ps s = Some (p, t) ->
  In p ps /\ In t (target_streams_ p) /\ stream t = s.
Proof.
  induction ps as [|q tl IH]; simpl; [discriminate|].
  destruct (find (is_stream s) (getTargetStreams q)) as [u|] eqn:E.
  - intros [= <- <-]. apply find_some in E as [Hin Hs].
    repeat split; auto. now apply Stream_eqb_eq.
  - intros H; destruct (IH H) as (? & ? & ?); auto.
Qed.

(** C5. In every pipeline reachable from construction by calls of
    [EnableStreamData] and [DisableStreamData], a target stream whose support
    mode is NATIVE has enabled mode NATIVE or NONE, never SYNTHETIC; the same
    holds through [SupportsMode] and [GetStreamEnabledMode]. *)
Theorem C5_native_never_synthetic (W : bool) (device : Device.t) (cm : CalibrationModel)
    (st : Synthetic) :
  Reachable W device cm st ->
  (forall p t,
     In p (processors_ st) -> In t (target_streams_ p) ->
     support_mode_ t = MODE_NATIVE ->
     enabled_mode_ t = MODE_NATIVE \/ enabled_mode_ t = MODE_LAST)
  /\ (forall S,
        SupportsMode st S = MODE_NATIVE ->
        GetStreamEnabledMode st S = MODE_NATIVE
        \/ GetStreamEnabledMode st S = MODE_LAST).
Proof.
  intros R.
  assert (Forall native_inv (processors_ st)) as F.
  { exact (@Reachable_invariant native_inv W device cm st fresh_native
             enable_visit_native disable_visit_native R). }
  assert (forall p t, In p (processors_ st) -> In t (target_streams_ p) ->
                      support_mode_ t = MODE_NATIVE -> enabled_mode_ t = MODE_NATIVE) as N.
  { intros p t Hp Ht. rewrite Forall_forall in F. specialize (F p Hp).
    unfold native_inv in F. rewrite Forall_forall in F. now apply F. }
  split.
  - intros p t Hp Ht Hs; left; eauto.
  - intros S. unfold SupportsMode, GetStreamEnabledMode, getControlDateWithStream.
    destruct (checkControlDateWithStream st S); [|now right].
    destruct (lookup_stream (processors_ st) S) as [[p t]|] eqn:L; [|now left].
    apply lookup_stream_In in L as (Hp & Ht & _). intros Hs; left; eauto.
Qed.

(** C5, witness: a device that produces LEFT_RECTIFIED natively, after
    RIGHT_RECTIFIED was enabled and disabled again. *)
Lemma C5_native_never_synthetic_witness :
  Reachable false device_lr_lrect PINHOLE pipeline_right_off
  /\ SupportsMode pipeline_right_off LEFT_RECTIFIED = MODE_NATIVE
  /\ (GetStreamEnabledMode pipeline_right_off LEFT_RECTIFIED = MODE_NATIVE
      \/ GetStreamEnabledMode pipeline_right_off LEFT_RECTIFIED = MODE_LAST).
Proof.
  assert (Reachable false device_lr_lrect PINHOLE pipeline_right_off) as R.
  { apply Reach_disable with (st := pipeline_right_on) (s := RIGHT_RECTIFIED)
                             (try_tag := false) (log := [RIGHT_RECTIFIED]);
      [|vm_compute; reflexivity].
    apply Reach_enable with (st := pipeline_lr_lrect) (s := RIGHT_RECTIFIED)
                            (try_tag := false) (log := [RIGHT_RECTIFIED]);
      [|vm_compute; reflexivity].
    apply Reach_new. vm_compute; reflexivity. }
  split; [exact R|]. split; [vm_compute; reflexivity|].
  apply (proj2 (C5_native_never_synthetic _ _ _ _ R) LEFT_RECTIFIED).
  vm_compute; reflexivity.
Defined.




(** ** The shape of a constructed store *)

Ltac invert_map K :=
  repeat match type of K with
  | map _ _ = _ :: _ =>
      apply map_eq_cons in K;
      let x := fresh "x" in let l := fresh "l" in let E := fresh "E" in
      destruct K as (x & l & -> & E & K)
  | map _ _ = [] => apply map_eq_nil in K; subst
  end.

(** From the skeleton of a store to its six processors and their
    descriptors, field by field. *)
Ltac open_store K :=
  match type of K with
  | _ = ?r => let r' := eval vm_compute in r in change r with r' in K
  end;
  unfold skeleton in K; invert_map K;
  repeat match goal with
  | p : Processor |- _ => destruct p
  end;
  simpl in *;
  repeat match goal with
  | H : (_, _, _) = (_, _, _) |- _ => inversion H; clear H
  end;
  subst;
  repeat match goal with
  | H : map stream _ = _ |- _ => invert_map H
  end;
  repeat match goal with
  | t : stream_control_t |- _ => destruct t
  end;
  simpl in *; subst.

Lemma owner_shape (W : bool) (d : Device.t) (cm : CalibrationModel) (ps : Store)
    (S : Stream) (p : Processor) (t : stream_control_t) :
  skeleton ps = skeleton (constructed W d cm) ->
  lookup_stream ps S = Some (p, t) ->
  find_proc ps (Name p) = Some p
  /\ (getStreamsSum p = 2 ->
      S = LEFT \/ S = RIGHT
      \/ exists p' t', lookup_stream ps LEFT_RECTIFIED = Some (p', t')
                       /\ Name p' = Name p).
Proof.
  intros K; revert p t.
  destruct W, cm; open_store K.
  all: intros p t L; destruct S; simpl in L; try discriminate L; injection L as <- <-.
  all: split; [reflexivity|]; simpl; intros E; try discriminate E; auto.
  all: right; right; eexists; eexists; split; reflexivity.
Qed.

Lemma synthetic_lookup (st : Synthetic) (S : Stream) :
  GetStreamEnabledMode st S = MODE_SYNTHETIC ->
  exists p t, lookup_stream (processors_ st) S = Some (p, t)
              /\ enabled_mode_ t = MODE_SYNTHETIC.
Proof.
  unfold GetStreamEnabledMode, getControlDateWithStream.
  destruct (checkControlDateWithStream st S); [|discriminate].
  destruct (lookup_stream (processors_ st) S) as [[p t]|]; [eauto|discriminate].
Qed.

(** In a constructed store whose LEFT and RIGHT are native, the only stage
    with two target streams that owns a SYNTHETIC stream is the owner of
    LEFT_RECTIFIED. *)
Lemma paired_owner (W : bool) (d : Device.t) (cm : CalibrationModel) (st : Synthetic)
    (S : Stream) (n : ProcName) (p : Processor) :
  skeleton (processors_ st) = skeleton (constructed W d cm) ->
  Forall left_right_native (processors_ st) ->
  GetStreamEnabledMode st S = MODE_SYNTHETIC ->
  getProcessorWithStream st S = Done n ->
  find_proc (processors_ st) n = Some p ->
  getStreamsSum p = 2 ->
  getProcessorWithStream st LEFT_RECTIFIED = Done n
  /\ In p (processors_ st) /\ Name p = n.
Proof.
  intros K F M G Fp Sum.
  destruct (synthetic_lookup _ _ M) as (p0 & t0 & L & E).
  unfold getProcessorWithStream in G; rewrite L in G; injection G as <-.
  destruct (owner_shape _ _ _ _ _ _ _ K L) as (Fp0 & Sh).
  rewrite Fp0 in Fp; injection Fp as <-.
  destruct (lookup_stream_In _ _ _ _ L) as (Hin & Ht & Hs).
  split; [|auto].
  destruct (Sh Sum) as [-> | [-> | (p' & t' & L' & Hn)]].
  - rewrite Forall_forall in F. specialize (F _ Hin). unfold left_right_native in F.
    rewrite Forall_forall in F. specialize (F _ Ht (or_introl Hs)). congruence.
  - rewrite Forall_forall in F. specialize (F _ Hin). unfold left_right_native in F.
    rewrite Forall_forall in F. specialize (F _ Ht (or_intror Hs)). congruence.
  - unfold getProcessorWithStream. now rewrite L', Hn.
Qed.

(** ** Steps of a running process *)

Lemma update_proc_Forall_named (P Q : Processor -> Prop) (n : ProcName)
    (f : Processor -> Processor) (ps : Store) :
  (forall p, Name p = n -> P p -> Q (f p)) ->
  (forall p, P p -> Q p) ->
  Forall P ps -> Forall Q (update_proc n f ps).
Proof.
  intros Hf Hw; induction 1 as [|p tl Hp Htl IH]; simpl; [constructor|].
  destruct (ProcName_eqb (Name p) n) eqn:E; constructor; auto.
  - apply Hf; auto. now apply ProcName_eqb_eq.
  - eapply Forall_impl; [exact Hw | exact Htl].
Qed.

Lemma set_first_callback_stream (s : Stream) (c : stream_callback_t)
    (ts : list stream_control_t) :
  map stream (set_first_callback s c ts) = map stream ts.
Proof.
  induction ts as [|t tl IH]; simpl; [reflexivity|].
  destruct (is_stream s t); simpl; [reflexivity | now rewrite IH].
Qed.

Lemma set_callback_in_skeleton (ps : Store) (s : Stream) (c : stream_callback_t) :
  skeleton (set_callback_in ps s c) = skeleton ps.
Proof.
  induction ps as [|p tl IH]; simpl; [reflexivity|].
  destruct (existsb (is_stream s) (getTargetStreams p)); simpl.
  - now rewrite set_first_callback_stream.
  - now rewrite IH.
Qed.

Lemma set_callback_in_Forall (P : Processor -> Prop) (ps : Store) (s : Stream)
    (c : stream_callback_t) :
  (forall p, P p -> P (with_target_streams (set_first_callback s c (target_streams_ p)) p)) ->
  Forall P ps -> Forall P (set_callback_in ps s c).
Proof.
  intros Hf; induction 1 as [|p tl Hp Htl IH]; simpl; [constructor|].
  destruct (existsb (is_stream s) (getTargetStreams p)); constructor; auto.
Qed.

Lemma set_first_callback_left_right (s : Stream) (c : stream_callback_t)
    (ts : list stream_control_t) :
  Forall (fun t => stream t = LEFT \/ stream t = RIGHT -> enabled_mode_ t = MODE_NATIVE) ts ->
  Forall (fun t => stream t = LEFT \/ stream t = RIGHT -> enabled_mode_ t = MODE_NATIVE)
    (set_first_callback s c ts).
Proof.
  induction 1 as [|t tl H Htl IH]; simpl; [constructor|].
  destruct (is_stream s t); constructor; auto.
Qed.

Lemma switch_mode_left_right (from to : mode_t) (ts : list stream_control_t) :
  from <> MODE_NATIVE ->
  Forall (fun t => stream t = LEFT \/ stream t = RIGHT -> enabled_mode_ t = MODE_NATIVE) ts ->
  Forall (fun t => stream t = LEFT \/ stream t = RIGHT -> enabled_mode_ t = MODE_NATIVE)
    (map (switch_mode from to) ts).
Proof.
  intros Nf; induction 1 as [|t tl H _ IH]; simpl; constructor; auto.
  unfold switch_mode. destruct (mode_eqb (enabled_mode_ t) from) eqn:E; [|exact H].
  simpl. intros S. apply mode_eqb_eq in E. specialize (H S). congruence.
Qed.

Lemma enable_visit_left_right (try_tag : bool) (p : Processor) :
  left_right_native p -> left_right_native (snd (enable_visit try_tag p)).
Proof.
  unfold left_right_native; rewrite enable_visit_snd; simpl.
  destruct try_tag; [auto|]. apply switch_mode_left_right; discriminate.
Qed.

Lemma disable_visit_left_right (try_tag : bool) (p : Processor) :
  left_right_native p -> left_right_native (snd (disable_visit try_tag p)).
Proof.
  unfold left_right_native; rewrite disable_visit_snd; simpl.
  destruct try_tag; [auto|]. apply switch_mode_left_right; discriminate.
Qed.

Lemma fresh_left_right (p : Processor) : fresh p -> left_right_native p.
Proof.
  intros (_ & _ & Ht); unfold left_right_native.
  induction Ht as [|t tl H _ IH]; constructor; auto.
  destruct H as [H | (_ & _ & H1 & H2)]; [auto | intros [?|?]; contradiction].
Qed.

Lemma GetStreamData_statics (st : Synthetic) (sv sv' : Statics) (s : Stream)
    (x : StreamData) :
  GetStreamData st sv s = Done (x, sv') ->
  sv' = sv
  \/ exists n p o,
       GetStreamEnabledMode st s = MODE_SYNTHETIC
       /\ getProcessorWithStream st s = Done n
       /\ find_proc (processors_ st) n = Some p
       /\ getStreamsSum p = 2
       /\ GetOutput p = Some o
       /\ sv' = with_output (Cast_ObjMat2 o) sv.
Proof.
  unfold GetStreamData.
  destruct (mode_eqb (GetStreamEnabledMode st s) MODE_NATIVE).
  { destruct (data2api _ _); simpl; [|discriminate]. intros [= _ <-]; now left. }
  destruct (mode_eqb (GetStreamEnabledMode st s) MODE_SYNTHETIC) eqn:M;
    [|intros [= _ <-]; now left].
  apply mode_eqb_eq in M.
  destruct (getProcessorWithStream st s) as [n|] eqn:G; simpl; [|discriminate].
  destruct (find_proc (processors_ st) n) as [p|] eqn:Fp; [|discriminate].
  destruct (Nat.eqb (getStreamsSum p) 1).
  { destruct (GetOutput p) as [o|]; [destruct (Cast_ObjMat o)|];
      intros [= _ <-]; now left. }
  destruct (Nat.eqb (getStreamsSum p) 2) eqn:S2; [|intros [= _ <-]; now left].
  apply Nat.eqb_eq in S2.
  destruct (GetOutput p) as [o|] eqn:O.
  - intros H. right. exists n, p, o. repeat split; auto.
    destruct (output (with_output (Cast_ObjMat2 o) sv));
      [destruct (paired_half _ _ _ _)|]; now injection H as _ <-.
  - intros H. left.
    destruct (output sv); [destruct (paired_half _ _ _ _)|]; now injection H as _ <-.
Qed.

Lemma ProcessNativeStream_output (W : bool) (st : Synthetic) (sv : Statics)
    (s : Stream) (x : StreamData) :
  output (snd (ProcessNativeStream W st sv s x)) = output sv.
Proof.
  unfold ProcessNativeStream.
  destruct (Stream_eqb s LEFT || Stream_eqb s RIGHT); [reflexivity|].
  destruct (Stream_eqb s LEFT_RECTIFIED || Stream_eqb s RIGHT_RECTIFIED); [reflexivity|].
  destruct s; try reflexivity;
    destruct (calib_eqb (calib_model_ st) PINHOLE); try reflexivity;
    destruct (W && calib_eqb (calib_model_ st) KANNALA_BRANDT); reflexivity.
Qed.

Lemma inv_change (W : bool) (d : Device.t) (cm : CalibrationModel) (a : ProcessState)
    (st' : Synthetic) (sv' : Statics) (done' : list ProcName) :
  process_inv W d cm a ->
  skeleton (processors_ st') = skeleton (processors_ (pipeline a)) ->
  Forall left_right_native (processors_ st') ->
  Forall (output_published done') (processors_ st') ->
  (output sv' <> None ->
   forall n, getProcessorWithStream (pipeline a) LEFT_RECTIFIED = Done n -> In n done') ->
  process_inv W d cm (mkProcessState st' sv' done').
Proof.
  intros [K F O S] K' F' O' S'; constructor; simpl; auto.
  - now rewrite K'.
  - intros Hs n G. apply S'; auto.
    rewrite <- G. symmetry. now apply skeleton_getProcessorWithStream.
Qed.

Lemma enable_visit_published (done : list ProcName) (try_tag : bool) (p : Processor) :
  output_published done p -> output_published done (snd (enable_visit try_tag p)).
Proof. unfold output_published; now rewrite enable_visit_snd. Qed.

Lemma disable_visit_published (done : list ProcName) (try_tag : bool) (p : Processor) :
  output_published done p -> output_published done (snd (disable_visit try_tag p)).
Proof. unfold output_published; now rewrite disable_visit_snd. Qed.

Lemma step_inv (W : bool) (d : Device.t) (cm : CalibrationModel) (a b : ProcessState) :
  process_inv W d cm a -> Step W a b -> process_inv W d cm b.
Proof.
  intros I St. pose proof I as [K F O S].
  destruct St as [a s try_tag log st' E | a s try_tag log st' E | a s c | a pl
                 | a n o | a s x sv' E | a s x].
  - unfold EnableStreamData in E.
    destruct (getProcessorWithStream (pipeline a) s); simpl in E; [|discriminate].
    injection E as _ <-. apply inv_change with (a := a); simpl; auto.
    + apply visit_all_skeleton, enable_visit_keeps.
    + apply visit_all_Forall; [apply enable_visit_left_right | exact F].
    + apply visit_all_Forall; [apply enable_visit_published | exact O].
  - unfold DisableStreamData in E.
    destruct (getProcessorWithStream (pipeline a) s); simpl in E; [|discriminate].
    injection E as _ <-. apply inv_change with (a := a); simpl; auto.
    + apply visit_all_skeleton, disable_visit_keeps.
    + apply visit_all_Forall; [apply disable_visit_left_right | exact F].
    + apply visit_all_Forall; [apply disable_visit_published | exact O].
  - apply inv_change with (a := a); simpl; auto.
    + apply set_callback_in_skeleton.
    + apply set_callback_in_Forall; [|exact F].
      intros p; unfold left_right_native; simpl. apply set_first_callback_left_right.
    + apply set_callback_in_Forall; [|exact O]. intros p; exact (fun H => H).
  - apply inv_change with (a := a); simpl; auto.
  - apply inv_change with (a := a); simpl; auto.
    + apply update_proc_skeleton. intros p; simpl; auto.
    + apply update_proc_Forall; [|exact F]. intros p; exact (fun H => H).
    + apply update_proc_Forall_named with (P := output_published (produced a));
        [| |exact O].
      * intros p Hn _ _; simpl; now left.
      * intros p H Ho; right; auto.
  - apply inv_change with (a := a); simpl; auto.
    intros Hs m G.
    destruct (GetStreamData_statics _ _ _ _ _ E)
      as [-> | (n & p & o & M & Gn & Fp & Sum & Out & ->)]; [auto|].
    destruct (paired_owner W d cm _ _ _ _ K F M Gn Fp Sum) as (G' & Hin & Hn).
    rewrite G' in G; injection G as <-.
    rewrite Forall_forall in O. rewrite <- Hn. apply (O p Hin).
    unfold GetOutput in Out; congruence.
  - apply inv_change with (a := a); simpl; auto.
    rewrite ProcessNativeStream_output. exact S.
Qed.

Lemma Running_inv (W : bool) (d : Device.t) (cm : CalibrationModel) (a : ProcessState) :
  Running W d cm a -> process_inv W d cm a.
Proof.
  induction 1 as [st E | a b _ IH St]; [|eapply step_inv; eauto].
  destruct (Synthetic_new_returns W d cm) as (st1 & E1 & K & F).
  rewrite E in E1; injection E1 as <-.
  constructor; simpl.
  - exact K.
  - eapply Forall_impl; [exact fresh_left_right | exact F].
  - eapply Forall_impl; [|exact F].
    intros p (_ & Ho & _) N; contradiction.
  - intros N; contradiction.
Qed.

(** ** Reading a paired stage *)

(** With a single pipeline in the process, the static slot of
    [GetStreamData] is null as long as the rectify stage has published
    nothing: for a stream [S] enabled as SYNTHETIC whose owning stage has two
    target streams and has not published any output, the read returns an
    empty [StreamData] and leaves the statics as they were. *)
Lemma paired_not_ready_alone (W : bool) (d : Device.t) (cm : CalibrationModel)
    (a : ProcessState) (S : Stream) (n : ProcName) (p : Processor) :
  Running W d cm a ->
  GetStreamEnabledMode (pipeline a) S = MODE_SYNTHETIC ->
  getProcessorWithStream (pipeline a) S = Done n ->
  find_proc (processors_ (pipeline a)) n = Some p ->
  getStreamsSum p = 2 ->
  ~ In n (produced a) ->
  GetStreamData (pipeline a) (statics a) S = Done (StreamData_empty, statics a).
Proof.
  intros R M G Fp Sum Np.
  destruct (Running_inv _ _ _ _ R) as [K F O Sv].
  destruct (paired_owner W d cm _ _ _ _ K F M G Fp Sum) as (G' & Hin & Hn).
  assert (output_result_ p = None) as Out.
  { destruct (output_result_ p) eqn:E; [|reflexivity].
    exfalso. apply Np. rewrite <- Hn.
    rewrite Forall_forall in O. apply (O p Hin). congruence. }
  assert (output (statics a) = None) as St.
  { destruct (output (statics a)) eqn:E; [|reflexivity].
    exfalso. apply Np. apply Sv; [congruence | exact G']. }
  unfold GetStreamData. rewrite M; simpl. rewrite G; simpl. rewrite Fp.
  rewrite Sum; simpl. unfold GetOutput; rewrite Out, St. reflexivity.
Qed.

Lemma rectify_shape (W : bool) (d : Device.t) (cm : CalibrationModel) (ps : Store) :
  skeleton ps = skeleton (constructed W d cm) ->
  exists p t1 t2,
    lookup_stream ps LEFT_RECTIFIED = Some (p, t1)
    /\ lookup_stream ps RIGHT_RECTIFIED = Some (p, t2)
    /\ find_proc ps (Name p) = Some p
    /\ target_streams_ p = [t1; t2]
    /\ stream t1 = LEFT_RECTIFIED /\ stream t2 = RIGHT_RECTIFIED.
Proof.
  intros K. destruct W, cm; open_store K;
    do 3 eexists; repeat split; reflexivity.
Qed.

Lemma pipeline_rect_out_running :
  Running false device_lr PINHOLE process_rect_out.
Proof.
  apply Run_step with (a := process_rect_on).
  - apply Run_step with (a := mkProcessState pipeline_lr Statics_init []).
    + apply Run_start. vm_compute; reflexivity.
    + apply (@Step_enable false (mkProcessState pipeline_lr Statics_init [])
               LEFT_RECTIFIED false [LEFT_RECTIFIED; RIGHT_RECTIFIED] pipeline_rect_on).
      vm_compute; reflexivity.
  - apply (@Step_publish false process_rect_on RectifyProcessorOCV (Obj2 sample_pair)).
Qed.

(** C1 (what the code does). In a running process, when the rectify stage's
    latest output is the pair [o], [GetStreamData(LEFT_RECTIFIED)] returns
    the second (right) half of [o] and [GetStreamData(RIGHT_RECTIFIED)] the
    first (left) half: the loop that picks the half tests [num == 1] for
    the first half, and LEFT_RECTIFIED is registered at index 0. *)
Theorem C1_paired_halves_swapped (W : bool) (d : Device.t) (cm : CalibrationModel)
    (a : ProcessState) (n : ProcName) (p : Processor) (o : ObjMat2) :
  Running W d cm a ->
  getProcessorWithStream (pipeline a) LEFT_RECTIFIED = Done n ->
  find_proc (processors_ (pipeline a)) n = Some p ->
  GetOutput p = Some (Obj2 o) ->
  (GetStreamEnabledMode (pipeline a) LEFT_RECTIFIED = MODE_SYNTHETIC ->
   GetStreamData (pipeline a) (statics a) LEFT_RECTIFIED
   = Done (obj_data_second o, with_output (Some o) (statics a)))
  /\ (GetStreamEnabledMode (pipeline a) RIGHT_RECTIFIED = MODE_SYNTHETIC ->
      GetStreamData (pipeline a) (statics a) RIGHT_RECTIFIED
      = Done (obj_data_first o, with_output (Some o) (statics a))).
Proof.
  intros R G Fp Out.
  destruct (Running_inv _ _ _ _ R) as [K _ _ _].
  destruct (rectify_shape _ _ _ _ K) as (p0 & t1 & t2 & L1 & L2 & Fp0 & Ts & S1 & S2).
  assert (n = Name p0) as ->
      by (unfold getProcessorWithStream in G; rewrite L1 in G; congruence).
  assert (p = p0) as -> by congruence.
  split; intros M; unfold GetStreamData; rewrite M; simpl;
    unfold getProcessorWithStream; rewrite ?L1, ?L2; simpl; rewrite Fp0;
    unfold getStreamsSum, getTargetStreams; rewrite Ts; simpl;
    rewrite Out; simpl; rewrite S1, ?S2; reflexivity.
Qed.

(** C1, witness: LEFT_RECTIFIED enabled on a device that produces LEFT and
    RIGHT only; the rectify stage has published a pair whose left matrix
    holds 10 and whose right matrix holds 20; the read of LEFT_RECTIFIED
    returns the matrix that holds 20. *)
Lemma C1_paired_halves_swapped_witness :
  GetStreamEnabledMode pipeline_rect_out LEFT_RECTIFIED = MODE_SYNTHETIC
  /\ GetStreamData pipeline_rect_out Statics_init LEFT_RECTIFIED
     = Done (obj_data_second sample_pair, with_output (Some sample_pair) Statics_init)
  /\ frame (obj_data_second sample_pair) = sample_mat 20
  /\ frame (obj_data_first sample_pair) = sample_mat 10
  /\ OnRectifyPostProcess (mkSynthetic device_lr None PINHOLE false (Some 0%nat)
                             (processors_ pipeline_rect_out) (Some RectifyProcessorOCV))
       (Obj2 sample_pair)
     = Done [Listener LEFT_RECTIFIED (obj_data_first sample_pair);
             Listener RIGHT_RECTIFIED (obj_data_second sample_pair)].
Proof.
  split; [vm_compute; reflexivity|]. split; [|repeat split].
  refine (proj1 (C1_paired_halves_swapped false device_lr PINHOLE process_rect_out
                   RectifyProcessorOCV
                   (mkProcessor RectifyProcessorOCV
                      [mkControl LEFT_RECTIFIED MODE_SYNTHETIC MODE_SYNTHETIC None;
                       mkControl RIGHT_RECTIFIED MODE_SYNTHETIC MODE_SYNTHETIC None]
                      [DisparityProcessor] true (Some (Obj2 sample_pair)))
                   sample_pair pipeline_rect_out_running _ _ _) _);
    vm_compute; reflexivity.
Defined.

(** ** Reading a paired stage in a process with several pipelines *)

Lemma member_step (W : bool) (st : Synthetic) (sv : Statics) (done : list ProcName)
    (b : ProcessState) :
  member_inv W (st, done) ->
  Step W (mkProcessState st sv done) b ->
  member_inv W (pipeline b, produced b).
Proof.
  intros [K F O] St; simpl in K, F, O.
  remember (mkProcessState st sv done) as a eqn:Ea.
  destruct St as [a s try_tag log st' E | a s try_tag log st' E | a s c | a pl
                 | a n o | a s x sv' E | a s x]; subst a; simpl in *.
  - unfold EnableStreamData in E.
    destruct (getProcessorWithStream st s); simpl in E; [|discriminate].
    injection E as _ <-. constructor; simpl.
    + destruct K as (d & cm & K). exists d, cm. rewrite <- K.
      apply visit_all_skeleton, enable_visit_keeps.
    + apply visit_all_Forall; [apply enable_visit_left_right | exact F].
    + apply visit_all_Forall; [apply enable_visit_published | exact O].
  - unfold DisableStreamData in E.
    destruct (getProcessorWithStream st s); simpl in E; [|discriminate].
    injection E as _ <-. constructor; simpl.
    + destruct K as (d & cm & K). exists d, cm. rewrite <- K.
      apply visit_all_skeleton, disable_visit_keeps.
    + apply visit_all_Forall; [apply disable_visit_left_right | exact F].
    + apply visit_all_Forall; [apply disable_visit_published | exact O].
  - constructor; simpl.
    + destruct K as (d & cm & K). exists d, cm. rewrite <- K.
      destruct c; apply set_callback_in_skeleton.
    + destruct c; (apply set_callback_in_Forall; [|exact F]);
        intros p; unfold left_right_native; simpl; apply set_first_callback_left_right.
    + destruct c; (apply set_callback_in_Forall; [|exact O]); intros p; exact (fun H => H).
  - constructor; simpl; auto.
  - constructor; simpl.
    + destruct K as (d & cm & K). exists d, cm. rewrite <- K.
      apply update_proc_skeleton. intros p; simpl; auto.
    + apply update_proc_Forall; [|exact F]. intros p; exact (fun H => H).
    + apply update_proc_Forall_named with (P := output_published done);
        [| |exact O].
      * intros p Hn _ _; simpl; now left.
      * intros p H Ho; right; auto.
  - constructor; simpl; auto.
  - constructor; simpl; auto.
Qed.

Lemma PoolRunning_inv (W : bool) (a : Pool) :
  PoolRunning W a -> Forall (member_inv W) (members a).
Proof.
  induction 1 as [|a b _ IH St]; simpl; [constructor|].
  destruct St as [a d cm st E | a l1 l2 st done b M St]; simpl.
  - apply Forall_app; split; [exact IH|]. constructor; [|constructor].
    destruct (Synthetic_new_returns W d cm) as (st1 & E1 & K & F).
    rewrite E in E1; injection E1 as <-.
    constructor; simpl.
    + now exists d, cm.
    + eapply Forall_impl; [exact fresh_left_right | exact F].
    + eapply Forall_impl; [|exact F]. intros p (_ & Ho & _) N; contradiction.
  - rewrite M in IH. apply Forall_app in IH as (H1 & H2).
    apply Forall_cons_iff in H2 as (Hm & H2).
    apply Forall_app; split; [exact H1|]. constructor; [|exact H2].
    eapply member_step; eauto.
Qed.

(** A process with one pipeline is a process. *)
Lemma Running_PoolRunning (W : bool) (d : Device.t) (cm : CalibrationModel)
    (a : ProcessState) :
  Running W d cm a -> PoolRunning W (mkPool [(pipeline a, produced a)] (statics a)).
Proof.
  induction 1 as [st E | a b _ IH St]; simpl.
  - apply Pool_next with (a := mkPool [] Statics_init); [apply Pool_start|].
    exact (@Pool_new W (mkPool [] Statics_init) d cm st E).
  - apply Pool_next with (a := mkPool [(pipeline a, produced a)] (statics a));
      [exact IH|].
    apply (@Pool_step W (mkPool [(pipeline a, produced a)] (statics a)) [] []
             (pipeline a) (produced a) b); [reflexivity|].
    simpl. now destruct a.
Qed.

Lemma paired_half_rectified (S : Stream) (t1 t2 : stream_control_t) (o : ObjMat2) :
  stream t1 = LEFT_RECTIFIED -> stream t2 = RIGHT_RECTIFIED ->
  S = LEFT_RECTIFIED \/ S = RIGHT_RECTIFIED ->
  paired_half S 0 [t1; t2] o = Some (returned_half S o).
Proof.
  intros H1 H2 [-> | ->]; simpl; rewrite H1; simpl; [reflexivity|].
  now rewrite H2.
Qed.

(** C6 (what the code does). In a process that may hold several pipelines,
    take a stream [S] enabled as SYNTHETIC in one of them, whose owning stage
    has two target streams and has not published any output since that
    pipeline was constructed.  Then [S] is LEFT_RECTIFIED or RIGHT_RECTIFIED,
    and [GetStreamData(S)] returns an empty [StreamData] only while the
    function-scope static [output] is still null: once a read, on any
    pipeline of the process, has left a pair in it, the call returns a half
    of that stale pair instead (for LEFT_RECTIFIED its second half).  The
    statics are left as they were. *)
Theorem C6_stale_pair_returned (W : bool) (a : Pool) (st : Synthetic)
    (done : list ProcName) (S : Stream) (n : ProcName) (p : Processor) :
  PoolRunning W a ->
  In (st, done) (members a) ->
  GetStreamEnabledMode st S = MODE_SYNTHETIC ->
  getProcessorWithStream st S = Done n ->
  find_proc (processors_ st) n = Some p ->
  getStreamsSum p = 2 ->
  ~ In n done ->
  (S = LEFT_RECTIFIED \/ S = RIGHT_RECTIFIED)
  /\ GetStreamData st (shared a) S
     = Done (match output (shared a) with
             | Some o => returned_half S o
             | None => StreamData_empty
             end, shared a).
Proof.
  intros R Hin M G Fp Sum Np.
  pose proof (PoolRunning_inv W a R) as I. rewrite Forall_forall in I.
  destruct (I _ Hin) as [(d & cm & K) F O]; simpl in K, F, O.
  destruct (paired_owner W d cm _ _ _ _ K F M G Fp Sum) as (G' & Hp & Hn).
  assert (output_result_ p = None) as Out.
  { destruct (output_result_ p) eqn:E; [|reflexivity].
    exfalso. apply Np. rewrite <- Hn.
    rewrite Forall_forall in O. apply (O p Hp). congruence. }
  destruct (rectify_shape _ _ _ _ K) as (p0 & t1 & t2 & L1 & L2 & Fp0 & Ts & S1 & S2).
  assert (n = Name p0) as En
      by (unfold getProcessorWithStream in G'; rewrite L1 in G'; simpl in G'; congruence).
  assert (p = p0) as -> by congruence.
  assert (S = LEFT_RECTIFIED \/ S = RIGHT_RECTIFIED) as HS.
  { destruct (synthetic_lookup _ _ M) as (q & t & L & _).
    destruct (owner_shape _ _ _ _ _ _ _ K L) as (Fq & _).
    destruct (lookup_stream_In _ _ _ _ L) as (_ & Ht & Hs).
    assert (Name q = Name p0) as Eq
        by (unfold getProcessorWithStream in G; rewrite L in G; simpl in G; congruence).
    assert (q = p0) as -> by congruence.
    rewrite Ts in Ht. destruct Ht as [<- | [<- | []]]; rewrite <- Hs; auto. }
  split; [exact HS|].
  unfold GetStreamData. rewrite M; simpl. rewrite G; simpl. rewrite Fp.
  rewrite Sum; simpl. unfold GetOutput; rewrite Out.
  destruct (output (shared a)) as [o|]; [|reflexivity].
  unfold getTargetStreams. rewrite Ts, (paired_half_rectified S t1 t2 o S1 S2 HS).
  reflexivity.
Qed.

(** The sample process: a pipeline is constructed, LEFT_RECTIFIED is enabled
    on it, its rectify stage publishes [sample_pair], LEFT_RECTIFIED is read;
    then a second pipeline is constructed and LEFT_RECTIFIED enabled on it. *)
Lemma pool_two_running : PoolRunning false pool_two.
Proof.
  pose (A0 := mkPool [] Statics_init).
  pose (A1 := mkPool [(pipeline_lr, [])] Statics_init).
  pose (A2 := mkPool [(pipeline_rect_on, [])] Statics_init).
  pose (A3 := mkPool [(pipeline_rect_out, [RectifyProcessorOCV])] Statics_init).
  pose (A4 := mkPool [(pipeline_rect_out, [RectifyProcessorOCV])] statics_read).
  pose (A5 := mkPool [(pipeline_rect_out, [RectifyProcessorOCV]); (pipeline_lr, [])]
                statics_read).
  assert (PoolRunning false A1) as R1.
  { apply Pool_next with (a := A0); [apply Pool_start|].
    apply (@Pool_new false A0 device_lr PINHOLE pipeline_lr). vm_compute; reflexivity. }
  assert (PoolRunning false A2) as R2.
  { apply Pool_next with (a := A1); [exact R1|].
    apply (@Pool_step false A1 [] [] pipeline_lr []
             (mkProcessState pipeline_rect_on Statics_init [])); [reflexivity|].
    apply (@Step_enable false (mkProcessState pipeline_lr Statics_init [])
             LEFT_RECTIFIED false [LEFT_RECTIFIED; RIGHT_RECTIFIED] pipeline_rect_on).
    vm_compute; reflexivity. }
  assert (PoolRunning false A3) as R3.
  { apply Pool_next with (a := A2); [exact R2|].
    apply (@Pool_step false A2 [] [] pipeline_rect_on []
             (mkProcessState pipeline_rect_out Statics_init [RectifyProcessorOCV]));
      [reflexivity|].
    apply (@Step_publish false (mkProcessState pipeline_rect_on Statics_init [])
             RectifyProcessorOCV (Obj2 sample_pair)). }
  assert (PoolRunning false A4) as R4.
  { apply Pool_next with (a := A3); [exact R3|].
    apply (@Pool_step false A3 [] [] pipeline_rect_out [RectifyProcessorOCV]
             (mkProcessState pipeline_rect_out statics_read [RectifyProcessorOCV]));
      [reflexivity|].
    apply (@Step_read false
             (mkProcessState pipeline_rect_out Statics_init [RectifyProcessorOCV])
             LEFT_RECTIFIED (obj_data_second sample_pair) statics_read).
    vm_compute; reflexivity. }
  assert (PoolRunning false A5) as R5.
  { apply Pool_next with (a := A4); [exact R4|].
    apply (@Pool_new false A4 device_lr PINHOLE pipeline_lr). vm_compute; reflexivity. }
  apply Pool_next with (a := A5); [exact R5|].
  apply (@Pool_step false A5 [(pipeline_rect_out, [RectifyProcessorOCV])] []
           pipeline_lr [] (mkProcessState pipeline_rect_on statics_read []));
    [reflexivity|].
  apply (@Step_enable false (mkProcessState pipeline_lr statics_read [])
           LEFT_RECTIFIED false [LEFT_RECTIFIED; RIGHT_RECTIFIED] pipeline_rect_on).
  vm_compute; reflexivity.
Qed.

(** C6, witness: on the second pipeline of the sample process, whose rectify
    stage has published nothing, the read of LEFT_RECTIFIED returns the
    matrix that holds 20, published by the first pipeline. *)
Lemma C6_stale_pair_returned_witness :
  In (pipeline_rect_on, []) (members pool_two)
  /\ GetStreamEnabledMode pipeline_rect_on LEFT_RECTIFIED = MODE_SYNTHETIC
  /\ find_proc (processors_ pipeline_rect_on) RectifyProcessorOCV = Some sample_rectify
  /\ GetOutput sample_rectify = None
  /\ GetStreamData pipeline_rect_on (shared pool_two) LEFT_RECTIFIED
     = Done (obj_data_second sample_pair, shared pool_two)
  /\ frame (obj_data_second sample_pair) = sample_mat 20
  /\ obj_data_second sample_pair <> StreamData_empty.
Proof.
  assert (In (pipeline_rect_on, @nil ProcName) (members pool_two)) as Hin
    by (simpl; right; left; reflexivity).
  assert (GetStreamEnabledMode pipeline_rect_on LEFT_RECTIFIED = MODE_SYNTHETIC) as M
    by (vm_compute; reflexivity).
  assert (find_proc (processors_ pipeline_rect_on) RectifyProcessorOCV
          = Some sample_rectify) as Fp by (vm_compute; reflexivity).
  split; [exact Hin|]. split; [exact M|]. split; [exact Fp|].
  split; [reflexivity|]. split; [|split; [reflexivity | discriminate]].
  refine (proj2 (C6_stale_pair_returned false pool_two pipeline_rect_on []
                   LEFT_RECTIFIED RectifyProcessorOCV sample_rectify
                   pool_two_running Hin M _ Fp _ _)).
  - vm_compute; reflexivity.
  - reflexivity.
  - simpl; tauto.
Defined.

(** ** Instances on the sample pipelines *)

(** C7, witness: [LAST] on a freshly constructed pipeline. *)
Lemma C7_unknown_stream_witness :
  checkControlDateWithStream pipeline_lr LAST = false
  /\ GetStreamData pipeline_lr Statics_init LAST = Done (StreamData_empty, Statics_init)
  /\ HasStreamCallback pipeline_lr LAST = false
  /\ Supports pipeline_lr LAST = false
  /\ getProcessorWithStream pipeline_lr LAST = Undefined
  /\ EnableStreamData pipeline_lr LAST false = Undefined.
Proof.
  split; [vm_compute; reflexivity|].
  apply (C7_unknown_stream pipeline_lr Statics_init LAST false).
  vm_compute; reflexivity.
Defined.

(** C8, witness: DEPTH enabled twice on a device that produces LEFT and
    RIGHT only. *)
Lemma C8_enable_idempotent_witness :
  EnableStreamData pipeline_lr DEPTH false
  = Done ([LEFT_RECTIFIED; RIGHT_RECTIFIED; DISPARITY; POINTS; DEPTH], pipeline_depth_on)
  /\ EnableStreamData pipeline_depth_on DEPTH false = Done ([], pipeline_depth_on).
Proof.
  assert (EnableStreamData pipeline_lr DEPTH false
          = Done ([LEFT_RECTIFIED; RIGHT_RECTIFIED; DISPARITY; POINTS; DEPTH],
                  pipeline_depth_on)) as E by (vm_compute; reflexivity).
  split; [exact E|].
  exact (C8_enable_idempotent pipeline_lr pipeline_depth_on DEPTH _ E).
Defined.

(** C4, witness: with a plugin whose rectify handler returns true, one input
    through the activated rectify stage fires the post-process hook and
    never reaches the kernel. *)
Lemma C4_process_hooks_witness :
  plugin_ pipeline_plugged = Some plugin_all
  /\ fst (OnRectifyProcess pipeline_plugged sample_input sample_output) = true
  /\ kernel_invoked
       (run_input (Some (OnRectifyProcess pipeline_plugged)) sample_kernel
          sample_rectify sample_input sample_output) = false
  /\ post_process_fired
       (run_input (Some (OnRectifyProcess pipeline_plugged)) sample_kernel
          sample_rectify sample_input sample_output) = true.
Proof.
  split; [reflexivity|]. split.
  - apply (proj1 (proj1 (C4_process_hooks pipeline_plugged) sample_input sample_output)).
    left. exists plugin_all. split; reflexivity.
  - apply (proj2 (proj1 (C4_process_hooks pipeline_plugged) sample_input sample_output)
             plugin_all sample_kernel sample_rectify); reflexivity.
Defined.

(** C10, witness: no plugin, LEFT_RECTIFIED produced natively by the device
    and RIGHT_RECTIFIED enabled as SYNTHETIC: the hook answers from
    LEFT_RECTIFIED alone. *)
Lemma C10_rectify_hook_left_only_witness :
  plugin_ pipeline_right_on = None
  /\ GetStreamEnabledMode pipeline_right_on RIGHT_RECTIFIED = MODE_SYNTHETIC
  /\ GetStreamEnabledMode pipeline_right_on LEFT_RECTIFIED = MODE_NATIVE
  /\ (fst (OnRectifyProcess pipeline_right_on sample_input sample_output) = false <->
      GetStreamEnabledMode pipeline_right_on LEFT_RECTIFIED = MODE_SYNTHETIC).
Proof.
  split; [reflexivity|]. split; [vm_compute; reflexivity|].
  split; [vm_compute; reflexivity|].
  apply (C10_rectify_hook_left_only pipeline_right_on sample_input sample_output).
  left; reflexivity.
Defined.

(** * Further properties *)

(** ** Dry runs *)

Lemma with_processors_same (st : Synthetic) : with_processors (processors_ st) st = st.
Proof. now destruct st. Qed.

Lemma enable_visit_dry (p : Processor) : snd (enable_visit true p) = p.
Proof. rewrite enable_visit_snd; destruct p as [n ts cs a o]; simpl. now rewrite orb_false_r. Qed.

Lemma disable_visit_dry (p : Processor) : snd (disable_visit true p) = p.
Proof. rewrite disable_visit_snd; destruct p as [n ts cs a o]; simpl. now rewrite andb_true_r. Qed.

Lemma visit_all_dry (visit : Processor -> list Stream * Processor) (m : mode_t)
    (walk : list ProcName) (ps : Store) :
  (forall p, snd (visit p) = p) ->
  (forall p, fst (visit p) = map stream (filter (has_mode m) (target_streams_ p))) ->
  visit_all visit walk ps = (reported m walk ps, ps).
Proof.
  intros Hs Hf; induction walk as [|n tl IH]; cbn [visit_all reported flat_map];
    [reflexivity|].
  destruct (find_proc ps n) as [p|] eqn:E.
  - rewrite update_proc_fixed by (intros q _; apply Hs).
    rewrite IH, Hf; reflexivity.
  - exact IH.
Qed.

(** X1. A dry run ([try_tag] set) of [EnableStreamData] or
    [DisableStreamData] on a registered stream returns the pipeline
    unchanged; what it reports to the switch callback is, stage by stage
    along the walk, the targets that a real run would find disabled
    (respectively SYNTHETIC) in the pipeline as it stands. *)
Theorem X1_dry_run_changes_nothing (st : Synthetic) (S : Stream) (n : ProcName) :
  getProcessorWithStream st S = Done n ->
  EnableStreamData st S true
  = Done (reported MODE_LAST
            (iterate_processor_CtoP_before (length (processors_ st)) (processors_ st) n)
            (processors_ st), st)
  /\ DisableStreamData st S true
     = Done (reported MODE_SYNTHETIC
               (iterate_processor_PtoC_before (length (processors_ st)) (processors_ st) n)
               (processors_ st), st).
Proof.
  intros G; unfold EnableStreamData, DisableStreamData; rewrite G; simpl. split.
  - rewrite (visit_all_dry (enable_visit true) MODE_LAST); simpl.
    + now rewrite with_processors_same.
    + apply enable_visit_dry.
    + intros p; unfold enable_visit; simpl. apply switch_loop_called.
  - rewrite (visit_all_dry (disable_visit true) MODE_SYNTHETIC); simpl.
    + now rewrite with_processors_same.
    + apply disable_visit_dry.
    + intros p; unfold disable_visit; simpl. apply switch_loop_called.
Qed.

(** X1, witness: a dry run of enabling DEPTH on a fresh pipeline reports the
    five streams that would be switched on and changes nothing. *)
Lemma X1_dry_run_changes_nothing_witness :
  getProcessorWithStream pipeline_lr DEPTH = Done DepthProcessorOCV
  /\ EnableStreamData pipeline_lr DEPTH true
     = Done ([LEFT_RECTIFIED; RIGHT_RECTIFIED; DISPARITY; POINTS; DEPTH], pipeline_lr).
Proof.
  split; [vm_compute; reflexivity|].
  refine (eq_trans (proj1 (X1_dry_run_changes_nothing pipeline_lr DEPTH
                             DepthProcessorOCV _)) _);
    vm_compute; reflexivity.
Defined.

(** ** Disabling twice *)

Lemma disable_visit_idle (try_tag : bool) (p : Processor) :
  existsb (has_mode MODE_SYNTHETIC) (target_streams_ p) = false ->
  disable_visit try_tag p = ([], p).
Proof.
  intros H; unfold disable_visit. rewrite (switch_loop_idle _ _ _ _ H); simpl.
  now destruct p.
Qed.

Lemma disable_visit_quiets (p : Processor) :
  existsb (has_mode MODE_SYNTHETIC) (target_streams_ (snd (disable_visit false p))) = false.
Proof.
  rewrite disable_visit_snd; simpl. apply switch_mode_gone; discriminate.
Qed.

Lemma quiet_update (n m : ProcName) (ps : Store) :
  quiet MODE_SYNTHETIC n ps ->
  quiet MODE_SYNTHETIC n (update_proc m (fun q => snd (disable_visit false q)) ps).
Proof.
  intros H p. rewrite find_proc_update by (intros q; apply disable_visit_keeps).
  destruct (ProcName_eqb n m).
  - destruct (find_proc ps n); simpl; [|discriminate].
    intros [= <-]. apply disable_visit_quiets.
  - apply H.
Qed.

Lemma quiet_visit_all (n : ProcName) (walk : list ProcName) (ps : Store) :
  quiet MODE_SYNTHETIC n ps ->
  quiet MODE_SYNTHETIC n (snd (visit_all (disable_visit false) walk ps)).
Proof.
  revert ps; induction walk as [|m tl IH]; intros ps H; simpl; [exact H|].
  destruct (find_proc ps m); simpl; apply IH; [now apply quiet_update | exact H].
Qed.

Lemma visit_all_quiets (walk : list ProcName) (ps : Store) :
  Forall (fun n => quiet MODE_SYNTHETIC n (snd (visit_all (disable_visit false) walk ps)))
    walk.
Proof.
  revert ps; induction walk as [|n tl IH]; intros ps; simpl; constructor.
  - destruct (find_proc ps n) as [p|] eqn:E; simpl; apply quiet_visit_all.
    + intros q. rewrite find_proc_update by (intros q'; apply disable_visit_keeps).
      rewrite ProcName_eqb_refl, E; simpl. intros [= <-]. apply disable_visit_quiets.
    + intros q; congruence.
  - destruct (find_proc ps n); simpl; apply IH.
Qed.

Lemma visit_all_quiet (try_tag : bool) (walk : list ProcName) (ps : Store) :
  Forall (fun n => quiet MODE_SYNTHETIC n ps) walk ->
  visit_all (disable_visit try_tag) walk ps = ([], ps).
Proof.
  induction 1 as [|n tl Hn Htl IH]; cbn [visit_all]; [reflexivity|].
  destruct (find_proc ps n) as [p|] eqn:E; [|exact IH].
  rewrite update_proc_fixed.
  - rewrite IH, (disable_visit_idle try_tag p (Hn p E)); reflexivity.
  - intros q Hq. now rewrite (disable_visit_idle try_tag q (Hn q Hq)).
Qed.

(** X2. Once a non-dry-run [DisableStreamData(S)] has returned, a second one
    changes nothing, from any starting state: it returns the same pipeline
    and reports no stream to the switch callback. *)
Theorem X2_disable_idempotent (st st1 : Synthetic) (S : Stream) (log : list Stream) :
  DisableStreamData st S false = Done (log, st1) ->
  DisableStreamData st1 S false = Done ([], st1).
Proof.
  unfold DisableStreamData.
  destruct (getProcessorWithStream st S) as [n|] eqn:G; simpl; [|discriminate].
  intros [= _ <-].
  set (ps := processors_ st).
  set (walk := iterate_processor_PtoC_before (length ps) ps n).
  set (ps1 := snd (visit_all (disable_visit false) walk ps)).
  assert (skeleton ps1 = skeleton ps) as K
      by (apply visit_all_skeleton, disable_visit_keeps).
  assert (getProcessorWithStream (with_processors ps1 st) S = Done n) as ->.
  { rewrite <- G. apply skeleton_getProcessorWithStream; exact K. }
  simpl.
  rewrite (skeleton_length ps1 ps K), (skeleton_PtoC (length ps) ps1 ps n K).
  fold walk. rewrite (visit_all_quiet false).
  - reflexivity.
  - apply visit_all_quiets.
Qed.

(** ** What enabling and disabling leave alone *)

Lemma moved_refl (from to : mode_t) (t : stream_control_t) : moved from to t t.
Proof. now left. Qed.

Lemma moved_trans (from to : mode_t) (a b c : stream_control_t) :
  from <> to -> moved from to a b -> moved from to b c -> moved from to a c.
Proof.
  intros N [-> | (Ha & ->)] [-> | (Hb & ->)]; try (now left); right; now auto.
Qed.

Lemma moved_stream (from to : mode_t) (t t' : stream_control_t) :
  moved from to t t' ->
  stream t' = stream t /\ support_mode_ t' = support_mode_ t
  /\ stream_callback t' = stream_callback t.
Proof. intros [-> | (_ & ->)]; simpl; auto. Qed.

Lemma Forall2_refl_on {A : Type} (R : A -> A -> Prop) (l : list A) :
  (forall a, R a a) -> Forall2 R l l.
Proof. intros H; induction l; constructor; auto. Qed.

Lemma Forall2_trans_on {A : Type} (R : A -> A -> Prop) (l1 l2 l3 : list A) :
  (forall a b c, R a b -> R b c -> R a c) ->
  Forall2 R l1 l2 -> Forall2 R l2 l3 -> Forall2 R l1 l3.
Proof.
  intros T H; revert l3; induction H as [|a b l1 l2 Hab _ IH]; intros l3 H3;
    inversion H3; subst; constructor; eauto.
Qed.

Lemma store_moved_refl (from to : mode_t) (ps : Store) : store_moved from to ps ps.
Proof.
  apply Forall2_refl_on. intros p. apply Forall2_refl_on, moved_refl.
Qed.

Lemma store_moved_trans (from to : mode_t) (a b c : Store) :
  from <> to -> store_moved from to a b -> store_moved from to b c ->
  store_moved from to a c.
Proof.
  intros N. apply Forall2_trans_on. intros p q r.
  apply Forall2_trans_on. intros x y z. now apply moved_trans.
Qed.

Lemma switch_mode_moved (from to : mode_t) (ts : list stream_control_t) :
  Forall2 (moved from to) ts (map (switch_mode from to) ts).
Proof.
  induction ts as [|t tl IH]; simpl; constructor; auto.
  unfold switch_mode. destruct (mode_eqb (enabled_mode_ t) from) eqn:E.
  - right; split; [now apply mode_eqb_eq | reflexivity].
  - now left.
Qed.

Lemma update_proc_moved (from to : mode_t) (n : ProcName) (f : Processor -> Processor)
    (ps : Store) :
  (forall p, Forall2 (moved from to) (target_streams_ p) (target_streams_ (f p))) ->
  store_moved from to ps (update_proc n f ps).
Proof.
  intros Hf; induction ps as [|p tl IH]; simpl; [constructor|].
  destruct (ProcName_eqb (Name p) n); constructor; auto.
  - apply store_moved_refl.
  - apply Forall2_refl_on, moved_refl.
Qed.

Lemma visit_all_moved (from to : mode_t) (visit : Processor -> list Stream * Processor)
    (walk : list ProcName) (ps : Store) :
  from <> to ->
  (forall p, Forall2 (moved from to) (target_streams_ p) (target_streams_ (snd (visit p)))) ->
  store_moved from to ps (snd (visit_all visit walk ps)).
Proof.
  intros N Hv; revert ps; induction walk as [|n tl IH]; intros ps; simpl.
  - apply store_moved_refl.
  - destruct (find_proc ps n); simpl; [|apply IH].
    eapply store_moved_trans; [exact N | | apply IH].
    apply update_proc_moved; exact Hv.
Qed.

Lemma enable_visit_moved (try_tag : bool) (p : Processor) :
  Forall2 (moved MODE_LAST MODE_SYNTHETIC) (target_streams_ p)
    (target_streams_ (snd (enable_visit try_tag p))).
Proof.
  rewrite enable_visit_snd; simpl. destruct try_tag.
  - apply Forall2_refl_on, moved_refl.
  - apply switch_mode_moved.
Qed.

Lemma disable_visit_moved (try_tag : bool) (p : Processor) :
  Forall2 (moved MODE_SYNTHETIC MODE_LAST) (target_streams_ p)
    (target_streams_ (snd (disable_visit try_tag p))).
Proof.
  rewrite disable_visit_snd; simpl. destruct try_tag.
  - apply Forall2_refl_on, moved_refl.
  - apply switch_mode_moved.
Qed.

Lemma find_moved (from to : mode_t) (s : Stream) (ts ts' : list stream_control_t) :
  Forall2 (moved from to) ts ts' ->
  match find (is_stream s) ts, find (is_stream s) ts' with
  | Some t, Some t' => moved from to t t'
  | None, None => True
  | _, _ => False
  end.
Proof.
  induction 1 as [|t t' tl tl' H _ IH]; simpl; [exact I|].
  assert (is_stream s t' = is_stream s t) as ->
      by (unfold is_stream; now rewrite (proj1 (moved_stream _ _ _ _ H))).
  destruct (is_stream s t); [exact H | exact IH].
Qed.

Lemma lookup_moved (from to : mode_t) (s : Stream) (ps ps' : Store) :
  store_moved from to ps ps' ->
  match lookup_stream ps s, lookup_stream ps' s with
  | Some (_, t), Some (_, t') => moved from to t t'
  | None, None => True
  | _, _ => False
  end.
Proof.
  induction 1 as [|p p' tl tl' H _ IH]; simpl; [exact I|].
  unfold getTargetStreams. pose proof (find_moved from to s _ _ H) as F.
  destruct (find (is_stream s) (target_streams_ p)),
           (find (is_stream s) (target_streams_ p')); try contradiction; auto.
Qed.

Lemma check_lookup (st : Synthetic) (s : Stream) :
  checkControlDateWithStream st s
  = match lookup_stream (processors_ st) s with Some _ => true | None => false end.
Proof.
  unfold checkControlDateWithStream.
  destruct (lookup_stream (processors_ st) s) eqn:L.
  - destruct (existsb _ (processors_ st)) eqn:E; [reflexivity|].
    apply lookup_stream_none in E; congruence.
  - now apply lookup_stream_none.
Qed.

Lemma store_moved_registry (from to : mode_t) (st st' : Synthetic) :
  store_moved from to (processors_ st) (processors_ st') ->
  registry_moved from to st st'.
Proof.
  intros M S. pose proof (lookup_moved from to S _ _ M) as L.
  unfold Supports, SupportsMode, HasStreamCallback, GetStreamEnabledMode,
    getControlDateWithStream.
  rewrite !check_lookup.
  destruct (lookup_stream (processors_ st) S) as [[p t]|],
           (lookup_stream (processors_ st') S) as [[p' t']|]; try contradiction.
  - destruct (moved_stream _ _ _ _ L) as (_ & -> & ->).
    repeat split. destruct L as [-> | (E & ->)]; [now left | right; auto].
  - repeat split; now left.
Qed.

Lemma IsStreamDataEnabled_mode (st : Synthetic) (S : Stream) :
  IsStreamDataEnabled st S = negb (mode_eqb (GetStreamEnabledMode st S) MODE_LAST).
Proof.
  unfold IsStreamDataEnabled, GetStreamEnabledMode.
  destruct (checkControlDateWithStream st S); [|reflexivity].
  now destruct (enabled_mode_ (getControlDateWithStream st S)).
Qed.

(** ** Stage by stage *)

Lemma update_proc_rel (R : Processor -> Processor -> Prop) (n : ProcName)
    (f : Processor -> Processor) (ps : Store) :
  (forall p, R p p) -> (forall p, R p (f p)) -> Forall2 R ps (update_proc n f ps).
Proof.
  intros Hr Hf; induction ps as [|p tl IH]; simpl; [constructor|].
  destruct (ProcName_eqb (Name p) n); constructor; auto.
  now apply Forall2_refl_on.
Qed.

Lemma visit_all_rel (R : Processor -> Processor -> Prop)
    (visit : Processor -> list Stream * Processor) (walk : list ProcName) (ps : Store) :
  (forall p, R p p) ->
  (forall p q r, R p q -> R q r -> R p r) ->
  (forall p, R p (snd (visit p))) ->
  Forall2 R ps (snd (visit_all visit walk ps)).
Proof.
  intros Hr Ht Hv; revert ps; induction walk as [|n tl IH]; intros ps; simpl.
  - now apply Forall2_refl_on.
  - destruct (find_proc ps n); simpl; [|apply IH].
    eapply Forall2_trans_on; [exact Ht | | apply IH].
    now apply update_proc_rel.
Qed.

Lemma stage_moved_refl (from to : mode_t) (p : Processor) : stage_moved from to p p.
Proof. repeat split. apply Forall2_refl_on, moved_refl. Qed.

Lemma stage_moved_trans (from to : mode_t) (p q r : Processor) :
  from <> to -> stage_moved from to p q -> stage_moved from to q r ->
  stage_moved from to p r.
Proof.
  intros N (H1 & H2 & H3 & H4) (K1 & K2 & K3 & K4).
  repeat split; try congruence.
  eapply Forall2_trans_on; [|exact H4 | exact K4].
  intros x y z; now apply moved_trans.
Qed.

Lemma enable_visit_stage (try_tag : bool) (p : Processor) :
  stage_enabled p (snd (enable_visit try_tag p)).
Proof.
  split.
  - pose proof (enable_visit_moved try_tag p) as M.
    rewrite enable_visit_snd in *; simpl in *. repeat split; exact M.
  - rewrite enable_visit_snd; simpl. now intros ->.
Qed.

Lemma disable_visit_stage (try_tag : bool) (p : Processor) :
  stage_disabled p (snd (disable_visit try_tag p)).
Proof.
  split.
  - pose proof (disable_visit_moved try_tag p) as M.
    rewrite disable_visit_snd in *; simpl in *. repeat split; exact M.
  - rewrite disable_visit_snd; simpl. intros H; now apply andb_true_iff in H.
Qed.

Lemma visit_all_enabled (try_tag : bool) (walk : list ProcName) (ps : Store) :
  Forall2 stage_enabled ps (snd (visit_all (enable_visit try_tag) walk ps)).
Proof.
  apply visit_all_rel.
  - intros p; split; [apply stage_moved_refl | auto].
  - intros p q r (H1 & H2) (K1 & K2); split; [|auto].
    eapply stage_moved_trans; eauto; discriminate.
  - apply enable_visit_stage.
Qed.

Lemma visit_all_disabled (try_tag : bool) (walk : list ProcName) (ps : Store) :
  Forall2 stage_disabled ps (snd (visit_all (disable_visit try_tag) walk ps)).
Proof.
  apply visit_all_rel.
  - intros p; split; [apply stage_moved_refl | auto].
  - intros p q r (H1 & H2) (K1 & K2); split; [|auto].
    eapply stage_moved_trans; eauto; discriminate.
  - apply disable_visit_stage.
Qed.

(** X3. A call of [EnableStreamData] that returns, dry run or not, changes
    of the pipeline only its processors, and leaves them stage by stage as
    they were (the same stages in the same order, each with its name, its
    children, its latest output and its descriptors in order) but for two
    things: the enabled mode of a descriptor may have moved from NONE to
    SYNTHETIC, all else of the descriptor (stream, support mode, callback)
    being the same, and a stage may have been activated, never deactivated.
    So every stream keeps its support, its support mode and its callback, a
    stream that was enabled stays enabled, and the streams enabled as NATIVE
    are the same. *)
Theorem X3_enable_frame (st st' : Synthetic) (S : Stream) (try_tag : bool)
    (log : list Stream) :
  EnableStreamData st S try_tag = Done (log, st') ->
  registry_moved MODE_LAST MODE_SYNTHETIC st st'
  /\ (forall S', IsStreamDataEnabled st S' = true -> IsStreamDataEnabled st' S' = true)
  /\ (forall S', IsStreamEnabledNative st' S' = IsStreamEnabledNative st S')
  /\ plugin_ st' = plugin_ st /\ calib_model_ st' = calib_model_ st
  /\ stream_data_listener_ st' = stream_data_listener_ st
  /\ Forall2 stage_enabled (processors_ st) (processors_ st')
  /\ st' = with_processors (processors_ st') st.
Proof.
  unfold EnableStreamData.
  destruct (getProcessorWithStream st S) as [n|]; simpl; [|discriminate].
  intros [= _ <-].
  assert (registry_moved MODE_LAST MODE_SYNTHETIC st
            (with_processors
               (snd (visit_all (enable_visit try_tag)
                       (iterate_processor_CtoP_before (length (processors_ st))
                          (processors_ st) n) (processors_ st))) st)) as R.
  { apply store_moved_registry; simpl.
    apply visit_all_moved; [discriminate | apply enable_visit_moved]. }
  split; [exact R|]. split; [|split; [|simpl; repeat split]].
  - intros S'. destruct (R S') as (_ & _ & _ & Hm).
    rewrite !IsStreamDataEnabled_mode.
    destruct Hm as [-> | (_ & ->)]; auto.
  - intros S'. destruct (R S') as (_ & _ & _ & Hm). unfold IsStreamEnabledNative.
    destruct Hm as [-> | (-> & ->)]; reflexivity.
  - apply visit_all_enabled.
Qed.

(** X4. A call of [DisableStreamData] that returns, dry run or not, changes
    of the pipeline only its processors, and leaves them stage by stage as
    they were (the same stages in the same order, each with its name, its
    children, its latest output and its descriptors in order) but for two
    things: the enabled mode of a descriptor may have moved from SYNTHETIC
    to NONE, all else of the descriptor (stream, support mode, callback)
    being the same, and a stage may have been deactivated, never activated.
    So every stream keeps its support, its support mode and its callback, no
    stream becomes enabled, and the streams enabled as NATIVE are the
    same. *)
Theorem X4_disable_frame (st st' : Synthetic) (S : Stream) (try_tag : bool)
    (log : list Stream) :
  DisableStreamData st S try_tag = Done (log, st') ->
  registry_moved MODE_SYNTHETIC MODE_LAST st st'
  /\ (forall S', IsStreamDataEnabled st' S' = true -> IsStreamDataEnabled st S' = true)
  /\ (forall S', IsStreamEnabledNative st' S' = IsStreamEnabledNative st S')
  /\ plugin_ st' = plugin_ st /\ calib_model_ st' = calib_model_ st
  /\ stream_data_listener_ st' = stream_data_listener_ st
  /\ Forall2 stage_disabled (processors_ st) (processors_ st')
  /\ st' = with_processors (processors_ st') st.
Proof.
  unfold DisableStreamData.
  destruct (getProcessorWithStream st S) as [n|]; simpl; [|discriminate].
  intros [= _ <-].
  assert (registry_moved MODE_SYNTHETIC MODE_LAST st
            (with_processors
               (snd (visit_all (disable_visit try_tag)
                       (iterate_processor_PtoC_before (length (processors_ st))
                          (processors_ st) n) (processors_ st))) st)) as R.
  { apply store_moved_registry; simpl.
    apply visit_all_moved; [discriminate | apply disable_visit_moved]. }
  split; [exact R|]. split; [|split; [|simpl; repeat split]].
  - intros S'. destruct (R S') as (_ & _ & _ & Hm).
    rewrite !IsStreamDataEnabled_mode.
    destruct Hm as [-> | (-> & ->)]; auto.
  - intros S'. destruct (R S') as (_ & _ & _ & Hm). unfold IsStreamEnabledNative.
    destruct Hm as [-> | (-> & ->)]; reflexivity.
  - apply visit_all_disabled.
Qed.

(** ** More invariants of a running process *)

Lemma Reachable_Running (W : bool) (d : Device.t) (cm : CalibrationModel) (st : Synthetic) :
  Reachable W d cm st -> Running W d cm (mkProcessState st Statics_init []).
Proof.
  induction 1 as [st E | st s try_tag log st' _ IH E | st s try_tag log st' _ IH E].
  - now apply Run_start.
  - eapply Run_step; [exact IH|].
    exact (@Step_enable W (mkProcessState st Statics_init []) s try_tag log st' E).
  - eapply Run_step; [exact IH|].
    exact (@Step_disable W (mkProcessState st Statics_init []) s try_tag log st' E).
Qed.

Lemma init_chain_fields (chain : list Stream) (st st' : Synthetic) :
  init_chain chain st = Done st' ->
  api_device st' = api_device st /\ plugin_ st' = plugin_ st
  /\ calib_model_ st' = calib_model_ st /\ processor_ st' = processor_ st.
Proof.
  revert st; induction chain as [|s tl IH]; intros st; simpl.
  - intros [= <-]; auto.
  - destruct (getProcessorWithStream st s); simpl; [|discriminate].
    intros H; apply IH in H; simpl in H; exact H.
Qed.

Lemma Synthetic_new_fields (W : bool) (d : Device.t) (cm : CalibrationModel)
    (st : Synthetic) :
  Synthetic_new W d cm = Done st ->
  api_device st = d /\ plugin_ st = None
  /\ calib_model_ st = effective_model W cm
  /\ processor_ st = Some (rectify_class W st).
Proof.
  unfold Synthetic_new, InitStreamSupports.
  set (st0 := InitProcessors W (InitCalibInfo W (member_init d cm))).
  assert (api_device st0 = d /\ plugin_ st0 = None
          /\ calib_model_ st0 = effective_model W cm
          /\ processor_ st0 = Some (by_model W (effective_model W cm)
                                      RectifyProcessorOCV RectifyProcessor)) as F0
      by (subst st0; destruct W, cm; repeat split; reflexivity).
  destruct F0 as (F1 & F2 & F3 & F4).
  assert (forall st1, api_device st1 = api_device st0 /\ plugin_ st1 = plugin_ st0
                      /\ calib_model_ st1 = calib_model_ st0
                      /\ processor_ st1 = processor_ st0 ->
                      api_device st1 = d /\ plugin_ st1 = None
                      /\ calib_model_ st1 = effective_model W cm
                      /\ processor_ st1 = Some (rectify_class W st1)) as Fin.
  { intros st1 (A & B & C & D). unfold rectify_class.
    rewrite A, B, C, D, F1, F2, F3, F4; auto. }
  destruct (Device.Supports (api_device st0) LEFT && Device.Supports (api_device st0) RIGHT).
  - destruct (getProcessorWithStream st0 LEFT); cbn [bind]; [|discriminate].
    intros H; apply init_chain_fields in H; simpl in H. now apply Fin.
  - intros [= <-]. now apply Fin.
Qed.

(** The members of the pipeline that no step of a running process changes,
    the plugin apart. *)
Lemma Running_fields (W : bool) (d : Device.t) (cm : CalibrationModel) (a : ProcessState) :
  Running W d cm a ->
  api_device (pipeline a) = d
  /\ calib_model_ (pipeline a) = effective_model W cm
  /\ processor_ (pipeline a) = Some (rectify_class W (pipeline a)).
Proof.
  induction 1 as [st E | a b _ IH St].
  - destruct (Synthetic_new_fields W d cm st E) as (A & _ & C & D); auto.
  - destruct IH as (A & C & D). unfold rectify_class in *.
    destruct St as [a s try_tag log st' E | a s try_tag log st' E | a s c | a pl
                   | a n o | a s x sv' E | a s x]; simpl; auto.
    + unfold EnableStreamData in E.
      destruct (getProcessorWithStream (pipeline a) s); simpl in E; [|discriminate].
      injection E as _ <-; simpl; auto.
    + unfold DisableStreamData in E.
      destruct (getProcessorWithStream (pipeline a) s); simpl in E; [|discriminate].
      injection E as _ <-; simpl; auto.
Qed.

Lemma set_first_callback_modes (m : mode_t) (s : Stream) (c : stream_callback_t)
    (ts : list stream_control_t) :
  existsb (has_mode m) (set_first_callback s c ts) = existsb (has_mode m) ts.
Proof.
  induction ts as [|t tl IH]; simpl; [reflexivity|].
  destruct (is_stream s t); simpl; [reflexivity | now rewrite IH].
Qed.

Lemma Running_activation (W : bool) (d : Device.t) (cm : CalibrationModel)
    (a : ProcessState) :
  Running W d cm a -> Forall activation_inv (processors_ (pipeline a)).
Proof.
  induction 1 as [st E | a b _ IH St].
  - destruct (Synthetic_new_returns W d cm) as (st1 & E1 & _ & F).
    rewrite E in E1; injection E1 as <-.
    eapply Forall_impl; [exact fresh_activation | exact F].
  - destruct St as [a s try_tag log st' E | a s try_tag log st' E | a s c | a pl
                   | a n o | a s x sv' E | a s x]; simpl; auto.
    + unfold EnableStreamData in E.
      destruct (getProcessorWithStream (pipeline a) s); simpl in E; [|discriminate].
      injection E as _ <-; simpl.
      apply visit_all_Forall; [apply enable_visit_activation | exact IH].
    + unfold DisableStreamData in E.
      destruct (getProcessorWithStream (pipeline a) s); simpl in E; [|discriminate].
      injection E as _ <-; simpl.
      apply visit_all_Forall; [apply disable_visit_activation | exact IH].
    + apply set_callback_in_Forall; [|exact IH].
      intros p; unfold activation_inv; simpl. now rewrite set_first_callback_modes.
    + apply update_proc_Forall; [|exact IH]. intros p; exact (fun H => H).
Qed.

Lemma CtoP_last (fuel : nat) (ps : Store) (n : ProcName) :
  In n (iterate_processor_CtoP_before fuel ps n).
Proof.
  destruct fuel; simpl; [now left|].
  destruct (GetParent ps n); [apply in_or_app; right|]; now left.
Qed.

Lemma PtoC_last (fuel : nat) (ps : Store) (n : ProcName) :
  In n (iterate_processor_PtoC_before fuel ps n).
Proof.
  destruct fuel; simpl; [now left|]. apply in_or_app; right; now left.
Qed.

Lemma find_proc_In (ps : Store) (n : ProcName) (p : Processor) :
  find_proc ps n = Some p -> In p ps /\ Name p = n.
Proof.
  unfold find_proc; intros H; apply find_some in H as [Hin Hn].
  split; [exact Hin | now apply ProcName_eqb_eq].
Qed.

Lemma owner_resolved (W : bool) (d : Device.t) (cm : CalibrationModel) (st : Synthetic)
    (S : Stream) (n : ProcName) :
  skeleton (processors_ st) = skeleton (constructed W d cm) ->
  getProcessorWithStream st S = Done n ->
  exists p t,
    find_proc (processors_ st) n = Some p
    /\ In p (processors_ st) /\ In t (target_streams_ p)
    /\ GetStreamEnabledMode st S = enabled_mode_ t.
Proof.
  intros K G. unfold getProcessorWithStream in G.
  destruct (lookup_stream (processors_ st) S) as [[p t]|] eqn:L; [|discriminate].
  injection G as <-.
  destruct (owner_shape _ _ _ _ _ _ _ K L) as (Fp & _).
  destruct (lookup_stream_In _ _ _ _ L) as (Hin & Ht & _).
  exists p, t. repeat split; auto.
  unfold GetStreamEnabledMode, getControlDateWithStream.
  now rewrite check_lookup, L.
Qed.

Lemma has_mode_absent (m : mode_t) (ts : list stream_control_t) (t : stream_control_t) :
  existsb (has_mode m) ts = false -> In t ts -> enabled_mode_ t <> m.
Proof.
  intros E Hin Hm.
  assert (existsb (has_mode m) ts = true) as X by (apply existsb_has_mode; eauto).
  congruence.
Qed.

(** ** After enabling, after disabling *)

(** X5. In a running process, after a non-dry-run [EnableStreamData(S)] has
    returned, [S] is enabled; no stage on the walk from the owner of [S] to
    the root has a disabled target left; and [S] is either NATIVE or
    SYNTHETIC with its owning stage activated. *)
Theorem X5_enable_postcondition (W : bool) (d : Device.t) (cm : CalibrationModel)
    (a : ProcessState) (S : Stream) (log : list Stream) (st' : Synthetic) :
  Running W d cm a ->
  EnableStreamData (pipeline a) S false = Done (log, st') ->
  IsStreamDataEnabled st' S = true
  /\ (forall n,
        getProcessorWithStream (pipeline a) S = Done n ->
        Forall (fun m => quiet MODE_LAST m (processors_ st'))
          (iterate_processor_CtoP_before (length (processors_ (pipeline a)))
             (processors_ (pipeline a)) n))
  /\ (GetStreamEnabledMode st' S = MODE_NATIVE
      \/ (GetStreamEnabledMode st' S = MODE_SYNTHETIC
          /\ exists n p, getProcessorWithStream st' S = Done n
                         /\ find_proc (processors_ st') n = Some p
                         /\ IsActivated p = true)).
Proof.
  intros R E.
  pose proof (Run_step R (@Step_enable W a S false log st' E)) as R'.
  pose proof (Running_inv _ _ _ _ R') as [K' _ _ _]; simpl in K'.
  pose proof (Running_activation _ _ _ _ R') as Act; simpl in Act.
  unfold EnableStreamData in E.
  destruct (getProcessorWithStream (pipeline a) S) as [n|] eqn:G; simpl in E;
    [|discriminate].
  injection E as _ <-.
  set (ps := processors_ (pipeline a)) in *.
  set (walk := iterate_processor_CtoP_before (length ps) ps n) in *.
  pose proof (visit_all_settles walk ps) as Q.
  set (ps1 := snd (visit_all (enable_visit false) walk ps)) in *.
  assert (getProcessorWithStream (with_processors ps1 (pipeline a)) S = Done n) as G'.
  { rewrite <- G. apply skeleton_getProcessorWithStream; simpl.
    apply visit_all_skeleton, enable_visit_keeps. }
  destruct (owner_resolved W d cm _ S n K' G') as (p & t & Fp & Hin & Ht & M).
  simpl in Fp, Hin.
  assert (enabled_mode_ t <> MODE_LAST) as NL.
  { rewrite Forall_forall in Q. specialize (Q n (CtoP_last _ _ _) p Fp).
    exact (has_mode_absent _ _ _ Q Ht). }
  split; [|split].
  - rewrite IsStreamDataEnabled_mode, M.
    apply negb_true_iff, mode_eqb_neq; exact NL.
  - intros n0 [= <-]. exact Q.
  - rewrite M. destruct (enabled_mode_ t) eqn:Em; [now left | right | congruence].
    split; [reflexivity|]. exists n, p. repeat split; auto.
    rewrite Forall_forall in Act. specialize (Act p Hin). unfold activation_inv in Act.
    unfold IsActivated; rewrite Act. apply existsb_has_mode; eauto.
Qed.

(** X6. In a running process, after a non-dry-run [DisableStreamData(S)] has
    returned, [S] is not SYNTHETIC any more, and every stage on the walk from
    the owner of [S] to its leaves has no SYNTHETIC target and is
    deactivated. *)
Theorem X6_disable_postcondition (W : bool) (d : Device.t) (cm : CalibrationModel)
    (a : ProcessState) (S : Stream) (log : list Stream) (st' : Synthetic) :
  Running W d cm a ->
  DisableStreamData (pipeline a) S false = Done (log, st') ->
  IsStreamEnabledSynthetic st' S = false
  /\ (forall n m p,
        getProcessorWithStream (pipeline a) S = Done n ->
        In m (iterate_processor_PtoC_before (length (processors_ (pipeline a)))
                (processors_ (pipeline a)) n) ->
        find_proc (processors_ st') m = Some p ->
        IsActivated p = false
        /\ forall t, In t (target_streams_ p) -> enabled_mode_ t <> MODE_SYNTHETIC).
Proof.
  intros R E.
  pose proof (Run_step R (@Step_disable W a S false log st' E)) as R'.
  pose proof (Running_inv _ _ _ _ R') as [K' _ _ _]; simpl in K'.
  pose proof (Running_activation _ _ _ _ R') as Act; simpl in Act.
  unfold DisableStreamData in E.
  destruct (getProcessorWithStream (pipeline a) S) as [n|] eqn:G; simpl in E;
    [|discriminate].
  injection E as _ <-.
  set (ps := processors_ (pipeline a)) in *.
  set (walk := iterate_processor_PtoC_before (length ps) ps n) in *.
  pose proof (visit_all_quiets walk ps) as Q.
  set (ps1 := snd (visit_all (disable_visit false) walk ps)) in *.
  rewrite Forall_forall in Q.
  assert (getProcessorWithStream (with_processors ps1 (pipeline a)) S = Done n) as G'.
  { rewrite <- G. apply skeleton_getProcessorWithStream; simpl.
    apply visit_all_skeleton, disable_visit_keeps. }
  destruct (owner_resolved W d cm _ S n K' G') as (p & t & Fp & Hin & Ht & M).
  simpl in Fp, Hin.
  split.
  - unfold IsStreamEnabledSynthetic. rewrite M. apply mode_eqb_neq.
    exact (has_mode_absent _ _ _ (Q n (PtoC_last _ _ _) p Fp) Ht).
  - intros n0 m q [= <-] Hm Fq. simpl in Fq.
    pose proof (Q m Hm q Fq) as Qm. split.
    + destruct (find_proc_In _ _ _ Fq) as (Hq & _).
      rewrite Forall_forall in Act. specialize (Act q Hq). unfold activation_inv in Act.
      unfold IsActivated. now rewrite Act.
    + intros u Hu. exact (has_mode_absent _ _ _ Qm Hu).
Qed.

(** ** The registry of a running process *)

Lemma constructed_owner (W : bool) (d : Device.t) (cm : CalibrationModel)
    (st : Synthetic) (s : Stream) :
  skeleton (processors_ st) = skeleton (constructed W d cm) ->
  getProcessorWithStream st s
  = getProcessorWithStream (InitProcessors W (InitCalibInfo W (member_init d cm))) s.
Proof. intros K. now apply skeleton_getProcessorWithStream. Qed.

Lemma constructed_unknown (W : bool) (d : Device.t) (cm : CalibrationModel)
    (st : Synthetic) :
  skeleton (processors_ st) = skeleton (constructed W d cm) ->
  getProcessorWithStream st LAST = Undefined.
Proof.
  intros K. rewrite (constructed_owner W d cm st LAST K).
  destruct W, cm; vm_compute; reflexivity.
Qed.

Lemma Supports_owner (st : Synthetic) (S : Stream) :
  Supports st S = match getProcessorWithStream st S with Done _ => true | Undefined => false end.
Proof.
  unfold Supports, getProcessorWithStream. rewrite check_lookup.
  now destruct (lookup_stream (processors_ st) S) as [[p t]|].
Qed.

(** X7. In a running process the pipeline knows exactly the eight named
    streams: [Supports(S)] holds for each of them and fails for [LAST]; for
    each of them [EnableStreamData] and [DisableStreamData] return, dry run
    or not; and [GetStreamData] returns for every stream that is not
    enabled as NATIVE (for a NATIVE stream it is the device that answers). *)
Theorem X7_registry_complete (W : bool) (d : Device.t) (cm : CalibrationModel)
    (a : ProcessState) :
  Running W d cm a ->
  (forall S, Supports (pipeline a) S = negb (Stream_eqb S LAST))
  /\ (forall S try_tag,
        S <> LAST ->
        (exists log st', EnableStreamData (pipeline a) S try_tag = Done (log, st'))
        /\ (exists log st', DisableStreamData (pipeline a) S try_tag = Done (log, st')))
  /\ (forall S,
        GetStreamEnabledMode (pipeline a) S <> MODE_NATIVE ->
        exists x sv', GetStreamData (pipeline a) (statics a) S = Done (x, sv')).
Proof.
  intros R. pose proof (Running_inv _ _ _ _ R) as [K _ _ _].
  split; [|split].
  - intros S. rewrite Supports_owner.
    destruct (Stream_eq_dec S LAST) as [-> | N].
    + now rewrite (constructed_unknown W d cm _ K).
    + destruct (constructed_registers W d cm _ S K N) as (n & ->).
      unfold Stream_eqb. now destruct (Stream_eq_dec S LAST).
  - intros S try_tag N.
    destruct (constructed_registers W d cm _ S K N) as (n & G).
    unfold EnableStreamData, DisableStreamData; rewrite G; simpl. split; eauto.
  - intros S N. unfold GetStreamData.
    destruct (mode_eqb (GetStreamEnabledMode (pipeline a) S) MODE_NATIVE) eqn:E1;
      [apply mode_eqb_eq in E1; contradiction|].
    destruct (mode_eqb (GetStreamEnabledMode (pipeline a) S) MODE_SYNTHETIC) eqn:E2;
      [|eauto].
    apply mode_eqb_eq in E2.
    destruct (synthetic_lookup _ _ E2) as (p & t & L & _).
    unfold getProcessorWithStream; rewrite L; simpl.
    destruct (owner_shape _ _ _ _ _ _ _ K L) as (-> & _).
    destruct (Nat.eqb (getStreamsSum p) 1).
    { destruct (GetOutput p) as [o|]; [destruct (Cast_ObjMat o)|]; eauto. }
    destruct (Nat.eqb (getStreamsSum p) 2); [|eauto].
    destruct (output _); [destruct (paired_half _ _ _ _)|]; eauto.
Qed.

(** X7, witness: DEPTH on a fresh pipeline. *)
Lemma X7_registry_complete_witness :
  Supports pipeline_lr DEPTH = true
  /\ Supports pipeline_lr LAST = false
  /\ exists log st', EnableStreamData pipeline_lr DEPTH false = Done (log, st').
Proof.
  assert (Running false device_lr PINHOLE (mkProcessState pipeline_lr Statics_init []))
    as R by (apply Run_start; vm_compute; reflexivity).
  split; [exact (proj1 (X7_registry_complete _ _ _ _ R) DEPTH)|].
  split; [exact (proj1 (X7_registry_complete _ _ _ _ R) LAST)|].
  refine (proj1 (proj1 (proj2 (X7_registry_complete _ _ _ _ R)) DEPTH false _)).
  discriminate.
Defined.

(** ** Where native frames go *)

(** X8. In a running process the names the dispatcher hard-codes agree with
    the registry: the class it submits LEFT/RIGHT pairs to is the stage that
    owns LEFT_RECTIFIED and RIGHT_RECTIFIED, which is also [processor_]; and
    a native DISPARITY, DISPARITY_NORMALIZED, POINTS or DEPTH frame is
    always forwarded, once, as a single payload, to the children of the
    stage that owns that stream, never to that stage itself, and the
    statics are left alone.  (The "unknown model" branches of the
    dispatcher are never taken.) *)
Theorem X8_native_frames_reach_owner (W : bool) (d : Device.t) (cm : CalibrationModel)
    (a : ProcessState) :
  Running W d cm a ->
  getProcessorWithStream (pipeline a) LEFT_RECTIFIED = Done (rectify_class W (pipeline a))
  /\ getProcessorWithStream (pipeline a) RIGHT_RECTIFIED
     = Done (rectify_class W (pipeline a))
  /\ processor_ (pipeline a) = Some (rectify_class W (pipeline a))
  /\ (calib_model_ (pipeline a) = PINHOLE
      \/ (W = true /\ calib_model_ (pipeline a) = KANNALA_BRANDT))
  /\ (forall s x,
        s = DISPARITY \/ s = DISPARITY_NORMALIZED \/ s = POINTS \/ s = DEPTH ->
        exists n,
          getProcessorWithStream (pipeline a) s = Done n
          /\ ProcessNativeStream W (pipeline a) (statics a) s x
             = (NotifyStreamData (pipeline a) s x ++ [ProcessChilds n (Obj1 (data_obj x))],
                statics a)).
Proof.
  intros R. pose proof (Running_inv _ _ _ _ R) as [K _ _ _].
  destruct (Running_fields _ _ _ _ R) as (_ & C & P).
  split; [|split; [|split; [exact P|split]]].
  - rewrite (constructed_owner W d cm _ _ K). unfold rectify_class; rewrite C.
    destruct W, cm; vm_compute; reflexivity.
  - rewrite (constructed_owner W d cm _ _ K). unfold rectify_class; rewrite C.
    destruct W, cm; vm_compute; reflexivity.
  - rewrite C. destruct W, cm; vm_compute; auto.
  - intros s x Hs. rewrite (constructed_owner W d cm _ _ K).
    unfold ProcessNativeStream; rewrite C.
    destruct Hs as [-> | [-> | [-> | ->]]]; destruct W, cm;
      eexists; (split; [vm_compute; reflexivity | reflexivity]).
Qed.

(** X8, witness: a native DISPARITY frame on a fresh pipeline goes to the
    children of the disparity stage. *)
Lemma X8_native_frames_reach_owner_witness :
  getProcessorWithStream pipeline_lr DISPARITY = Done DisparityProcessor
  /\ ProcessNativeStream false pipeline_lr Statics_init DISPARITY (native_frame 7)
     = ([ProcessChilds DisparityProcessor (Obj1 (data_obj (native_frame 7)))],
        Statics_init).
Proof.
  assert (Running false device_lr PINHOLE (mkProcessState pipeline_lr Statics_init []))
    as R by (apply Run_start; vm_compute; reflexivity).
  destruct (proj2 (proj2 (proj2 (proj2 (X8_native_frames_reach_owner _ _ _ _ R))))
              DISPARITY (native_frame 7) (or_introl eq_refl)) as (n & G & E).
  split; [vm_compute; reflexivity|].
  assert (n = DisparityProcessor) as -> by (vm_compute in G; congruence).
  exact E.
Defined.

(** ** The other paths of the dispatcher *)

Lemma forwarded_app (a b : list Event) :
  forwarded (a ++ b) = forwarded a ++ forwarded b.
Proof.
  induction a as [|e tl IH]; simpl; [reflexivity|].
  destruct e; simpl; now rewrite IH.
Qed.

Lemma forwarded_notify (st : Synthetic) (s : Stream) (x : StreamData) :
  forwarded (NotifyStreamData st s x) = [].
Proof. unfold NotifyStreamData; now destruct (stream_data_listener_ st). Qed.

Lemma listened_app (a b : list Event) :
  listened (a ++ b) = listened a ++ listened b.
Proof.
  induction a as [|e tl IH]; simpl; [reflexivity|].
  destruct e; simpl; now rewrite IH.
Qed.

(** X9. The rectified streams, when the device produces them, are paired by
    a latch of their own: a LEFT_RECTIFIED or RIGHT_RECTIFIED arrival
    overwrites its slot and a pair is forwarded to the children of the
    rectify stage exactly when both slots then hold image data with equal
    frame ids; nothing is submitted to the rectify stage itself and the
    LEFT/RIGHT slots are not touched.  Conversely a LEFT or RIGHT arrival
    forwards nothing and leaves the rectified slots alone, and an arrival of
    any other stream submits nothing and leaves all four slots alone. *)
Theorem X9_rectified_latch (W : bool) (st : Synthetic) (sv : Statics) (s : Stream)
    (x : StreamData) :
  let res := ProcessNativeStream W st sv s x in
  (s = LEFT_RECTIFIED \/ s = RIGHT_RECTIFIED ->
   let l := left_rect_data (snd res) in
   let r := right_rect_data (snd res) in
   l = (if Stream_eqb s LEFT_RECTIFIED then x else left_rect_data sv)
   /\ r = (if Stream_eqb s LEFT_RECTIFIED then right_rect_data sv else x)
   /\ ((slots_paired l r
        /\ forwarded (fst res) = [(rectify_class W st, Obj2 (data_obj2 l r))])
       \/ (~ slots_paired l r /\ forwarded (fst res) = []))
   /\ submitted (fst res) = []
   /\ left_data (snd res) = left_data sv /\ right_data (snd res) = right_data sv)
  /\ (s = LEFT \/ s = RIGHT ->
      forwarded (fst res) = []
      /\ left_rect_data (snd res) = left_rect_data sv
      /\ right_rect_data (snd res) = right_rect_data sv)
  /\ (s <> LEFT -> s <> RIGHT -> s <> LEFT_RECTIFIED -> s <> RIGHT_RECTIFIED ->
      submitted (fst res) = [] /\ snd res = sv).
Proof.
  intros res; subst res; split; [|split].
  - intros [-> | ->]; unfold ProcessNativeStream; simpl.
    + repeat split; auto.
      * destruct (same_frame x (right_rect_data sv)) eqn:E; [left|right];
          (split; [first [now apply same_frame_paired
                         | intros P; apply same_frame_paired in P; congruence]|]);
          simpl; rewrite ?forwarded_app, forwarded_notify; reflexivity.
      * destruct (same_frame x (right_rect_data sv)); simpl;
          rewrite ?submitted_app, submitted_notify; reflexivity.
    + repeat split; auto.
      * destruct (same_frame (left_rect_data sv) x) eqn:E; [left|right];
          (split; [first [now apply same_frame_paired
                         | intros P; apply same_frame_paired in P; congruence]|]);
          simpl; rewrite ?forwarded_app, forwarded_notify; reflexivity.
      * destruct (same_frame (left_rect_data sv) x); simpl;
          rewrite ?submitted_app, submitted_notify; reflexivity.
  - intros [-> | ->]; unfold ProcessNativeStream; simpl; repeat split.
    + destruct (same_frame x (right_data sv)); simpl;
        rewrite ?forwarded_app, forwarded_notify; reflexivity.
    + destruct (same_frame (left_data sv) x); simpl;
        rewrite ?forwarded_app, forwarded_notify; reflexivity.
  - intros N1 N2 N3 N4. unfold ProcessNativeStream.
    destruct s; try congruence; simpl;
      repeat match goal with
             | |- context [if ?b then _ else _] => destruct b
             end; simpl;
      rewrite ?submitted_app, submitted_notify; auto.
Qed.

(** X9, witness: LEFT_RECTIFIED id 8, then RIGHT_RECTIFIED id 8. *)
Lemma X9_rectified_latch_witness :
  forwarded
    (fst (dispatch false pipeline_lr Statics_init
            [(LEFT_RECTIFIED, native_frame 8); (RIGHT_RECTIFIED, native_frame 8)]))
  = [(RectifyProcessorOCV, Obj2 (data_obj2 (native_frame 8) (native_frame 8)))]
  /\ submitted
       (fst (ProcessNativeStream false pipeline_lr Statics_init RIGHT_RECTIFIED
               (native_frame 8))) = [].
Proof.
  split; [vm_compute; reflexivity|].
  exact (proj1 (proj2 (proj2 (proj2
           (proj1 (X9_rectified_latch false pipeline_lr Statics_init RIGHT_RECTIFIED
                     (native_frame 8)) (or_intror eq_refl)))))).
Defined.

Lemma data_obj2_matched (l r : StreamData) :
  same_frame l r = true -> pair_matched (data_obj2 l r).
Proof.
  intros H; apply same_frame_paired in H as (il & ir & Hl & Hr & E).
  exists il, ir; simpl; auto.
Qed.

Lemma notify_dispatcher_event (W : bool) (st : Synthetic) (s : Stream) (x : StreamData) :
  Forall (dispatcher_event W st) (NotifyStreamData st s x).
Proof.
  unfold NotifyStreamData.
  destruct (stream_data_listener_ st) eqn:E; repeat constructor; simpl; congruence.
Qed.

Lemma step_dispatcher_events (W : bool) (st : Synthetic) (sv : Statics) (s : Stream)
    (x : StreamData) :
  Forall (dispatcher_event W st) (fst (ProcessNativeStream W st sv s x)).
Proof.
  pose proof (notify_dispatcher_event W st s x) as N.
  unfold ProcessNativeStream.
  destruct s; simpl;
    repeat match goal with
           | |- context [if same_frame ?l ?r then _ else _] =>
               let E := fresh "E" in destruct (same_frame l r) eqn:E
           | |- context [if ?b then _ else _] => destruct b
           end; simpl;
    try exact N;
    apply Forall_app; (split; [exact N|]); repeat constructor; simpl; auto;
    now apply data_obj2_matched.
Qed.

Lemma step_listened (W : bool) (st : Synthetic) (sv : Statics) (s : Stream)
    (x : StreamData) :
  listened (fst (ProcessNativeStream W st sv s x))
  = match stream_data_listener_ st with Some _ => [(s, x)] | None => [] end.
Proof.
  unfold ProcessNativeStream, NotifyStreamData.
  destruct (stream_data_listener_ st); destruct s; simpl;
    repeat match goal with
           | |- context [if ?b then _ else _] => destruct b
           end; reflexivity.
Qed.

(** X10. Whatever the sequence of native arrivals and the slots it starts
    from, the dispatcher only ever tells the listener, submits a pair to the
    rectify stage, or forwards a payload to children: every pair it hands on
    carries image data on both halves with equal frame ids, no single
    payload is submitted to a stage, and no stream callback is called.  When
    a listener is set it is told of every arrival, once and in order; when
    none is set, of none. *)
Theorem X10_dispatcher_events (W : bool) (st : Synthetic) (sv : Statics)
    (arrivals : list (Stream * StreamData)) :
  Forall (dispatcher_event W st) (fst (dispatch W st sv arrivals))
  /\ listened (fst (dispatch W st sv arrivals))
     = match stream_data_listener_ st with Some _ => arrivals | None => [] end.
Proof.
  revert sv; induction arrivals as [|[s x] tl IH]; intros sv; simpl.
  - split; [constructor | now destruct (stream_data_listener_ st)].
  - destruct (IH (snd (ProcessNativeStream W st sv s x))) as (F & L). split.
    + apply Forall_app; split; [apply step_dispatcher_events | exact F].
    + rewrite listened_app, step_listened, L.
      now destruct (stream_data_listener_ st).
Qed.

(** ** Reading a single-output stage *)

Lemma single_shape (W : bool) (d : Device.t) (cm : CalibrationModel) (ps : Store)
    (S : Stream) (p : Processor) (t : stream_control_t) :
  skeleton ps = skeleton (constructed W d cm) ->
  lookup_stream ps S = Some (p, t) ->
  S = DISPARITY \/ S = DISPARITY_NORMALIZED \/ S = POINTS \/ S = DEPTH ->
  getStreamsSum p = 1.
Proof.
  intros K; revert p t.
  destruct W, cm; open_store K.
  all: intros p t L [-> | [-> | [-> | ->]]]; simpl in L; injection L as <- <-;
    reflexivity.
Qed.

(** X11. In a running process, reading DISPARITY, DISPARITY_NORMALIZED,
    POINTS or DEPTH while it is enabled as SYNTHETIC returns the latest
    output of the stage that owns it (its image data, matrix and frame id,
    and no raw frame), or an empty [StreamData] when that stage has no
    output yet or holds a pair; the statics are left as they were. *)
Theorem X11_read_single_output (W : bool) (d : Device.t) (cm : CalibrationModel)
    (a : ProcessState) (S : Stream) :
  Running W d cm a ->
  S = DISPARITY \/ S = DISPARITY_NORMALIZED \/ S = POINTS \/ S = DEPTH ->
  GetStreamEnabledMode (pipeline a) S = MODE_SYNTHETIC ->
  exists n p,
    getProcessorWithStream (pipeline a) S = Done n
    /\ find_proc (processors_ (pipeline a)) n = Some p
    /\ GetStreamData (pipeline a) (statics a) S
       = Done (match GetOutput p with
               | Some (Obj1 o) => mkStreamData (data o) (value o) None (id o)
               | _ => StreamData_empty
               end, statics a).
Proof.
  intros R HS M. pose proof (Running_inv _ _ _ _ R) as [K _ _ _].
  destruct (synthetic_lookup _ _ M) as (p & t & L & _).
  destruct (owner_shape _ _ _ _ _ _ _ K L) as (Fp & _).
  pose proof (single_shape _ _ _ _ _ _ _ K L HS) as Sum.
  exists (Name p), p. split; [|split; [exact Fp|]].
  - unfold getProcessorWithStream; now rewrite L.
  - unfold GetStreamData, getProcessorWithStream. rewrite M, L; simpl.
    rewrite Fp, Sum; simpl.
    destruct (GetOutput p) as [[o|o]|]; reflexivity.
Qed.

(** ** Setting a stream callback *)

Lemma find_other_set_first_callback (S S' : Stream) (c : stream_callback_t)
    (ts : list stream_control_t) :
  S' <> S ->
  find (is_stream S') (set_first_callback S c ts) = find (is_stream S') ts.
Proof.
  intros N; induction ts as [|t tl IH]; simpl; [reflexivity|].
  destruct (is_stream S t) eqn:E; simpl.
  - unfold is_stream in *; simpl. apply Stream_eqb_eq in E. rewrite E.
    destruct (Stream_eqb S S') eqn:E'; [|reflexivity].
    apply Stream_eqb_eq in E'; congruence.
  - now rewrite IH.
Qed.

Lemma find_same_set_first_callback (S : Stream) (c : stream_callback_t)
    (ts : list stream_control_t) :
  find (is_stream S) (set_first_callback S c ts)
  = option_map (set_stream_callback c) (find (is_stream S) ts).
Proof.
  induction ts as [|t tl IH]; simpl; [reflexivity|].
  destruct (is_stream S t) eqn:E; simpl.
  - unfold is_stream in *; simpl. now rewrite E.
  - now rewrite E.
Qed.

Lemma lookup_other_set_callback_in (ps : Store) (S S' : Stream) (c : stream_callback_t) :
  S' <> S ->
  option_map snd (lookup_stream (set_callback_in ps S c) S')
  = option_map snd (lookup_stream ps S').
Proof.
  intros N; induction ps as [|p tl IH]; simpl; [reflexivity|].
  unfold getTargetStreams.
  destruct (existsb (is_stream S) (target_streams_ p)); simpl; unfold getTargetStreams; simpl.
  - rewrite (find_other_set_first_callback S S' c _ N).
    now destruct (find (is_stream S') (target_streams_ p)).
  - destruct (find (is_stream S') (target_streams_ p)); [reflexivity | exact IH].
Qed.

Lemma lookup_same_set_callback_in (ps : Store) (S : Stream) (c : stream_callback_t) :
  option_map snd (lookup_stream (set_callback_in ps S c) S)
  = option_map (fun x => set_stream_callback c (snd x)) (lookup_stream ps S).
Proof.
  induction ps as [|p tl IH]; simpl; [reflexivity|].
  unfold getTargetStreams.
  destruct (existsb (is_stream S) (target_streams_ p)) eqn:E; simpl;
    unfold getTargetStreams; simpl.
  - rewrite find_same_set_first_callback.
    destruct (find_is_stream_some _ _ E) as (t & ->); reflexivity.
  - apply find_is_stream_none in E. rewrite E. exact IH.
Qed.

Lemma set_callback_in_unknown (ps : Store) (S : Stream) (c : stream_callback_t) :
  existsb (fun p => existsb (is_stream S) (getTargetStreams p)) ps = false ->
  set_callback_in ps S c = ps.
Proof.
  induction ps as [|p tl IH]; simpl; [reflexivity|].
  intros H; apply orb_false_iff in H as [-> H]. now rewrite IH.
Qed.

Lemma getControl_lookup (st : Synthetic) (S : Stream) :
  getControlDateWithStream st S
  = match option_map snd (lookup_stream (processors_ st) S) with
    | Some t => t
    | None => stream_control_default
    end.
Proof.
  unfold getControlDateWithStream.
  now destruct (lookup_stream (processors_ st) S) as [[p t]|].
Qed.

Lemma check_lookup_snd (st : Synthetic) (S : Stream) :
  checkControlDateWithStream st S
  = match option_map snd (lookup_stream (processors_ st) S) with
    | Some _ => true
    | None => false
    end.
Proof.
  rewrite check_lookup. now destruct (lookup_stream (processors_ st) S).
Qed.

(** X12. [SetStreamCallback(S, c)] on a registered stream stores [c] in the
    descriptor of [S] and changes nothing else of it: afterwards
    [HasStreamCallback(S)] tells whether [c] is a callback, and the support
    and enabled modes of [S] are as before.  The descriptor of every other
    stream, and the set of supported streams, are untouched; on a stream the
    pipeline does not know the call leaves the pipeline as it was. *)
Theorem X12_set_stream_callback (st : Synthetic) (S : Stream) (c : stream_callback_t) :
  (Supports st S = true ->
   getControlDateWithStream (SetStreamCallback st S c) S
   = set_stream_callback c (getControlDateWithStream st S)
   /\ HasStreamCallback (SetStreamCallback st S c) S
      = match c with Some _ => true | None => false end)
  /\ (forall S', S' <> S ->
        getControlDateWithStream (SetStreamCallback st S c) S'
        = getControlDateWithStream st S')
  /\ (forall S', Supports (SetStreamCallback st S c) S' = Supports st S')
  /\ (Supports st S = false -> SetStreamCallback st S c = st).
Proof.
  assert (processors_ (SetStreamCallback st S c)
          = set_callback_in (processors_ st) S c) as P.
  { unfold SetStreamCallback, setControlDateCallbackWithStream; simpl.
    now destruct c. }
  assert (forall S', Supports (SetStreamCallback st S c) S' = Supports st S') as Sup.
  { intros S'. unfold Supports. rewrite !check_lookup_snd, P.
    destruct (Stream_eq_dec S' S) as [-> | N].
    - rewrite lookup_same_set_callback_in.
      now destruct (lookup_stream (processors_ st) S).
    - now rewrite (lookup_other_set_callback_in _ S S' c N). }
  split; [|split; [|split; [exact Sup|]]].
  - intros H.
    assert (getControlDateWithStream (SetStreamCallback st S c) S
            = set_stream_callback c (getControlDateWithStream st S)) as G.
    { rewrite !getControl_lookup, P, lookup_same_set_callback_in.
      unfold Supports in H; rewrite check_lookup_snd in H.
      now destruct (lookup_stream (processors_ st) S). }
    split; [exact G|].
    unfold HasStreamCallback. fold (Supports (SetStreamCallback st S c) S).
    rewrite Sup, H, G; simpl. now destruct c.
  - intros S' N. rewrite !getControl_lookup, P.
    now rewrite (lookup_other_set_callback_in _ S S' c N).
  - intros H. unfold SetStreamCallback, setControlDateCallbackWithStream; simpl.
    rewrite set_callback_in_unknown by exact H. apply with_processors_same.
Qed.

(** X12, witness: a callback on DEPTH of a fresh pipeline. *)
Lemma X12_set_stream_callback_witness :
  Supports pipeline_lr DEPTH = true
  /\ HasStreamCallback (SetStreamCallback pipeline_lr DEPTH (Some 3%nat)) DEPTH = true
  /\ HasStreamCallback (SetStreamCallback pipeline_lr DEPTH (Some 3%nat)) POINTS = false.
Proof.
  split; [vm_compute; reflexivity|]. split.
  - refine (proj2 (proj1 (X12_set_stream_callback pipeline_lr DEPTH (Some 3%nat)) _)).
    vm_compute; reflexivity.
  - unfold HasStreamCallback.
    rewrite (proj1 (proj2 (X12_set_stream_callback pipeline_lr DEPTH (Some 3%nat)))
               POINTS) by discriminate.
    vm_compute; reflexivity.
Defined.

(** ** Payload conversions *)

(** X13. The conversions between stage payloads and [StreamData] are
    inverse of each other up to the raw frame: a payload turned into
    [StreamData] and back is the same payload (single or paired), and a
    [StreamData] turned into a payload and back keeps its image data, matrix
    and frame id and loses only its raw frame reference. *)
Theorem X13_payload_round_trip :
  (forall o, data_obj (obj_data o) = o)
  /\ (forall o, data_obj2 (obj_data_first o) (obj_data_second o) = o)
  /\ (forall x, obj_data (data_obj x) = mkStreamData (img x) (frame x) None (frame_id x))
  /\ (forall l r,
        obj_data_first (data_obj2 l r) = mkStreamData (img l) (frame l) None (frame_id l)
        /\ obj_data_second (data_obj2 l r)
           = mkStreamData (img r) (frame r) None (frame_id r)).
Proof.
  repeat split.
  - now intros [v i dd].
  - now intros [a b c e f g].
Qed.

(** ** The modes fixed at construction *)

Lemma every_stream_forall (P : Stream -> Prop) : every_stream P -> forall S, P S.
Proof. intros (?&?&?&?&?&?&?&?&?) S; destruct S; assumption. Qed.

Lemma construction_table_all (W : bool) (d : Device.t) (cm : CalibrationModel)
    (st : Synthetic) :
  Synthetic_new W d cm = Done st -> every_stream (table_entry d st).
Proof.
  destruct d as [sup g gs cv].
  unfold Synthetic_new, InitStreamSupports, every_stream, table_entry, support_table.
  destruct W, cm; cbn - [init_chain stream_chain SupportsMode GetStreamEnabledMode mode_eqb];
  destruct (sup LEFT), (sup RIGHT);
    cbn - [init_chain stream_chain SupportsMode GetStreamEnabledMode mode_eqb].
  all: try (intros [= <-]; repeat split; vm_compute; reflexivity).
  all: unfold stream_chain; cbn - [SupportsMode GetStreamEnabledMode mode_eqb].
  all: destruct (sup LEFT_RECTIFIED); cbn - [SupportsMode GetStreamEnabledMode mode_eqb].
  all: destruct (sup RIGHT_RECTIFIED); cbn - [SupportsMode GetStreamEnabledMode mode_eqb].
  all: destruct (sup DISPARITY); cbn - [SupportsMode GetStreamEnabledMode mode_eqb].
  all: destruct (sup DISPARITY_NORMALIZED);
    cbn - [SupportsMode GetStreamEnabledMode mode_eqb].
  all: destruct (sup POINTS); cbn - [SupportsMode GetStreamEnabledMode mode_eqb].
  all: destruct (sup DEPTH); cbn - [SupportsMode GetStreamEnabledMode mode_eqb].
  all: intros [= <-]; repeat split; vm_compute; reflexivity.
Qed.

(** X14. The constructor returns for every device and every calibration
    model, and the pipeline it returns has, for every stream, the support
    mode of the table: LEFT and RIGHT NATIVE; when the device produces both,
    each further stream NATIVE if the device produces it and SYNTHETIC if
    not; when it does not, no support mode at all for the further streams.
    A stream starts enabled (as NATIVE) exactly when its support mode is
    NATIVE, and disabled otherwise. *)
Theorem X14_construction_modes (W : bool) (d : Device.t) (cm : CalibrationModel) :
  exists st,
    Synthetic_new W d cm = Done st
    /\ forall S,
         SupportsMode st S = support_table d S
         /\ GetStreamEnabledMode st S
            = (if mode_eqb (support_table d S) MODE_NATIVE
               then MODE_NATIVE else MODE_LAST).
Proof.
  destruct (Synthetic_new_returns W d cm) as (st & E & _).
  exists st; split; [exact E|].
  exact (every_stream_forall _ (construction_table_all W d cm st E)).
Qed.

(** ** Support modes never change *)

Lemma same_support_refl (t : stream_control_t) : same_support t t.
Proof. repeat split; auto. Qed.

Lemma same_support_trans (a b c : stream_control_t) :
  same_support a b -> same_support b c -> same_support a c.
Proof.
  intros (A1 & A2 & A3) (B1 & B2 & B3); repeat split; try congruence; tauto.
Qed.

Lemma moved_same_support (from to : mode_t) (t t' : stream_control_t) :
  from <> MODE_NATIVE -> to <> MODE_NATIVE -> moved from to t t' -> same_support t t'.
Proof.
  intros Nf Nt [-> | (E & ->)]; [apply same_support_refl|].
  repeat split; simpl; intros H; congruence.
Qed.

Lemma store_same_support_refl (ps : Store) : store_same_support ps ps.
Proof.
  apply Forall2_refl_on. intros p. apply Forall2_refl_on, same_support_refl.
Qed.

Lemma store_same_support_trans (a b c : Store) :
  store_same_support a b -> store_same_support b c -> store_same_support a c.
Proof.
  apply Forall2_trans_on. intros p q r.
  apply Forall2_trans_on. exact same_support_trans.
Qed.

Lemma store_moved_same_support (from to : mode_t) (ps ps' : Store) :
  from <> MODE_NATIVE -> to <> MODE_NATIVE ->
  store_moved from to ps ps' -> store_same_support ps ps'.
Proof.
  intros Nf Nt H. induction H as [|p p' tl tl' Hp _ IH]; constructor; auto.
  eapply Forall2_impl; [|exact Hp].
  intros t t'; now apply moved_same_support.
Qed.

Lemma set_first_callback_same_support (s : Stream) (c : stream_callback_t)
    (ts : list stream_control_t) :
  Forall2 same_support ts (set_first_callback s c ts).
Proof.
  induction ts as [|t tl IH]; simpl; [constructor|].
  destruct (is_stream s t); constructor; auto.
  - repeat split; auto.
  - apply Forall2_refl_on, same_support_refl.
  - apply same_support_refl.
Qed.

Lemma set_callback_in_same_support (ps : Store) (s : Stream) (c : stream_callback_t) :
  store_same_support ps (set_callback_in ps s c).
Proof.
  induction ps as [|p tl IH]; simpl; [constructor|].
  destruct (existsb (is_stream s) (getTargetStreams p)); constructor; auto.
  - simpl. apply set_first_callback_same_support.
  - apply store_same_support_refl.
  - apply Forall2_refl_on, same_support_refl.
Qed.

Lemma update_proc_same_support (n : ProcName) (f : Processor -> Processor) (ps : Store) :
  (forall p, target_streams_ (f p) = target_streams_ p) ->
  store_same_support ps (update_proc n f ps).
Proof.
  intros Hf; induction ps as [|p tl IH]; simpl; [constructor|].
  destruct (ProcName_eqb (Name p) n); constructor; auto.
  - rewrite Hf. apply Forall2_refl_on, same_support_refl.
  - apply store_same_support_refl.
  - apply Forall2_refl_on, same_support_refl.
Qed.

Lemma Running_support (W : bool) (d : Device.t) (cm : CalibrationModel) (a : ProcessState) :
  Running W d cm a ->
  exists st0, Synthetic_new W d cm = Done st0
              /\ store_same_support (processors_ st0) (processors_ (pipeline a)).
Proof.
  induction 1 as [st E | a b _ (st0 & E0 & IH) St].
  - exists st; split; [exact E | apply store_same_support_refl].
  - exists st0; split; [exact E0|].
    eapply store_same_support_trans; [exact IH|].
    destruct St as [a s try_tag log st' E | a s try_tag log st' E | a s c | a pl
                   | a n o | a s x sv' E | a s x]; simpl;
      try apply store_same_support_refl.
    + unfold EnableStreamData in E.
      destruct (getProcessorWithStream (pipeline a) s); simpl in E; [|discriminate].
      injection E as _ <-; simpl.
      apply (store_moved_same_support MODE_LAST MODE_SYNTHETIC); try discriminate.
      apply visit_all_moved; [discriminate | apply enable_visit_moved].
    + unfold DisableStreamData in E.
      destruct (getProcessorWithStream (pipeline a) s); simpl in E; [|discriminate].
      injection E as _ <-; simpl.
      apply (store_moved_same_support MODE_SYNTHETIC MODE_LAST); try discriminate.
      apply visit_all_moved; [discriminate | apply disable_visit_moved].
    + apply set_callback_in_same_support.
    + apply update_proc_same_support. reflexivity.
Qed.

Lemma find_same_support (s : Stream) (ts ts' : list stream_control_t) :
  Forall2 same_support ts ts' ->
  match find (is_stream s) ts, find (is_stream s) ts' with
  | Some t, Some t' => same_support t t'
  | None, None => True
  | _, _ => False
  end.
Proof.
  induction 1 as [|t t' tl tl' H _ IH]; simpl; [exact I|].
  assert (is_stream s t' = is_stream s t) as ->
      by (unfold is_stream; now rewrite (proj1 H)).
  destruct (is_stream s t); [exact H | exact IH].
Qed.

Lemma lookup_same_support (s : Stream) (ps ps' : Store) :
  store_same_support ps ps' ->
  match lookup_stream ps s, lookup_stream ps' s with
  | Some (_, t), Some (_, t') => same_support t t'
  | None, None => True
  | _, _ => False
  end.
Proof.
  induction 1 as [|p p' tl tl' H _ IH]; simpl; [exact I|].
  unfold getTargetStreams. pose proof (find_same_support s _ _ H) as F.
  destruct (find (is_stream s) (target_streams_ p)),
           (find (is_stream s) (target_streams_ p')); try contradiction; auto.
Qed.

Lemma support_mode_fixed (W : bool) (d : Device.t) (cm : CalibrationModel)
    (a : ProcessState) (S : Stream) :
  Running W d cm a ->
  SupportsMode (pipeline a) S = support_table d S
  /\ (GetStreamEnabledMode (pipeline a) S = MODE_NATIVE <->
      support_table d S = MODE_NATIVE)
  /\ IsStreamEnabledNative (pipeline a) S
     = mode_eqb (support_table d S) MODE_NATIVE.
Proof.
  intros R. destruct (Running_support _ _ _ _ R) as (st0 & E0 & Rel).
  destruct (every_stream_forall _ (construction_table_all W d cm st0 E0) S) as (T1 & T2).
  pose proof (lookup_same_support S _ _ Rel) as L.
  assert (SupportsMode (pipeline a) S = SupportsMode st0 S
          /\ (GetStreamEnabledMode (pipeline a) S = MODE_NATIVE <->
              GetStreamEnabledMode st0 S = MODE_NATIVE)) as (A & B).
  { unfold SupportsMode, GetStreamEnabledMode, getControlDateWithStream.
    rewrite !check_lookup.
    destruct (lookup_stream (processors_ st0) S) as [[p0 t0]|],
             (lookup_stream (processors_ (pipeline a)) S) as [[p t]|];
      try contradiction; [|split; [reflexivity | tauto]].
    destruct L as (_ & L2 & L3). split; [exact L2 | exact L3]. }
  assert (GetStreamEnabledMode (pipeline a) S = MODE_NATIVE <->
          support_table d S = MODE_NATIVE) as C.
  { rewrite B, T2. destruct (support_table d S); simpl; split; congruence. }
  split; [congruence|]. split; [exact C|].
  unfold IsStreamEnabledNative.
  destruct (mode_eqb (support_table d S) MODE_NATIVE) eqn:E.
  - apply mode_eqb_eq. apply C. now apply mode_eqb_eq.
  - apply mode_eqb_neq. intros H. apply C in H. apply mode_eqb_neq in E. contradiction.
Qed.

(** X15. In a running process the support mode of every stream is the one
    fixed at construction from what the device produces, whatever has been
    enabled, disabled, read or published since; and a stream is enabled as
    NATIVE exactly when its support mode is NATIVE.  So the streams read
    from the device are the same for the whole life of the pipeline. *)
Theorem X15_support_is_fixed (W : bool) (d : Device.t) (cm : CalibrationModel)
    (a : ProcessState) (S : Stream) :
  Running W d cm a ->
  SupportsMode (pipeline a) S = support_table d S
  /\ (GetStreamEnabledMode (pipeline a) S = MODE_NATIVE <->
      support_table d S = MODE_NATIVE)
  /\ IsStreamEnabledNative (pipeline a) S
     = mode_eqb (support_table d S) MODE_NATIVE.
Proof. exact (support_mode_fixed W d cm a S). Qed.

(** ** Upstream and downstream of a stream *)

Lemma visit_all_untouched (visit : Processor -> list Stream * Processor)
    (walk : list ProcName) (ps : Store) (n : ProcName) :
  (forall p, Name (snd (visit p)) = Name p) ->
  ~ In n walk ->
  find_proc (snd (visit_all visit walk ps)) n = find_proc ps n.
Proof.
  intros Hn; revert ps; induction walk as [|m tl IH]; intros ps Hin; simpl;
    [reflexivity|].
  assert (~ In n tl) as Htl by (intros H; apply Hin; now right).
  destruct (find_proc ps m); simpl; rewrite IH by exact Htl; [|reflexivity].
  rewrite find_proc_update by exact Hn.
  destruct (ProcName_eqb n m) eqn:E; [|reflexivity].
  apply ProcName_eqb_eq in E. exfalso; apply Hin; now left.
Qed.

Lemma lookup_stream_find (ps : Store) (S : Stream) (p : Processor) (t : stream_control_t) :
  lookup_stream ps S = Some (p, t) -> find (is_stream S) (target_streams_ p) = Some t.
Proof.
  induction ps as [|q tl IH]; simpl; [discriminate|]. unfold getTargetStreams.
  destruct (find (is_stream S) (target_streams_ q)) as [u|] eqn:E.
  - intros [= <- <-]; exact E.
  - exact IH.
Qed.

Lemma mode_lookup (st : Synthetic) (S : Stream) :
  GetStreamEnabledMode st S
  = match lookup_stream (processors_ st) S with
    | Some (_, t) => enabled_mode_ t
    | None => MODE_LAST
    end.
Proof.
  unfold GetStreamEnabledMode, getControlDateWithStream. rewrite check_lookup.
  now destruct (lookup_stream (processors_ st) S) as [[p t]|].
Qed.

(** The effect of a walk on the enabled mode of a stream, read from whether
    the owner of the stream is on the walk. *)
Lemma walk_effect (W : bool) (d : Device.t) (cm : CalibrationModel) (from : mode_t)
    (walk : list ProcName) (st st1 : Synthetic) (S : Stream) (n : ProcName) :
  skeleton (processors_ st) = skeleton (constructed W d cm) ->
  skeleton (processors_ st1) = skeleton (processors_ st) ->
  (forall m, ~ In m walk -> find_proc (processors_ st1) m = find_proc (processors_ st) m) ->
  Forall (fun m => quiet from m (processors_ st1)) walk ->
  getProcessorWithStream st S = Done n ->
  (In n walk -> GetStreamEnabledMode st1 S <> from)
  /\ (~ In n walk -> GetStreamEnabledMode st1 S = GetStreamEnabledMode st S).
Proof.
  intros K K1 Un Q G.
  assert (skeleton (processors_ st1) = skeleton (constructed W d cm)) as K1'
      by congruence.
  pose proof (skeleton_getProcessorWithStream st1 st S K1) as G1. rewrite G in G1.
  unfold getProcessorWithStream in G, G1.
  destruct (lookup_stream (processors_ st) S) as [[p t]|] eqn:L; [|discriminate].
  destruct (lookup_stream (processors_ st1) S) as [[p1 t1]|] eqn:L1; [|discriminate].
  injection G as <-. injection G1 as Hn.
  destruct (owner_shape _ _ _ _ _ _ _ K L) as (Fp & _).
  destruct (owner_shape _ _ _ _ _ _ _ K1' L1) as (Fp1 & _).
  rewrite !mode_lookup, L, L1. split.
  - intros Hin. rewrite Forall_forall in Q. rewrite Hn in Fp1.
    destruct (lookup_stream_In _ _ _ _ L1) as (_ & Ht1 & _).
    exact (has_mode_absent _ _ _ (Q _ Hin p1 Fp1) Ht1).
  - intros Hout. rewrite Hn, (Un _ Hout), Fp in Fp1. injection Fp1 as <-.
    apply lookup_stream_find in L, L1. congruence.
Qed.

Lemma constructed_CtoP (W : bool) (d : Device.t) (cm : CalibrationModel)
    (ps : Store) (n : ProcName) :
  skeleton ps = skeleton (constructed W d cm) ->
  iterate_processor_CtoP_before (length ps) ps n
  = iterate_processor_CtoP_before (length (constructed W d cm)) (constructed W d cm) n.
Proof.
  intros K. rewrite (skeleton_length _ _ K). now apply skeleton_CtoP.
Qed.

Lemma constructed_PtoC (W : bool) (d : Device.t) (cm : CalibrationModel)
    (ps : Store) (n : ProcName) :
  skeleton ps = skeleton (constructed W d cm) ->
  iterate_processor_PtoC_before (length ps) ps n
  = iterate_processor_PtoC_before (length (constructed W d cm)) (constructed W d cm) n.
Proof.
  intros K. rewrite (skeleton_length _ _ K). now apply skeleton_PtoC.
Qed.

Lemma unknown_mode (W : bool) (d : Device.t) (cm : CalibrationModel) (st : Synthetic) :
  skeleton (processors_ st) = skeleton (constructed W d cm) ->
  GetStreamEnabledMode st LAST = MODE_LAST.
Proof.
  intros K. pose proof (constructed_unknown W d cm st K) as U.
  rewrite mode_lookup. unfold getProcessorWithStream in U.
  now destruct (lookup_stream (processors_ st) LAST) as [[p t]|].
Qed.

(** Membership in an explicit list of constructors, after evaluation. *)
Ltac no_member H :=
  repeat match type of H with
         | _ \/ _ => destruct H as [H | H]; [discriminate H|]
         end;
  first [contradiction | discriminate H].

Ltac is_member := repeat first [left; reflexivity | right].

(** X16. In a running process, a non-dry-run [EnableStreamData(S)] that
    returns switches to SYNTHETIC exactly the disabled streams upstream of
    [S] ([S] included) and leaves every other enabled mode as it was: under
    PINHOLE the chain is LEFT/RIGHT, the rectified pair, DISPARITY, then
    POINTS, then DEPTH; under KANNALA_BRANDT DEPTH comes before POINTS;
    DISPARITY_NORMALIZED hangs off DISPARITY.  In particular every stream
    upstream of [S] is enabled afterwards. *)
Theorem X16_enable_reaches_upstream (W : bool) (d : Device.t) (cm : CalibrationModel)
    (a : ProcessState) (S : Stream) (log : list Stream) (st' : Synthetic) :
  Running W d cm a ->
  EnableStreamData (pipeline a) S false = Done (log, st') ->
  forall S',
    (In S' (upstream (effective_model W cm) S) ->
     GetStreamEnabledMode st' S'
     = (if mode_eqb (GetStreamEnabledMode (pipeline a) S') MODE_LAST
        then MODE_SYNTHETIC else GetStreamEnabledMode (pipeline a) S')
     /\ IsStreamDataEnabled st' S' = true)
    /\ (~ In S' (upstream (effective_model W cm) S) ->
        GetStreamEnabledMode st' S' = GetStreamEnabledMode (pipeline a) S').
Proof.
  intros R E S'.
  pose proof (Running_inv _ _ _ _ R) as [K _ _ _].
  unfold EnableStreamData in E.
  destruct (getProcessorWithStream (pipeline a) S) as [n|] eqn:G; simpl in E;
    [|discriminate].
  injection E as _ <-.
  remember (iterate_processor_CtoP_before (length (processors_ (pipeline a)))
              (processors_ (pipeline a)) n) as walk eqn:Hw.
  pose proof (visit_all_settles walk (processors_ (pipeline a))) as Q.
  pose proof (visit_all_moved MODE_LAST MODE_SYNTHETIC (enable_visit false) walk
                (processors_ (pipeline a)) ltac:(discriminate)
                (enable_visit_moved false)) as Mv.
  set (st1 := with_processors
                (snd (visit_all (enable_visit false) walk (processors_ (pipeline a))))
                (pipeline a)) in *.
  destruct (store_moved_registry MODE_LAST MODE_SYNTHETIC (pipeline a) st1 Mv S')
    as (_ & _ & _ & Hm).
  assert (skeleton (processors_ st1) = skeleton (processors_ (pipeline a))) as K1
      by (apply visit_all_skeleton, enable_visit_keeps).
  assert (forall m, ~ In m walk ->
                    find_proc (processors_ st1) m = find_proc (processors_ (pipeline a)) m)
    as Un by (intros m Hm'; apply visit_all_untouched;
              [intros p; apply enable_visit_keeps | exact Hm']).
  rewrite IsStreamDataEnabled_mode.
  destruct (Stream_eq_dec S' LAST) as [-> | NS'].
  { rewrite (unknown_mode W d cm (pipeline a) K),
      (unknown_mode W d cm st1 (eq_trans K1 K)).
    split; [|reflexivity].
    intros H; exfalso; destruct S, (effective_model W cm); vm_compute in H; no_member H. }
  destruct (constructed_registers W d cm _ S' K NS') as (n' & G').
  destruct (walk_effect W d cm MODE_LAST walk (pipeline a) st1 S' n' K K1 Un Q G')
    as (Hin & Hout).
  rewrite (constructed_CtoP W d cm _ n K) in Hw.
  rewrite (constructed_owner W d cm _ S K) in G.
  rewrite (constructed_owner W d cm _ S' K) in G'.
  split.
  - intros H.
    assert (In n' walk) as Hw'.
    { subst walk.
      destruct W, cm, S; vm_compute in G; try discriminate G; injection G as <-;
        destruct S'; vm_compute in G'; try discriminate G'; injection G' as <-;
        vm_compute; vm_compute in H;
        first [solve [is_member] | exfalso; no_member H]. }
    specialize (Hin Hw').
    destruct Hm as [Hm | (Hm1 & Hm2)].
    + rewrite Hm in *. split.
      * destruct (mode_eqb (GetStreamEnabledMode (pipeline a) S') MODE_LAST) eqn:Em;
          [apply mode_eqb_eq in Em; contradiction | reflexivity].
      * apply negb_true_iff, mode_eqb_neq, Hin.
    + rewrite Hm1, Hm2. split; reflexivity.
  - intros H. apply Hout. subst walk.
    destruct W, cm, S; vm_compute in G; try discriminate G; injection G as <-;
      destruct S'; vm_compute in G'; try discriminate G'; injection G' as <-;
      vm_compute; vm_compute in H;
      first [exfalso; apply H; solve [is_member]
            | let X := fresh "X" in intros X; no_member X].
Qed.

(** X17. In a running process, a non-dry-run [DisableStreamData(S)] that
    returns switches to NONE exactly the SYNTHETIC streams downstream of [S]
    ([S] included, the streams of its own stage and of every stage it
    feeds) and leaves every other enabled mode as it was; NATIVE streams
    downstream stay NATIVE. *)
Theorem X17_disable_reaches_downstream (W : bool) (d : Device.t) (cm : CalibrationModel)
    (a : ProcessState) (S : Stream) (log : list Stream) (st' : Synthetic) :
  Running W d cm a ->
  DisableStreamData (pipeline a) S false = Done (log, st') ->
  forall S',
    (In S' (downstream (effective_model W cm) S) ->
     GetStreamEnabledMode st' S'
     = (if mode_eqb (GetStreamEnabledMode (pipeline a) S') MODE_SYNTHETIC
        then MODE_LAST else GetStreamEnabledMode (pipeline a) S'))
    /\ (~ In S' (downstream (effective_model W cm) S) ->
        GetStreamEnabledMode st' S' = GetStreamEnabledMode (pipeline a) S').
Proof.
  intros R E S'.
  pose proof (Running_inv _ _ _ _ R) as [K _ _ _].
  unfold DisableStreamData in E.
  destruct (getProcessorWithStream (pipeline a) S) as [n|] eqn:G; simpl in E;
    [|discriminate].
  injection E as _ <-.
  remember (iterate_processor_PtoC_before (length (processors_ (pipeline a)))
              (processors_ (pipeline a)) n) as walk eqn:Hw.
  pose proof (visit_all_quiets walk (processors_ (pipeline a))) as Q.
  pose proof (visit_all_moved MODE_SYNTHETIC MODE_LAST (disable_visit false) walk
                (processors_ (pipeline a)) ltac:(discriminate)
                (disable_visit_moved false)) as Mv.
  set (st1 := with_processors
                (snd (visit_all (disable_visit false) walk (processors_ (pipeline a))))
                (pipeline a)) in *.
  destruct (store_moved_registry MODE_SYNTHETIC MODE_LAST (pipeline a) st1 Mv S')
    as (_ & _ & _ & Hm).
  assert (skeleton (processors_ st1) = skeleton (processors_ (pipeline a))) as K1
      by (apply visit_all_skeleton, disable_visit_keeps).
  assert (forall m, ~ In m walk ->
                    find_proc (processors_ st1) m = find_proc (processors_ (pipeline a)) m)
    as Un by (intros m Hm'; apply visit_all_untouched;
              [intros p; apply disable_visit_keeps | exact Hm']).
  destruct (Stream_eq_dec S' LAST) as [-> | NS'].
  { rewrite (unknown_mode W d cm (pipeline a) K),
      (unknown_mode W d cm st1 (eq_trans K1 K)).
    split; reflexivity. }
  destruct (constructed_registers W d cm _ S' K NS') as (n' & G').
  destruct (walk_effect W d cm MODE_SYNTHETIC walk (pipeline a) st1 S' n' K K1 Un Q G')
    as (Hin & Hout).
  rewrite (constructed_PtoC W d cm _ n K) in Hw.
  rewrite (constructed_owner W d cm _ S K) in G.
  rewrite (constructed_owner W d cm _ S' K) in G'.
  split.
  - intros H.
    assert (In n' walk) as Hw'.
    { subst walk.
      destruct W, cm, S; vm_compute in G; try discriminate G; injection G as <-;
        destruct S'; vm_compute in G'; try discriminate G'; injection G' as <-;
        vm_compute; vm_compute in H;
        first [solve [is_member] | exfalso; no_member H]. }
    specialize (Hin Hw').
    destruct Hm as [Hm | (Hm1 & Hm2)].
    + rewrite Hm in *.
      destruct (mode_eqb (GetStreamEnabledMode (pipeline a) S') MODE_SYNTHETIC) eqn:Em;
        [apply mode_eqb_eq in Em; contradiction | reflexivity].
    + rewrite Hm1, Hm2. reflexivity.
  - intros H. apply Hout. subst walk.
    destruct W, cm, S; vm_compute in G; try discriminate G; injection G as <-;
      destruct S'; vm_compute in G'; try discriminate G'; injection G' as <-;
      vm_compute; vm_compute in H;
      first [exfalso; apply H; solve [is_member]
            | let X := fresh "X" in intros X; no_member X].
Qed.

(** ** Starting and stopping video streaming *)

Lemma installed_start (st : Synthetic) :
  installed (StartVideoStreaming st) = native_support_streams (processors_ st).
Proof.
  unfold StartVideoStreaming, installed. rewrite flat_map_app; simpl.
  rewrite app_nil_r. induction (native_support_streams (processors_ st)); simpl;
    [reflexivity | now f_equal].
Qed.

Lemma removed_stop (st : Synthetic) :
  removed (StopVideoStreaming st) = native_support_streams (processors_ st).
Proof.
  unfold StopVideoStreaming, removed. rewrite flat_map_app; simpl.
  rewrite app_nil_r. induction (native_support_streams (processors_ st)); simpl;
    [reflexivity | now f_equal].
Qed.

Lemma registered_streams_skeleton (ps : Store) :
  registered_streams ps = flat_map snd (skeleton ps).
Proof.
  unfold registered_streams, skeleton.
  induction ps as [|p tl IH]; simpl; [reflexivity | now rewrite IH].
Qed.

Lemma constructed_registered (W : bool) (d : Device.t) (cm : CalibrationModel) (ps : Store) :
  skeleton ps = skeleton (constructed W d cm) ->
  registered_streams ps
  = [LEFT; RIGHT; LEFT_RECTIFIED; RIGHT_RECTIFIED; DISPARITY; DISPARITY_NORMALIZED;
     POINTS; DEPTH].
Proof.
  intros K. rewrite registered_streams_skeleton, K.
  destruct W, cm; vm_compute; reflexivity.
Qed.

Lemma NoDup_app_disjoint {A : Type} (l l' : list A) (x : A) :
  NoDup (l ++ l') -> In x l -> In x l' -> False.
Proof.
  induction l as [|a tl IH]; simpl; [contradiction|].
  intros N [-> | Hin] Hin'.
  - apply NoDup_cons_iff in N as [Na _]. apply Na, in_or_app; now right.
  - apply NoDup_cons_iff in N as [_ Ntl]. now apply IH.
Qed.

Lemma find_nodup (ts : list stream_control_t) (t : stream_control_t) :
  NoDup (map stream ts) -> In t ts -> find (is_stream (stream t)) ts = Some t.
Proof.
  induction ts as [|u tl IH]; simpl; [contradiction|].
  intros N [-> | Hin].
  - unfold is_stream. now rewrite Stream_eqb_refl.
  - apply NoDup_cons_iff in N as [Nu Ntl].
    unfold is_stream at 1. destruct (Stream_eqb (stream u) (stream t)) eqn:E.
    + apply Stream_eqb_eq in E. exfalso; apply Nu. rewrite E. now apply in_map.
    + now apply IH.
Qed.

Lemma lookup_nodup (ps : Store) (p : Processor) (t : stream_control_t) :
  NoDup (registered_streams ps) -> In p ps -> In t (target_streams_ p) ->
  lookup_stream ps (stream t) = Some (p, t).
Proof.
  unfold registered_streams.
  induction ps as [|q tl IH]; simpl; [contradiction|].
  intros N [-> | Hp] Ht; unfold getTargetStreams.
  - rewrite find_nodup; [reflexivity | | exact Ht].
    now apply NoDup_app_remove_r in N.
  - assert (find (is_stream (stream t)) (target_streams_ q) = None) as ->.
    { apply find_is_stream_none. rewrite existsb_is_stream.
      destruct (existsb _ (map stream (target_streams_ q))) eqn:E; [|reflexivity].
      apply existsb_exists in E as (x & Hx & Ex). apply Stream_eqb_eq in Ex; subst x.
      exfalso. apply (NoDup_app_disjoint _ _ (stream t) N Hx).
      apply in_flat_map. exists p. split; [exact Hp | now apply in_map]. }
    apply IH; auto. now apply NoDup_app_remove_l in N.
Qed.

Lemma NoDup_map_filter {A B : Type} (f : A -> B) (g : A -> bool) (l : list A) :
  NoDup (map f l) -> NoDup (map f (filter g l)).
Proof.
  induction l as [|a tl IH]; simpl; [auto|].
  intros N; apply NoDup_cons_iff in N as [Na Ntl].
  destruct (g a); simpl; [|auto]. constructor; [|auto].
  intros H; apply Na. apply in_map_iff in H as (x & Hx & Hin).
  apply filter_In in Hin as [Hin _]. rewrite <- Hx. now apply in_map.
Qed.

Lemma native_support_incl (ps : Store) (s : Stream) :
  In s (native_support_streams ps) -> In s (registered_streams ps).
Proof.
  unfold native_support_streams, registered_streams. rewrite !in_flat_map.
  intros (p & Hp & H). exists p; split; [exact Hp|].
  apply in_map_iff in H as (t & <- & Ht). apply filter_In in Ht as [Ht _].
  now apply in_map.
Qed.

Lemma native_support_nodup (ps : Store) :
  NoDup (registered_streams ps) -> NoDup (native_support_streams ps).
Proof.
  induction ps as [|p tl IH]; [auto|].
  change (registered_streams (p :: tl))
    with (map stream (target_streams_ p) ++ registered_streams tl).
  change (native_support_streams (p :: tl))
    with (map stream (filter (fun t => mode_eqb (support_mode_ t) MODE_NATIVE)
                        (target_streams_ p)) ++ native_support_streams tl).
  intros N. apply NoDup_app.
  - apply NoDup_map_filter. now apply NoDup_app_remove_r in N.
  - apply IH. now apply NoDup_app_remove_l in N.
  - intros s H1 H2. apply (NoDup_app_disjoint _ _ s N).
    + apply in_map_iff in H1 as (t & <- & Ht). apply filter_In in Ht as [Ht _].
      now apply in_map.
    + now apply native_support_incl.
Qed.

Lemma native_support_In (st : Synthetic) (S : Stream) :
  NoDup (registered_streams (processors_ st)) ->
  (In S (native_support_streams (processors_ st)) <-> SupportsMode st S = MODE_NATIVE).
Proof.
  intros N. unfold SupportsMode, getControlDateWithStream. rewrite check_lookup. split.
  - unfold native_support_streams. rewrite in_flat_map.
    intros (p & Hp & H). apply in_map_iff in H as (t & <- & Ht).
    apply filter_In in Ht as [Ht Hm]. apply mode_eqb_eq in Hm.
    now rewrite (lookup_nodup _ p t N Hp Ht).
  - destruct (lookup_stream (processors_ st) S) as [[p t]|] eqn:L; [|discriminate].
    intros Hm. destruct (lookup_stream_In _ _ _ _ L) as (Hp & Ht & Hs).
    unfold native_support_streams. apply in_flat_map. exists p; split; [exact Hp|].
    rewrite <- Hs. apply in_map. apply filter_In. split; [exact Ht|].
    now apply mode_eqb_eq.
Qed.

(** X18. [StopVideoStreaming] removes the device callback from exactly the
    streams [StartVideoStreaming] installs one on.  In a running process
    these are the streams whose support mode the construction fixed as
    NATIVE (LEFT, RIGHT, and what the device produces besides), each of them
    once, whatever has been enabled or disabled in between; a callback is
    never installed for LAST. *)
Theorem X18_start_stop_streaming (W : bool) (d : Device.t) (cm : CalibrationModel)
    (a : ProcessState) :
  Running W d cm a ->
  removed (StopVideoStreaming (pipeline a)) = installed (StartVideoStreaming (pipeline a))
  /\ installed (StopVideoStreaming (pipeline a)) = []
  /\ NoDup (installed (StartVideoStreaming (pipeline a)))
  /\ (forall S, In S (installed (StartVideoStreaming (pipeline a))) <->
                support_table d S = MODE_NATIVE)
  /\ In LEFT (installed (StartVideoStreaming (pipeline a)))
  /\ In RIGHT (installed (StartVideoStreaming (pipeline a)))
  /\ ~ In LAST (installed (StartVideoStreaming (pipeline a))).
Proof.
  intros R. pose proof (Running_inv _ _ _ _ R) as [K _ _ _].
  assert (NoDup (registered_streams (processors_ (pipeline a)))) as N.
  { rewrite (constructed_registered W d cm _ K).
    repeat constructor; simpl; intuition discriminate. }
  assert (forall S, In S (installed (StartVideoStreaming (pipeline a))) <->
                    support_table d S = MODE_NATIVE) as Tbl.
  { intros S. rewrite installed_start, (native_support_In _ S N).
    now rewrite (proj1 (support_mode_fixed W d cm a S R)). }
  split; [now rewrite removed_stop, installed_start|].
  split.
  { unfold StopVideoStreaming, installed. rewrite flat_map_app; simpl.
    induction (native_support_streams (processors_ (pipeline a))); simpl; auto. }
  split; [rewrite installed_start; now apply native_support_nodup|].
  split; [exact Tbl|].
  split; [now apply Tbl|]. split; [now apply Tbl|].
  intros H; apply Tbl in H; discriminate.
Qed.

(** ** Sequences of stream data *)



(** ** The callback installed on the device *)

Lemma ProcessNativeStream_members (W : bool) (st st' : Synthetic) (sv : Statics)
    (s : Stream) (x : StreamData) :
  stream_data_listener_ st' = stream_data_listener_ st ->
  calib_model_ st' = calib_model_ st ->
  ProcessNativeStream W st' sv s x = ProcessNativeStream W st sv s x.
Proof.
  intros L C. unfold ProcessNativeStream, NotifyStreamData. now rewrite L, C.
Qed.

Lemma set_callback_stored (st : Synthetic) (S : Stream) (c : stream_callback_t) :
  Supports st S = true ->
  getControlDateWithStream (SetStreamCallback st S c) S
  = set_stream_callback c (getControlDateWithStream st S)
  /\ checkControlDateWithStream (SetStreamCallback st S c) S = true.
Proof.
  intros H.
  assert (processors_ (SetStreamCallback st S c)
          = set_callback_in (processors_ st) S c) as P.
  { unfold SetStreamCallback, setControlDateCallbackWithStream; simpl.
    now destruct c. }
  unfold Supports in H; rewrite check_lookup_snd in H.
  rewrite !getControl_lookup, check_lookup_snd, P, lookup_same_set_callback_in.
  now destruct (lookup_stream (processors_ st) S).
Qed.

(** X20. The callback that [StartVideoStreaming] installs for a registered
    stream [S] first runs the dispatcher on the converted frame and then
    calls the stream's own callback, if one is set, with that same data.
    Setting or clearing the stream callback changes nothing of what the
    dispatcher does and of the statics: with [SetStreamCallback(S, f)] the
    events end with the call of [f], with [SetStreamCallback(S, nullptr)]
    they are the dispatcher's alone.  A device datum without a frame is
    outside the contract of the conversion. *)
Theorem X20_native_callback (W : bool) (st : Synthetic) (sv : Statics) (S : Stream)
    (c : stream_callback_t) (x : device_StreamData) (fr : Frame) :
  Supports st S = true ->
  dev_frame x = Some fr ->
  let y := mkStreamData (dev_img x) (frame2mat (api_device st) fr) (Some fr)
             (dev_frame_id x) in
  native_callback W (SetStreamCallback st S c) sv S x
  = Done (fst (ProcessNativeStream W st sv S y)
          ++ match c with Some f => [Callback f y] | None => [] end,
          snd (ProcessNativeStream W st sv S y)).
Proof.
  intros Sup Fr y.
  unfold native_callback, data2api.
  assert (api_device (SetStreamCallback st S c) = api_device st) as -> by reflexivity.
  rewrite Fr; simpl. fold y.
  rewrite (ProcessNativeStream_members W st (SetStreamCallback st S c))
    by reflexivity.
  destruct (set_callback_stored st S c Sup) as (G & Hc).
  unfold notify_callback, HasStreamCallback. rewrite Hc, G; simpl.
  now destruct c.
Qed.

(** ** Sample runs *)

Lemma pipeline_lr_running :
  Running false device_lr PINHOLE (mkProcessState pipeline_lr Statics_init []).
Proof. apply Run_start. vm_compute; reflexivity. Qed.

Lemma process_depth_on_running :
  Running false device_lr PINHOLE process_depth_on.
Proof.
  apply Run_step with (a := mkProcessState pipeline_lr Statics_init []).
  - exact pipeline_lr_running.
  - apply (@Step_enable false (mkProcessState pipeline_lr Statics_init []) DEPTH false
             [LEFT_RECTIFIED; RIGHT_RECTIFIED; DISPARITY; POINTS; DEPTH]
             pipeline_depth_on).
    vm_compute; reflexivity.
Qed.


Lemma process_disparity_out_running :
  Running false device_lr PINHOLE process_disparity_out.
Proof.
  apply Run_step with (a := mkProcessState pipeline_disparity_on Statics_init []).
  - apply Run_step with (a := mkProcessState pipeline_lr Statics_init []).
    + exact pipeline_lr_running.
    + apply (@Step_enable false (mkProcessState pipeline_lr Statics_init [])
               DISPARITY false [LEFT_RECTIFIED; RIGHT_RECTIFIED; DISPARITY]
               pipeline_disparity_on).
      vm_compute; reflexivity.
  - apply (@Step_publish false (mkProcessState pipeline_disparity_on Statics_init [])
             DisparityProcessor (Obj1 sample_single)).
Qed.

(** X2, witness: DISPARITY disabled after DEPTH was enabled, then disabled
    once more. *)
Lemma X2_disable_idempotent_witness :
  DisableStreamData pipeline_depth_on DISPARITY false
  = Done ([DEPTH; POINTS; DISPARITY], pipeline_depth_off)
  /\ DisableStreamData pipeline_depth_off DISPARITY false = Done ([], pipeline_depth_off).
Proof.
  assert (DisableStreamData pipeline_depth_on DISPARITY false
          = Done ([DEPTH; POINTS; DISPARITY], pipeline_depth_off)) as E
    by (vm_compute; reflexivity).
  split; [exact E|].
  exact (X2_disable_idempotent pipeline_depth_on pipeline_depth_off DISPARITY _ E).
Defined.

(** X3, witness: enabling DEPTH on a fresh pipeline. *)
Lemma X3_enable_frame_witness :
  EnableStreamData pipeline_lr DEPTH false
  = Done ([LEFT_RECTIFIED; RIGHT_RECTIFIED; DISPARITY; POINTS; DEPTH], pipeline_depth_on)
  /\ registry_moved MODE_LAST MODE_SYNTHETIC pipeline_lr pipeline_depth_on
  /\ (forall S', IsStreamEnabledNative pipeline_depth_on S'
                 = IsStreamEnabledNative pipeline_lr S').
Proof.
  assert (EnableStreamData pipeline_lr DEPTH false
          = Done ([LEFT_RECTIFIED; RIGHT_RECTIFIED; DISPARITY; POINTS; DEPTH],
                  pipeline_depth_on)) as E
    by (vm_compute; reflexivity).
  split; [exact E|].
  destruct (X3_enable_frame pipeline_lr pipeline_depth_on DEPTH false _ E)
    as (H1 & _ & H3 & _).
  split; [exact H1 | exact H3].
Defined.

(** X4, witness: disabling DISPARITY after DEPTH was enabled. *)
Lemma X4_disable_frame_witness :
  DisableStreamData pipeline_depth_on DISPARITY false
  = Done ([DEPTH; POINTS; DISPARITY], pipeline_depth_off)
  /\ registry_moved MODE_SYNTHETIC MODE_LAST pipeline_depth_on pipeline_depth_off
  /\ (forall S', IsStreamDataEnabled pipeline_depth_off S' = true ->
                 IsStreamDataEnabled pipeline_depth_on S' = true).
Proof.
  assert (DisableStreamData pipeline_depth_on DISPARITY false
          = Done ([DEPTH; POINTS; DISPARITY], pipeline_depth_off)) as E
    by (vm_compute; reflexivity).
  split; [exact E|].
  destruct (X4_disable_frame pipeline_depth_on pipeline_depth_off DISPARITY false _ E)
    as (H1 & H2 & _).
  split; [exact H1 | exact H2].
Defined.

(** X5, witness: enabling DEPTH on a fresh pipeline. *)
Lemma X5_enable_postcondition_witness :
  EnableStreamData pipeline_lr DEPTH false
  = Done ([LEFT_RECTIFIED; RIGHT_RECTIFIED; DISPARITY; POINTS; DEPTH], pipeline_depth_on)
  /\ IsStreamDataEnabled pipeline_depth_on DEPTH = true.
Proof.
  assert (EnableStreamData pipeline_lr DEPTH false
          = Done ([LEFT_RECTIFIED; RIGHT_RECTIFIED; DISPARITY; POINTS; DEPTH],
                  pipeline_depth_on)) as E
    by (vm_compute; reflexivity).
  split; [exact E|].
  exact (proj1 (X5_enable_postcondition false device_lr PINHOLE
                  (mkProcessState pipeline_lr Statics_init []) DEPTH _ _
                  pipeline_lr_running E)).
Defined.

(** X6, witness: disabling DISPARITY after DEPTH was enabled. *)
Lemma X6_disable_postcondition_witness :
  DisableStreamData pipeline_depth_on DISPARITY false
  = Done ([DEPTH; POINTS; DISPARITY], pipeline_depth_off)
  /\ IsStreamEnabledSynthetic pipeline_depth_off DISPARITY = false.
Proof.
  assert (DisableStreamData pipeline_depth_on DISPARITY false
          = Done ([DEPTH; POINTS; DISPARITY], pipeline_depth_off)) as E
    by (vm_compute; reflexivity).
  split; [exact E|].
  exact (proj1 (X6_disable_postcondition false device_lr PINHOLE process_depth_on
                  DISPARITY _ _ process_depth_on_running E)).
Defined.

(** X11, witness: reading DISPARITY after the disparity stage published. *)
Lemma X11_read_single_output_witness :
  GetStreamEnabledMode pipeline_disparity_out DISPARITY = MODE_SYNTHETIC
  /\ exists n p,
       getProcessorWithStream pipeline_disparity_out DISPARITY = Done n
       /\ find_proc (processors_ pipeline_disparity_out) n = Some p
       /\ GetStreamData pipeline_disparity_out Statics_init DISPARITY
          = Done (match GetOutput p with
                  | Some (Obj1 o) => mkStreamData (data o) (value o) None (id o)
                  | _ => StreamData_empty
                  end, Statics_init).
Proof.
  assert (GetStreamEnabledMode pipeline_disparity_out DISPARITY = MODE_SYNTHETIC) as M
    by (vm_compute; reflexivity).
  split; [exact M|].
  exact (X11_read_single_output false device_lr PINHOLE process_disparity_out DISPARITY
           process_disparity_out_running (or_introl eq_refl) M).
Defined.

(** X15, witness: the support mode of DEPTH on a fresh pipeline. *)
Lemma X15_support_is_fixed_witness :
  SupportsMode pipeline_depth_on DEPTH = support_table device_lr DEPTH
  /\ IsStreamEnabledNative pipeline_depth_on LEFT
     = mode_eqb (support_table device_lr LEFT) MODE_NATIVE.
Proof.
  split.
  - exact (proj1 (X15_support_is_fixed false device_lr PINHOLE process_depth_on DEPTH
                    process_depth_on_running)).
  - exact (proj2 (proj2 (X15_support_is_fixed false device_lr PINHOLE process_depth_on
                           LEFT process_depth_on_running))).
Defined.

(** X16, witness: enabling DEPTH on a fresh pipeline reaches DISPARITY and
    leaves DISPARITY_NORMALIZED alone. *)
Lemma X16_enable_reaches_upstream_witness :
  EnableStreamData pipeline_lr DEPTH false
  = Done ([LEFT_RECTIFIED; RIGHT_RECTIFIED; DISPARITY; POINTS; DEPTH], pipeline_depth_on)
  /\ IsStreamDataEnabled pipeline_depth_on DISPARITY = true
  /\ GetStreamEnabledMode pipeline_depth_on DISPARITY_NORMALIZED
     = GetStreamEnabledMode pipeline_lr DISPARITY_NORMALIZED.
Proof.
  assert (EnableStreamData pipeline_lr DEPTH false
          = Done ([LEFT_RECTIFIED; RIGHT_RECTIFIED; DISPARITY; POINTS; DEPTH],
                  pipeline_depth_on)) as E
    by (vm_compute; reflexivity).
  split; [exact E|]. split.
  - refine (proj2 (proj1 (X16_enable_reaches_upstream false device_lr PINHOLE
                            (mkProcessState pipeline_lr Statics_init []) DEPTH _ _
                            pipeline_lr_running E DISPARITY) _)).
    vm_compute. do 4 right; left; reflexivity.
  - refine (proj2 (X16_enable_reaches_upstream false device_lr PINHOLE
                     (mkProcessState pipeline_lr Statics_init []) DEPTH _ _
                     pipeline_lr_running E DISPARITY_NORMALIZED) _).
    vm_compute. intros H; repeat (destruct H as [H | H]; [discriminate H|]); exact H.
Defined.

(** X17, witness: disabling DISPARITY after DEPTH was enabled reaches DEPTH
    and leaves LEFT_RECTIFIED alone. *)
Lemma X17_disable_reaches_downstream_witness :
  DisableStreamData pipeline_depth_on DISPARITY false
  = Done ([DEPTH; POINTS; DISPARITY], pipeline_depth_off)
  /\ GetStreamEnabledMode pipeline_depth_off DEPTH = MODE_LAST
  /\ GetStreamEnabledMode pipeline_depth_off LEFT_RECTIFIED
     = GetStreamEnabledMode pipeline_depth_on LEFT_RECTIFIED.
Proof.
  assert (DisableStreamData pipeline_depth_on DISPARITY false
          = Done ([DEPTH; POINTS; DISPARITY], pipeline_depth_off)) as E
    by (vm_compute; reflexivity).
  split; [exact E|]. split.
  - rewrite (proj1 (X17_disable_reaches_downstream false device_lr PINHOLE
                      process_depth_on DISPARITY _ _ process_depth_on_running E DEPTH)).
    + vm_compute; reflexivity.
    + vm_compute. do 3 right; left; reflexivity.
  - refine (proj2 (X17_disable_reaches_downstream false device_lr PINHOLE
                     process_depth_on DISPARITY _ _ process_depth_on_running E
                     LEFT_RECTIFIED) _).
    vm_compute. intros H; repeat (destruct H as [H | H]; [discriminate H|]); exact H.
Defined.

(** X18, witness: a device that produces LEFT and RIGHT only. *)
Lemma X18_start_stop_streaming_witness :
  removed (StopVideoStreaming pipeline_depth_on)
  = installed (StartVideoStreaming pipeline_depth_on)
  /\ In LEFT (installed (StartVideoStreaming pipeline_depth_on))
  /\ ~ In LAST (installed (StartVideoStreaming pipeline_depth_on)).
Proof.
  destruct (X18_start_stop_streaming false device_lr PINHOLE process_depth_on
              process_depth_on_running) as (H1 & _ & _ & _ & H5 & _ & H7).
  split; [exact H1|]. split; [exact H5 | exact H7].
Defined.


(** X20, witness: a callback set on LEFT of a fresh pipeline. *)
Lemma X20_native_callback_witness :
  Supports pipeline_lr LEFT = true
  /\ dev_frame sample_device_data = Some (sample_frame 1)
  /\ native_callback false (SetStreamCallback pipeline_lr LEFT (Some 3%nat)) Statics_init
       LEFT sample_device_data
     = Done (fst (ProcessNativeStream false pipeline_lr Statics_init LEFT (native_frame 1))
             ++ [Callback 3%nat (native_frame 1)],
             snd (ProcessNativeStream false pipeline_lr Statics_init LEFT (native_frame 1))).
Proof.
  assert (Supports pipeline_lr LEFT = true) as S by (vm_compute; reflexivity).
  assert (dev_frame sample_device_data = Some (sample_frame 1)) as F by reflexivity.
  split; [exact S|]. split; [exact F|].
  exact (X20_native_callback false pipeline_lr Statics_init LEFT (Some 3%nat)
           sample_device_data (sample_frame 1) S F).
Defined.
